(** * Park-maintenance record keeper: the report assembler and its endpoints

    A shallow embedding of [src/app.py]: the report helpers
    ([_fmt_date], [_escape_html], [_build_table], [_build_report_html]),
    the query helpers ([rows], [execute]) over a model of the five-table
    store of [src/init_db.py], and the endpoints whose behaviour the
    specification describes ([list_*], [create_laporan], [report_all],
    [report_html], [admin_clear_all]); besides these, the other create
    endpoints of [src/app.py] ([create_taman], [create_petugas],
    [create_kegiatan], [create_tanaman]) and the account service of
    [src/auth_sqlite.py] ([register], [login]) over a model of its table.

    Conventions of the embedding.
    - A Python [str] is a [string]: the bytes of its UTF-8 text.  The
      fragments of the runtime that look inside a string ([str.lower],
      [int] of a string) are given on ASCII; bytes above 127
      are left alone by [lower] and refused by [int].  The account service
      is given on ASCII text as well: [str.strip] removes ASCII whitespace
      and [len] counts bytes.
    - A Python exception is a value of [exn]; code that can raise returns a
      [result]; [try ... except Exception: pass] is a match on it.
    - A dict with string keys is a [gmap string _], a dict with integer keys
      a [gmap Z _]; a row fetched with [cursor(dictionary=True)] is a
      [gmap string value].
    - The store is the environment: its tables are lists of typed rows, a
      connection carries the committed and the working state, and a driver
      fault (connection lost, ...) is decided by an oracle [nat -> bool] on
      the number of driver calls already made on that connection. *)

From Stdlib Require Import ZArith String Ascii List Lia Sorted.
From stdpp Require Import base option list strings gmap pretty.

Open Scope Z_scope.
Open Scope string_scope.

(** ** Exceptions and results *)

Inductive exn : Type :=
| TypeError
| ValueError
| KeyError
| AttributeError
| BadRequest
| MySQLError (msg : string).

Inductive result (A : Type) : Type :=
| Ok (a : A)
| Raise (e : exn).

Arguments Ok {A} a.
Arguments Raise {A} e.

Definition rbind {A B : Type} (c : result A) (k : A -> result B) : result B :=
  match c with
  | Ok a => k a
  | Raise e => Raise e
  end.

Notation "x <- c ;; k" := (rbind c (fun x => k))
  (at level 100, c at next level, right associativity,
   format "x  <-  c  ;;  '/' k").

(** [try: c except Exception: pass], for a block [c] whose only effect is
    to assign the value it computes to a variable that holds [d] before. *)
Definition try_or {A : Type} (d : A) (c : result A) : A :=
  match c with
  | Ok a => a
  | Raise _ => d
  end.

(** ** Strings *)

(** The double quote character, as a string. *)
Definition dq : string := String (ascii_of_nat 34) EmptyString.

Definition join (l : list string) : string := String.concat "" l.

Definition is_upper (c : ascii) : bool :=
  let n := nat_of_ascii c in (65 <=? n)%nat && (n <=? 90)%nat.

Definition lower_char (c : ascii) : ascii :=
  if is_upper c then ascii_of_nat (nat_of_ascii c + 32) else c.

(** [str.lower], on ASCII. *)
Fixpoint lower (s : string) : string :=
  match s with
  | EmptyString => EmptyString
  | String c r => String (lower_char c) (lower r)
  end.

(** [s.startswith(p)] *)
Fixpoint starts_with (p s : string) : bool :=
  match p with
  | EmptyString => true
  | String a p' =>
      match s with
      | EmptyString => false
      | String b s' => Ascii.eqb a b && starts_with p' s'
      end
  end.

(** [str.replace(old, new)] for a non-empty [old]: the occurrences are
    found from the left and do not overlap; [skip] counts the characters of
    the occurrence just replaced that are still to be dropped. *)
Fixpoint replace_go (old new : string) (skip : nat) (s : string) : string :=
  match s with
  | EmptyString => EmptyString
  | String c r =>
      match skip with
      | S k => replace_go old new k r
      | O =>
          if starts_with old s
          then new +:+ replace_go old new (String.length old - 1) r
          else String c (replace_go old new 0 r)
      end
  end.

(** [str.replace("", new)]: [new] before every character and at the end. *)
Fixpoint replace_empty (new s : string) : string :=
  match s with
  | EmptyString => new
  | String c r => new +:+ String c (replace_empty new r)
  end.

Definition replace (old new s : string) : string :=
  match old with
  | EmptyString => replace_empty new s
  | _ => replace_go old new 0 s
  end.

(** Whitespace as [int] sees it around a literal, on ASCII: tab to carriage
    return, and the space. *)
Definition is_space (c : ascii) : bool :=
  let n := nat_of_ascii c in
  ((9 <=? n)%nat && (n <=? 13)%nat) || (n =? 32)%nat.

(** The trimming [int] does around a literal. *)
Fixpoint lstrip (s : string) : string :=
  match s with
  | EmptyString => EmptyString
  | String c r => if is_space c then lstrip r else s
  end.

Definition strip (s : string) : string :=
  String.rev (lstrip (String.rev (lstrip s))).

Definition digit_of (c : ascii) : option Z :=
  let n := nat_of_ascii c in
  if (48 <=? n)%nat && (n <=? 57)%nat then Some (Z.of_nat n - 48) else None.

(** The digits of an integer literal: single underscores are allowed
    between digits, nowhere else. *)
Fixpoint parse_digits (acc : Z) (after_digit : bool) (s : string) : option Z :=
  match s with
  | EmptyString => if after_digit then Some acc else None
  | String c r =>
      match digit_of c with
      | Some d => parse_digits (10 * acc + d) true r
      | None =>
          if (c =? "_")%char && after_digit then parse_digits acc false r
          else None
      end
  end.

(** [int(s)] for a string, base 10: surrounding whitespace, an optional
    sign, the digits.  (The interpreter's configurable cap on the number of
    digits is not modelled.) *)
Definition int_of_string (s : string) : option Z :=
  match strip s with
  | String "+" r => parse_digits 0 false r
  | String "-" r => Z.opp <$> parse_digits 0 false r
  | r => parse_digits 0 false r
  end.

(** [str(n).zfill(w)] for a field of a date: the decimal digits, padded
    with zeros on the left to at least [w] characters. *)
Definition zpad (w : nat) (n : Z) : string :=
  let s := pretty n in
  join (replicate (w - String.length s) "0") +:+ s.

(** ** Values of a fetched row *)

(** A naive [datetime.datetime]. *)
Record datetime : Type := Datetime {
  year : Z; month : Z; day : Z;
  hour : Z; minute : Z; second : Z;
  microsecond : Z
}.

(** [d.isoformat(sep=" ", timespec="seconds")] *)
Definition isoformat_seconds (d : datetime) : string :=
  zpad 4 (year d) +:+ "-" +:+ zpad 2 (month d) +:+ "-" +:+ zpad 2 (day d)
  +:+ " " +:+
  zpad 2 (hour d) +:+ ":" +:+ zpad 2 (minute d) +:+ ":" +:+ zpad 2 (second d).

(** [str(d)]: the microseconds are printed when they are not zero. *)
Definition str_datetime (d : datetime) : string :=
  isoformat_seconds d +:+
  (if Z.eqb (microsecond d) 0 then "" else "." +:+ zpad 6 (microsecond d)).

(** What the connector hands back for the columns of the schema: [None]
    for NULL, [int] for INT, [str] for VARCHAR and TEXT, [datetime] for
    DATETIME. *)
Inductive value : Type :=
| VNone
| VInt (n : Z)
| VStr (s : string)
| VDatetime (d : datetime).

Abbreviation row := (gmap string value).

(** [str(v)] *)
Definition py_str (v : value) : string :=
  match v with
  | VNone => "None"
  | VInt n => pretty n
  | VStr s => s
  | VDatetime d => str_datetime d
  end.

(** [int(v)] *)
Definition py_int (v : value) : result Z :=
  match v with
  | VNone => Raise TypeError
  | VInt n => Ok n
  | VStr s =>
      match int_of_string s with
      | Some n => Ok n
      | None => Raise ValueError
      end
  | VDatetime _ => Raise TypeError
  end.

(** [bool(v)] *)
Definition truthy (v : value) : bool :=
  match v with
  | VNone => false
  | VInt n => negb (Z.eqb n 0)
  | VStr s => negb (String.eqb s "")
  | VDatetime _ => true
  end.

(** [v is not None] *)
Definition not_None (v : value) : bool :=
  match v with
  | VNone => false
  | _ => true
  end.

(** [a or b] *)
Definition py_or (a b : value) : value := if truthy a then a else b.

(** [d.get(k)], [d.get(k, dflt)] and [d[k]] on a row. *)
Definition get (d : row) (k : string) : value := default VNone (d !! k).

Definition get_or (d : row) (k : string) (dflt : value) : value :=
  default dflt (d !! k).

Definition getitem (d : row) (k : string) : result value :=
  match d !! k with
  | Some v => Ok v
  | None => Raise KeyError
  end.

(** ** Report helpers *)

Definition _fmt_date (v : value) : value :=
  match v with
  | VDatetime d => VStr (isoformat_seconds d)
  | _ => v
  end.

Definition _escape_html (s : value) : string :=
  let s := match s with VNone => "" | _ => py_str s end in
  replace "'" "&#39;"
    (replace dq "&quot;"
      (replace ">" "&gt;"
        (replace "<" "&lt;"
          (replace "&" "&amp;" s)))).

Definition _build_table (headers : list value) (rows_ : list (list value)) : string :=
  let thead :=
    "<thead><tr>"
    +:+ join (map (fun h => "<th>" +:+ _escape_html h +:+ "</th>") headers)
    +:+ "</tr></thead>" in
  let tbody_rows :=
    map (fun r =>
           let tds := join (map (fun c => "<td>" +:+ _escape_html c +:+ "</td>") r) in
           "<tr>" +:+ tds +:+ "</tr>") rows_ in
  let tbody := "<tbody>" +:+ join tbody_rows +:+ "</tbody>" in
  "<table>" +:+ thead +:+ tbody +:+ "</table>".

(** ** The report assembler *)

Abbreviation bundle := (gmap string (list row)).

(** [bundle.get(k) or []] *)
Definition bundle_get (b : bundle) (k : string) : list row := default [] (b !! k).

(** Lookup 1, park identifier to park name: the dict comprehension of
    [_build_report_html]; a later row with the same key replaces an earlier
    one, and neither [int] nor the subscript is guarded. *)
Fixpoint map_taman_name_by_id_from (m : gmap Z value) (taman : list row)
  : result (gmap Z value) :=
  match taman with
  | [] => Ok m
  | t :: rest =>
      if not_None (get t "id_taman") then
        idv <- getitem t "id_taman";;
        k <- py_int idv;;
        v <- getitem t "nama_taman";;
        map_taman_name_by_id_from (<[k := v]> m) rest
      else map_taman_name_by_id_from m rest
  end.

Definition map_taman_name_by_id (taman : list row) : result (gmap Z value) :=
  map_taman_name_by_id_from ∅ taman.

(** One turn of the loop over the plant rows: the body runs under
    [try ... except Exception: pass]. *)
Definition tanaman_step (by_id : gmap Z value) (m : gmap Z value) (x : row)
  : gmap Z value :=
  try_or m
    (id_tanaman <- py_int (get x "id_tanaman");;
     id_taman <- (if not_None (get x "id_taman")
                  then k <- py_int (get x "id_taman");; Ok (Some k)
                  else Ok None);;
     match id_taman with
     | Some k => Ok (<[id_tanaman := default (VStr "-") (by_id !! k)]> m)
     | None => Ok m
     end).

(** Lookup 2, plant identifier to park name. *)
Definition map_taman_name_by_tanaman_id (by_id : gmap Z value) (tanaman_ : list row)
  : gmap Z value :=
  foldl (tanaman_step by_id) ∅ tanaman_.

(** The key of a plant row in lookup 3: [str(x.get("nama_umum","")).lower()]. *)
Definition name_key (x : row) : string :=
  lower (py_str (get_or x "nama_umum" (VStr ""))).

(** Lookup 3, case-folded plant name to plant row. *)
Definition map_tanaman_by_name (tanaman_ : list row) : gmap string row :=
  foldl (fun m x => <[name_key x := x]> m) ∅ tanaman_.

(** [bool(t_)] for a row: a dict is true when it is not empty. *)
Definition truthy_row (t_ : row) : bool := negb (bool_decide (t_ = ∅)).

(** The park name of one report row [L]: the [try] block of the loop that
    builds [rows5]; [nama_taman] is ["-"] before it. *)
Definition nama_taman_of (by_id by_tanaman_id : gmap Z value)
    (by_name : gmap string row) (L : row) : value :=
  try_or (VStr "-")
    (if not_None (get L "id_tanaman") then
       idv <- getitem L "id_tanaman";;
       k <- py_int idv;;
       Ok (default (VStr "-") (by_tanaman_id !! k))
     else if truthy (get L "tanaman") then
       nm <- getitem L "tanaman";;
       match by_name !! lower (py_str nm) with
       | Some t_ =>
           if truthy_row t_ && not_None (get t_ "id_taman") then
             idv <- getitem t_ "id_taman";;
             k <- py_int idv;;
             Ok (default (VStr "-") (by_id !! k))
           else Ok (VStr "-")
       | None => Ok (VStr "-")
       end
     else Ok (VStr "-")).

(** [[i+1 ...] for i, x in enumerate(l)] *)
Definition number (i : nat) : value := VInt (Z.of_nat i + 1).

Fixpoint mapM {A B : Type} (f : A -> result B) (l : list A) : result (list B) :=
  match l with
  | [] => Ok []
  | a :: rest => b <- f a;; bs <- mapM f rest;; Ok (b :: bs)
  end.

Definition sec1 (taman : list row) : string :=
  _build_table
    [VStr "No."; VStr "Nama"; VStr "Luas (mÂ²)"; VStr "Lokasi"]
    (imap (fun i t => [number i;
                       get_or t "nama_taman" (VStr "");
                       get_or t "luas_taman" (VStr "-");
                       get_or t "lokasi" (VStr "-")]) taman).

Definition sec2 (petugas : list row) : string :=
  _build_table
    [VStr "No."; VStr "Nama Petugas"; VStr "Jabatan"]
    (imap (fun i p => [number i;
                       get_or p "nama_petugas" (VStr "");
                       get_or p "jabatan" (VStr "-")]) petugas).

Definition sec3 (kegiatan : list row) : string :=
  _build_table
    [VStr "No."; VStr "Jenis Kegiatan"]
    (imap (fun i k => [number i; get_or k "jenis_kegiatan" (VStr "")]) kegiatan).

(** The rows of section IV: [int(x.get("id_taman") or 0)] is not guarded. *)
Definition rows4 (by_id : gmap Z value) (tanaman_ : list row)
  : result (list (list value)) :=
  mapM (fun ix : nat * row =>
          let (i, x) := ix in
          k <- py_int (py_or (get x "id_taman") (VInt 0));;
          Ok [number i;
              default (VStr "-") (by_id !! k);
              get_or x "nama_umum" (VStr "");
              get_or x "nama_ilmiah" (VStr "-");
              get_or x "jenis" (VStr "-")])
       (imap pair tanaman_).

Definition sec4 (by_id : gmap Z value) (tanaman_ : list row) : result string :=
  rs <- rows4 by_id tanaman_;;
  Ok (_build_table
        [VStr "No."; VStr "Nama Taman"; VStr "Nama Tanaman"; VStr "Nama Ilmiah"; VStr "Jenis"]
        rs).

Definition rows5 (by_id by_tanaman_id : gmap Z value) (by_name : gmap string row)
    (laporan : list row) : list (list value) :=
  imap (fun i L =>
          let nama_taman := nama_taman_of by_id by_tanaman_id by_name L in
          [number i;
           py_or (_fmt_date (get L "tanggal")) (VStr "");
           nama_taman;
           get_or L "tanaman" (VStr "");
           get_or L "kegiatan" (VStr "");
           get_or L "isi_laporan" (VStr "")]) laporan.

Definition sec5 (by_id by_tanaman_id : gmap Z value) (by_name : gmap string row)
    (laporan : list row) : string :=
  _build_table
    [VStr "No."; VStr "Tanggal"; VStr "Nama Taman"; VStr "Nama Tanaman";
     VStr "Kegiatan"; VStr "Isi Laporan"]
    (rows5 by_id by_tanaman_id by_name laporan).

(** The f-string of [_build_report_html]. *)
Definition page (tgl_str sec1 sec2 sec3 sec4 sec5 : string) : string :=
  "<!doctype html>
<html>
<head>
<meta charset=" +:+ dq +:+ "utf-8" +:+ dq +:+ ">
<title>Laporan Kegiatan Penataan Taman Kota</title>
<style>
  body{ font-family:Inter, Arial, sans-serif; color:#111827; margin:24px; }
  h1{ margin:0 0 8px; font-size:22px }
  h2{ margin:22px 0 8px; font-size:16px }
  .muted{ color:#374151; font-size:12px; margin-bottom:16px }
  table{ width:100%; border-collapse:collapse; margin:8px 0 18px }
  th,td{ border:1px solid #d1d5db; padding:8px 10px; font-size:12px; vertical-align:top }
  thead th{ background:#f3f4f6; font-weight:700 }
  .header{ display:flex; justify-content:space-between; align-items:flex-end; margin-bottom:8px }
  @media print{ @page{ size:A4; margin:15mm } body{ margin:0 } .noprint{ display:none !important } }
</style>
</head>
<body>
  <div class=" +:+ dq +:+ "header" +:+ dq +:+ ">
    <h1>Laporan Kegiatan Penataan Taman Kota</h1>
    <div class=" +:+ dq +:+ "muted" +:+ dq +:+ ">Tanggal cetak: "
  +:+ _escape_html (VStr tgl_str)
  +:+ "</div>
  </div>

  <h2>I. Identitas Taman</h2>
  "
  +:+ sec1
  +:+ "

  <h2>II. Susunan Petugas Taman</h2>
  "
  +:+ sec2
  +:+ "

  <h2>III. Kegiatan yang Dilakukan</h2>
  "
  +:+ sec3
  +:+ "

  <h2>IV. Data Tanaman di Taman</h2>
  "
  +:+ sec4
  +:+ "

  <h2>V. Laporan Pendataan Penataan Taman Kota</h2>
  "
  +:+ sec5
  +:+ "

  <div class=" +:+ dq +:+ "muted" +:+ dq +:+ ">Sumber: Sistem Informasi Perawatan Taman Kota</div>
</body>
</html>".

(** [tgl_str] is [datetime.now().strftime("%d %B %Y")], the print date. *)
Definition _build_report_html (tgl_str : string) (b : bundle) : result string :=
  let taman := bundle_get b "taman" in
  let petugas := bundle_get b "petugas" in
  let kegiatan := bundle_get b "kegiatan" in
  let tanaman_ := bundle_get b "tanaman" in
  let laporan := bundle_get b "laporan" in
  by_id <- map_taman_name_by_id taman;;
  let by_tanaman_id := map_taman_name_by_tanaman_id by_id tanaman_ in
  let by_name := map_tanaman_by_name tanaman_ in
  let s1 := sec1 taman in
  let s2 := sec2 petugas in
  let s3 := sec3 kegiatan in
  s4 <- sec4 by_id tanaman_;;
  let s5 := sec5 by_id by_tanaman_id by_name laporan in
  Ok (page tgl_str s1 s2 s3 s4 s5).

(** ** Requests *)

(** A parsed JSON body.  Numbers with a fraction or an exponent are outside
    the model.  The members of an object are kept as written; the parser
    lets the last member with a given key win. *)
#[local] Unset Elimination Schemes.
Inductive json : Type :=
| JNull
| JBool (b : bool)
| JInt (n : Z)
| JStr (s : string)
| JArr (items : list json)
| JObj (members : list (string * json)).
#[local] Set Elimination Schemes.

(** [bool(j)] *)
Definition json_truthy (j : json) : bool :=
  match j with
  | JNull => false
  | JBool b => b
  | JInt n => negb (Z.eqb n 0)
  | JStr s => negb (String.eqb s "")
  | JArr items => match items with [] => false | _ => true end
  | JObj members => match members with [] => false | _ => true end
  end.

Fixpoint member (k : string) (members : list (string * json)) : option json :=
  match members with
  | [] => None
  | (k', v) :: rest =>
      match member k rest with
      | Some w => Some w
      | None => if String.eqb k' k then Some v else None
      end
  end.

(** [payload.get(k, dflt)]: only a dict has the method. *)
Definition json_get (payload : json) (k : string) (dflt : json) : result json :=
  match payload with
  | JObj members => Ok (default dflt (member k members))
  | _ => Raise AttributeError
  end.

(** [payload[k]] for a string key. *)
Definition json_getitem (payload : json) (k : string) : result json :=
  match payload with
  | JObj members =>
      match member k members with
      | Some v => Ok v
      | None => Raise KeyError
      end
  | _ => Raise TypeError
  end.

(** [int(j)] *)
Definition json_int (j : json) : result Z :=
  match j with
  | JBool b => Ok (if b then 1 else 0)
  | JInt n => Ok n
  | JStr s =>
      match int_of_string s with
      | Some n => Ok n
      | None => Raise ValueError
      end
  | _ => Raise TypeError
  end.

(** The query string: the pairs in the order they were sent. *)
Definition args : Type := list (string * string).

Fixpoint first_arg (k : string) (a : args) : option string :=
  match a with
  | [] => None
  | (k', v) :: rest => if String.eqb k' k then Some v else first_arg k rest
  end.

(** [request.args.get(k, default=dflt, type=int)]: the default stands in
    for a missing key and for a value [int] refuses. *)
Definition args_get_int (a : args) (k : string) (dflt : option Z) : option Z :=
  match first_arg k a with
  | None => dflt
  | Some v =>
      match int_of_string v with
      | Some n => Some n
      | None => dflt
      end
  end.

(** What an endpoint returns: a status and a body.  An exception no
    endpoint catches is the [Raise] of the endpoint's [result]. *)
Inductive body : Type :=
| JsonBody (j : json)
| RowsBody (l : list row)
| BundleBody (b : bundle)
| HtmlBody (s : string).

Record response : Type := Response { status : Z; content : body }.

(** ** The store *)

Inductive table : Type := Laporan | Tanaman | Petugas | Kegiatan | Taman.

(** The rows of the five tables of [init_db.py]; a nullable column is an
    [option]. *)
Record taman_rec : Type := TamanRec {
  tm_id : Z; tm_nama : string; tm_luas : option Z; tm_lokasi : option string
}.

Record tanaman_rec : Type := TanamanRec {
  tn_id : Z; tn_id_taman : Z; tn_nama_umum : option string;
  tn_nama_ilmiah : option string; tn_jenis : option string
}.

Record petugas_rec : Type := PetugasRec {
  pt_id : Z; pt_nama : string; pt_jabatan : option string
}.

Record kegiatan_rec : Type := KegiatanRec { kg_id : Z; kg_jenis : string }.

Record laporan_rec : Type := LaporanRec {
  lp_id : Z; lp_id_tanaman : Z; lp_id_petugas : Z; lp_id_kegiatan : Z;
  lp_tanggal : datetime; lp_isi : option string
}.

(** The tables and their AUTO_INCREMENT counters. *)
Record db : Type := Db {
  t_laporan : list laporan_rec;
  t_tanaman : list tanaman_rec;
  t_petugas : list petugas_rec;
  t_kegiatan : list kegiatan_rec;
  t_taman : list taman_rec;
  ai_laporan : Z; ai_tanaman : Z; ai_petugas : Z; ai_kegiatan : Z; ai_taman : Z
}.

Definition opt_int (o : option Z) : value :=
  match o with Some n => VInt n | None => VNone end.

Definition opt_str (o : option string) : value :=
  match o with Some s => VStr s | None => VNone end.

(** ORDER BY: a stable insertion sort by the order [le]. *)
Fixpoint insert_sorted {A : Type} (le : A -> A -> bool) (x : A) (l : list A) : list A :=
  match l with
  | [] => [x]
  | y :: rest => if le x y then x :: l else y :: insert_sorted le x rest
  end.

Definition order_by {A : Type} (le : A -> A -> bool) (l : list A) : list A :=
  foldr (insert_sorted le) [] l.

(** The order of the text columns: the database is created with a
    case-insensitive collation. *)
Definition collate_leb (a b : string) : bool := String.leb (lower a) (lower b).

Fixpoint lex_leb (a b : list Z) : bool :=
  match a, b with
  | x :: a', y :: b' =>
      if Z.ltb x y then true else if Z.ltb y x then false else lex_leb a' b'
  | _, _ => true
  end.

Definition datetime_fields (d : datetime) : list Z :=
  [year d; month d; day d; hour d; minute d; second d; microsecond d].

Definition datetime_leb (a b : datetime) : bool :=
  lex_leb (datetime_fields a) (datetime_fields b).

(** The SELECT statements of [app.py]. *)
Inductive query : Type :=
| SelectTaman
| SelectPetugas
| SelectKegiatan
| SelectTanamanOf (id_taman : Z)
| SelectTanamanAll
| SelectLaporan (limit : Z).

Definition taman_dict (r : taman_rec) : row :=
  list_to_map [("id_taman", VInt (tm_id r)); ("nama_taman", VStr (tm_nama r));
               ("luas_taman", opt_int (tm_luas r)); ("lokasi", opt_str (tm_lokasi r))].

Definition petugas_dict (r : petugas_rec) : row :=
  list_to_map [("id_petugas", VInt (pt_id r)); ("nama_petugas", VStr (pt_nama r));
               ("jabatan", opt_str (pt_jabatan r))].

Definition kegiatan_dict (r : kegiatan_rec) : row :=
  list_to_map [("id_kegiatan", VInt (kg_id r)); ("jenis_kegiatan", VStr (kg_jenis r))].

Definition tanaman_dict (r : tanaman_rec) : row :=
  list_to_map [("id_tanaman", VInt (tn_id r)); ("id_taman", VInt (tn_id_taman r));
               ("nama_umum", opt_str (tn_nama_umum r));
               ("nama_ilmiah", opt_str (tn_nama_ilmiah r));
               ("jenis", opt_str (tn_jenis r))].

(** One row of the three-way inner join of the report query, when the
    three referenced rows exist. *)
Definition laporan_join (d : db) (l : laporan_rec) : option row :=
  t ← find (fun t => Z.eqb (tn_id t) (lp_id_tanaman l)) (t_tanaman d);
  p ← find (fun p => Z.eqb (pt_id p) (lp_id_petugas l)) (t_petugas d);
  k ← find (fun k => Z.eqb (kg_id k) (lp_id_kegiatan l)) (t_kegiatan d);
  Some (list_to_map
          [("id_laporan", VInt (lp_id l)); ("id_tanaman", VInt (lp_id_tanaman l));
           ("id_petugas", VInt (lp_id_petugas l)); ("id_kegiatan", VInt (lp_id_kegiatan l));
           ("tanggal", VDatetime (lp_tanggal l)); ("isi_laporan", opt_str (lp_isi l));
           ("tanaman", opt_str (tn_nama_umum t)); ("petugas", VStr (pt_nama p));
           ("kegiatan", VStr (kg_jenis k))]).

(** LIMIT n: a negative count is a syntax error of the store. *)
Definition sql_limit {A : Type} (n : Z) (l : list A) : result (list A) :=
  if Z.ltb n 0 then Raise (MySQLError "1064 (42000): You have an error in your SQL syntax")
  else Ok (firstn (Z.to_nat n) l).

Definition run_query (q : query) (d : db) : result (list row) :=
  match q with
  | SelectTaman =>
      Ok (map taman_dict
            (order_by (fun a b => collate_leb (tm_nama a) (tm_nama b)) (t_taman d)))
  | SelectPetugas =>
      Ok (map petugas_dict
            (order_by (fun a b => collate_leb (pt_nama a) (pt_nama b)) (t_petugas d)))
  | SelectKegiatan =>
      Ok (map kegiatan_dict
            (order_by (fun a b => collate_leb (kg_jenis a) (kg_jenis b)) (t_kegiatan d)))
  | SelectTanamanOf id_taman =>
      Ok (map tanaman_dict
            (order_by (fun a b => Z.leb (tn_id b) (tn_id a))
               (filter (fun t => tn_id_taman t = id_taman) (t_tanaman d))))
  | SelectTanamanAll =>
      Ok (map tanaman_dict
            (order_by (fun a b => lex_leb [tn_id_taman a; tn_id a] [tn_id_taman b; tn_id b])
               (t_tanaman d)))
  | SelectLaporan limit =>
      sql_limit limit
        (omap (laporan_join d)
           (order_by (fun a b => datetime_leb (lp_tanggal b) (lp_tanggal a)) (t_laporan d)))
  end.

(** [rows(query, params)]: a fresh connection, one read, the connection
    closed.  A read is taken to reach the store. *)
Definition rows (q : query) (d : db) : result (list row) := run_query q d.

(** *** Writing *)

(** The statements [app.py] sends through [cursor.execute] on the write
    paths the specification describes. *)
Inductive command : Type :=
| DeleteFrom (t : table)
| AlterAutoIncrement (t : table)
| InsertLaporanNow (id_tanaman id_petugas id_kegiatan : Z) (isi : json)
| InsertLaporan (id_tanaman id_petugas id_kegiatan : Z) (tanggal isi : json).

Definition is_leap (y : Z) : bool :=
  Z.eqb (y mod 4) 0 && (negb (Z.eqb (y mod 100) 0) || Z.eqb (y mod 400) 0).

Definition days_in_month (y m : Z) : Z :=
  if Z.eqb m 2 then (if is_leap y then 29 else 28)
  else if Z.eqb m 4 || Z.eqb m 6 || Z.eqb m 9 || Z.eqb m 11 then 30
  else 31.

Definition valid_datetime (d : datetime) : bool :=
  Z.leb 1 (year d) && Z.leb (year d) 9999
  && Z.leb 1 (month d) && Z.leb (month d) 12
  && Z.leb 1 (day d) && Z.leb (day d) (days_in_month (year d) (month d))
  && Z.leb 0 (hour d) && Z.leb (hour d) 23
  && Z.leb 0 (minute d) && Z.leb (minute d) 59
  && Z.leb 0 (second d) && Z.leb (second d) 59
  && Z.eqb (microsecond d) 0.

Definition two_digits (a b : ascii) : option Z :=
  x ← digit_of a; y ← digit_of b; Some (10 * x + y)%Z.

Definition is_char (c : ascii) (s : string) : bool := String.eqb (String c EmptyString) s.

(** The store's reading of a DATETIME literal [YYYY-MM-DD HH:MM:SS] that
    names a date of the calendar.  The other spellings the store accepts
    are outside the model: they are refused here. *)
Definition datetime_of_string (s : string) : option datetime :=
  match list_ascii_of_string s with
  | [y1; y2; y3; y4; c1; m1; m2; c2; d1; d2; c3; h1; h2; c4; n1; n2; c5; s1; s2] =>
      if is_char c1 "-" && is_char c2 "-" && is_char c3 " "
         && is_char c4 ":" && is_char c5 ":"
      then
        yh ← two_digits y1 y2; yl ← two_digits y3 y4;
        mo ← two_digits m1 m2; dd ← two_digits d1 d2;
        hh ← two_digits h1 h2; mi ← two_digits n1 n2; ss ← two_digits s1 s2;
        let d := Datetime (100 * yh + yl)%Z mo dd hh mi ss 0 in
        if valid_datetime d then Some d else None
      else None
  | _ => None
  end.

Definition cannot_convert : exn :=
  MySQLError "Failed processing format-parameters; Python type cannot be converted".

(** A parameter bound to the TEXT column. *)
Definition sql_text (j : json) : result (option string) :=
  match j with
  | JNull => Ok None
  | JBool b => Ok (Some (if b then "1" else "0"))
  | JInt n => Ok (Some (pretty n))
  | JStr s => Ok (Some s)
  | _ => Raise cannot_convert
  end.

(** A parameter bound to the DATETIME column. *)
Definition sql_datetime (j : json) : result datetime :=
  match j with
  | JStr s =>
      match datetime_of_string s with
      | Some d => Ok d
      | None => Raise (MySQLError "1292 (22007): Incorrect datetime value")
      end
  | JArr _ | JObj _ => Raise cannot_convert
  | _ => Raise (MySQLError "1292 (22007): Incorrect datetime value")
  end.

Definition fk_parent_missing : exn :=
  MySQLError "1452 (23000): Cannot add or update a child row: a foreign key constraint fails".

Definition fk_child_exists : exn :=
  MySQLError "1451 (23000): Cannot delete or update a parent row: a foreign key constraint fails".

(** INSERT INTO laporan: the three references must exist; the new key is
    the table's counter. *)
Definition insert_laporan (d : db) (id_tanaman id_petugas id_kegiatan : Z)
    (tanggal : datetime) (isi : option string) : result (Z * db) :=
  if existsb (fun t => Z.eqb (tn_id t) id_tanaman) (t_tanaman d)
     && existsb (fun p => Z.eqb (pt_id p) id_petugas) (t_petugas d)
     && existsb (fun k => Z.eqb (kg_id k) id_kegiatan) (t_kegiatan d)
  then
    let id := ai_laporan d in
    Ok (id,
        Db (t_laporan d ++ [LaporanRec id id_tanaman id_petugas id_kegiatan tanggal isi])%list
           (t_tanaman d) (t_petugas d) (t_kegiatan d) (t_taman d)
           (id + 1) (ai_tanaman d) (ai_petugas d) (ai_kegiatan d) (ai_taman d))
  else Raise fk_parent_missing.

(** DELETE FROM t, with the foreign keys of the schema: a report restricts
    the deletion of its plant, staff member and activity type; deleting a
    park deletes its plants, which their reports restrict in turn. *)
Definition delete_from (t : table) (d : db) : result db :=
  match t with
  | Laporan =>
      Ok (Db [] (t_tanaman d) (t_petugas d) (t_kegiatan d) (t_taman d)
             (ai_laporan d) (ai_tanaman d) (ai_petugas d) (ai_kegiatan d) (ai_taman d))
  | Tanaman =>
      if existsb (fun l => existsb (fun t => Z.eqb (tn_id t) (lp_id_tanaman l)) (t_tanaman d))
           (t_laporan d)
      then Raise fk_child_exists
      else Ok (Db (t_laporan d) [] (t_petugas d) (t_kegiatan d) (t_taman d)
                  (ai_laporan d) (ai_tanaman d) (ai_petugas d) (ai_kegiatan d) (ai_taman d))
  | Petugas =>
      if existsb (fun l => existsb (fun p => Z.eqb (pt_id p) (lp_id_petugas l)) (t_petugas d))
           (t_laporan d)
      then Raise fk_child_exists
      else Ok (Db (t_laporan d) (t_tanaman d) [] (t_kegiatan d) (t_taman d)
                  (ai_laporan d) (ai_tanaman d) (ai_petugas d) (ai_kegiatan d) (ai_taman d))
  | Kegiatan =>
      if existsb (fun l => existsb (fun k => Z.eqb (kg_id k) (lp_id_kegiatan l)) (t_kegiatan d))
           (t_laporan d)
      then Raise fk_child_exists
      else Ok (Db (t_laporan d) (t_tanaman d) (t_petugas d) [] (t_taman d)
                  (ai_laporan d) (ai_tanaman d) (ai_petugas d) (ai_kegiatan d) (ai_taman d))
  | Taman =>
      let cascaded t := existsb (fun p => Z.eqb (tm_id p) (tn_id_taman t)) (t_taman d) in
      if existsb (fun l =>
                    existsb (fun t => cascaded t && Z.eqb (tn_id t) (lp_id_tanaman l))
                      (t_tanaman d))
           (t_laporan d)
      then Raise fk_child_exists
      else Ok (Db (t_laporan d)
                  (List.filter (fun t => negb (cascaded t)) (t_tanaman d))
                  (t_petugas d) (t_kegiatan d) []
                  (ai_laporan d) (ai_tanaman d) (ai_petugas d) (ai_kegiatan d) (ai_taman d))
  end.

Definition next_after (ids : list Z) : Z := Z.max 1 (foldr Z.max 0 ids + 1).

(** ALTER TABLE t AUTO_INCREMENT = 1: the counter goes back to one more
    than the largest key left in the table. *)
Definition reset_counter (t : table) (d : db) : db :=
  match t with
  | Laporan =>
      Db (t_laporan d) (t_tanaman d) (t_petugas d) (t_kegiatan d) (t_taman d)
         (next_after (map lp_id (t_laporan d)))
         (ai_tanaman d) (ai_petugas d) (ai_kegiatan d) (ai_taman d)
  | Tanaman =>
      Db (t_laporan d) (t_tanaman d) (t_petugas d) (t_kegiatan d) (t_taman d)
         (ai_laporan d) (next_after (map tn_id (t_tanaman d)))
         (ai_petugas d) (ai_kegiatan d) (ai_taman d)
  | Petugas =>
      Db (t_laporan d) (t_tanaman d) (t_petugas d) (t_kegiatan d) (t_taman d)
         (ai_laporan d) (ai_tanaman d) (next_after (map pt_id (t_petugas d)))
         (ai_kegiatan d) (ai_taman d)
  | Kegiatan =>
      Db (t_laporan d) (t_tanaman d) (t_petugas d) (t_kegiatan d) (t_taman d)
         (ai_laporan d) (ai_tanaman d) (ai_petugas d)
         (next_after (map kg_id (t_kegiatan d))) (ai_taman d)
  | Taman =>
      Db (t_laporan d) (t_tanaman d) (t_petugas d) (t_kegiatan d) (t_taman d)
         (ai_laporan d) (ai_tanaman d) (ai_petugas d) (ai_kegiatan d)
         (next_after (map tm_id (t_taman d)))
  end.

(** A connection: what the store has committed, what the open transaction
    sees, the statements sent so far, and the number of driver calls made. *)
Record conn : Type := Conn {
  committed : db;
  working : db;
  sent : list command;
  calls : nat
}.

Definition get_conn (d : db) : conn := Conn d d [] 0.

Definition lost_connection : exn :=
  MySQLError "2013 (HY000): Lost connection to MySQL server during query".

(** The effect of one statement on the store.  A data statement works in
    the open transaction; ALTER TABLE commits it first and is itself
    committed at once. *)
Definition run_command (now : datetime) (cmd : command) (c : conn) : result (Z * conn) :=
  match cmd with
  | DeleteFrom t =>
      w <- delete_from t (working c);;
      Ok (0, Conn (committed c) w (sent c) (calls c))
  | AlterAutoIncrement t =>
      let w := reset_counter t (working c) in
      Ok (0, Conn w w (sent c) (calls c))
  | InsertLaporanNow a b k isi =>
      txt <- sql_text isi;;
      r <- insert_laporan (working c) a b k now txt;;
      Ok (r.1, Conn (committed c) r.2 (sent c) (calls c))
  | InsertLaporan a b k tanggal isi =>
      ts <- sql_datetime tanggal;;
      txt <- sql_text isi;;
      r <- insert_laporan (working c) a b k ts txt;;
      Ok (r.1, Conn (committed c) r.2 (sent c) (calls c))
  end.

(** Operations on a connection: a result and the connection after. *)
Definition io (A : Type) : Type := conn -> result A * conn.

Definition io_bind {A B : Type} (m : io A) (k : A -> io B) : io B :=
  fun c =>
    match m c with
    | (Ok a, c') => k a c'
    | (Raise e, c') => (Raise e, c')
    end.

Notation "x <~ m ;; k" := (io_bind m (fun x => k))
  (at level 100, m at next level, right associativity,
   format "x  <~  m  ;;  '/' k").

(** [cur.execute(cmd)]: returns [cur.lastrowid]. *)
Definition cur_execute (fault : nat -> bool) (now : datetime) (cmd : command) : io Z :=
  fun c =>
    let c1 := Conn (committed c) (working c) (sent c ++ [cmd])%list (S (calls c)) in
    if fault (calls c) then (Raise lost_connection, c1)
    else
      match run_command now cmd c1 with
      | Ok (id, c2) => (Ok id, c2)
      | Raise e => (Raise e, c1)
      end.

(** [conn.commit()] *)
Definition conn_commit (fault : nat -> bool) : io unit :=
  fun c =>
    if fault (calls c)
    then (Raise lost_connection, Conn (committed c) (working c) (sent c) (S (calls c)))
    else (Ok tt, Conn (working c) (working c) (sent c) (S (calls c))).

(** [conn.rollback()] *)
Definition conn_rollback (c : conn) : conn :=
  Conn (committed c) (committed c) (sent c) (calls c).

(** [conn.close()]: the store afterwards; an open transaction is dropped. *)
Definition conn_close (c : conn) : db := committed c.

(** [execute(query, params)]: one statement and its commit on a fresh
    connection, closed on every path. *)
Definition execute (fault : nat -> bool) (now : datetime) (cmd : command) (d : db)
  : result Z * db :=
  let (r, c) := (id <~ cur_execute fault now cmd;;
                 _ <~ conn_commit fault;;
                 (fun c => (Ok id, c))) (get_conn d) in
  (r, conn_close c).

(** ** Endpoints *)

Definition error_body (msg : string) : body := JsonBody (JObj [("error", JStr msg)]).

(** [request.args.get(k, type=int)], and with [default=n]:
    [default n (args_int a k)]. *)
Definition args_int (a : args) (k : string) : option Z := args_get_int a k None.

(** GET /api/taman *)
Definition list_taman (a : args) (d : db) : result response :=
  data <- rows SelectTaman d;;
  Ok (Response 200 (RowsBody data)).

(** GET /api/petugas *)
Definition list_petugas (a : args) (d : db) : result response :=
  data <- rows SelectPetugas d;;
  Ok (Response 200 (RowsBody data)).

(** GET /api/kegiatan *)
Definition list_kegiatan (a : args) (d : db) : result response :=
  data <- rows SelectKegiatan d;;
  Ok (Response 200 (RowsBody data)).

(** GET /api/tanaman *)
Definition list_tanaman (a : args) (d : db) : result response :=
  match args_int a "id_taman" with
  | Some id_taman =>
      if Z.eqb id_taman 0
      then Ok (Response 400 (error_body "id_taman query param is required"))
      else
        data <- rows (SelectTanamanOf id_taman) d;;
        Ok (Response 200 (RowsBody data))
  | None => Ok (Response 400 (error_body "id_taman query param is required"))
  end.

(** GET /api/tanaman_all *)
Definition list_tanaman_all (a : args) (d : db) : result response :=
  data <- rows SelectTanamanAll d;;
  Ok (Response 200 (RowsBody data)).

(** GET /api/laporan *)
Definition list_laporan (a : args) (d : db) : result response :=
  let limit := default 20 (args_int a "limit") in
  data <- rows (SelectLaporan limit) d;;
  data <- mapM (fun r =>
                  v <- getitem r "tanggal";;
                  Ok (match v with
                      | VDatetime t => <["tanggal" := VStr (isoformat_seconds t)]> r
                      | _ => r
                      end)) data;;
  Ok (Response 200 (RowsBody data)).

(** The bundle that [report_all] and [report_html] both fetch. *)
Definition fetch_bundle (limit : Z) (d : db) : result bundle :=
  taman <- rows SelectTaman d;;
  petugas <- rows SelectPetugas d;;
  kegiatan <- rows SelectKegiatan d;;
  tanaman <- rows SelectTanamanAll d;;
  laporan <- rows (SelectLaporan limit) d;;
  let laporan :=
    map (fun r =>
           match get r "tanggal" with
           | VDatetime t => <["tanggal" := VStr (isoformat_seconds t)]> r
           | _ => r
           end) laporan in
  Ok (list_to_map [("taman", taman); ("petugas", petugas); ("kegiatan", kegiatan);
                   ("tanaman", tanaman); ("laporan", laporan)]).

(** GET /api/report/all *)
Definition report_all (a : args) (d : db) : result response :=
  let limit := default 100000 (args_int a "limit") in
  b <- fetch_bundle limit d;;
  Ok (Response 200 (BundleBody b)).

(** GET /api/report/html *)
Definition report_html (tgl_str : string) (a : args) (d : db) : result response :=
  let limit := default 100000 (args_int a "limit") in
  b <- fetch_bundle limit d;;
  html <- _build_report_html tgl_str b;;
  Ok (Response 200 (HtmlBody html)).

(** POST /api/laporan.  [None] is a body that is not JSON, which
    [get_json(force=True)] answers with a 400 of its own. *)
Definition create_laporan (fault : nat -> bool) (now : datetime)
    (req : option json) (d : db) : result response * db :=
  match req with
  | None => (Raise BadRequest, d)
  | Some payload =>
      match (x <- json_getitem payload "id_tanaman";; id_tanaman <- json_int x;;
             y <- json_getitem payload "id_petugas";; id_petugas <- json_int y;;
             z <- json_getitem payload "id_kegiatan";; id_kegiatan <- json_int z;;
             Ok (id_tanaman, id_petugas, id_kegiatan)) with
      | Raise _ =>
          (Ok (Response 400
                 (error_body "id_tanaman, id_petugas, id_kegiatan are required (ints)")), d)
      | Ok (id_tanaman, id_petugas, id_kegiatan) =>
          match (tanggal <- json_get payload "tanggal" JNull;;
                 isi <- json_get payload "isi_laporan" (JStr "");;
                 Ok (tanggal, isi)) with
          | Raise e => (Raise e, d)
          | Ok (tanggal, isi) =>
              let cmd :=
                if negb (json_truthy tanggal)
                then InsertLaporanNow id_tanaman id_petugas id_kegiatan isi
                else InsertLaporan id_tanaman id_petugas id_kegiatan tanggal isi in
              match execute fault now cmd d with
              | (Ok new_id, d') =>
                  (Ok (Response 201 (JsonBody (JObj [("id_laporan", JInt new_id)]))), d')
              | (Raise (MySQLError msg), d') => (Ok (Response 400 (error_body msg)), d')
              | (Raise e, d') => (Raise e, d')
              end
          end
      end
  end.

Definition confirmation_required : string :=
  "confirmation required: set {" +:+ dq +:+ "confirm" +:+ dq +:+ ": true} in JSON body".

(** The loop body [try: cur.execute(ALTER ...) except mysql.connector.Error: pass]. *)
Definition try_alter (fault : nat -> bool) (now : datetime) (tbl : table) : io unit :=
  fun c =>
    match cur_execute fault now (AlterAutoIncrement tbl) c with
    | (Ok _, c') => (Ok tt, c')
    | (Raise (MySQLError _), c') => (Ok tt, c')
    | (Raise e, c') => (Raise e, c')
    end.

(** The [try] block of [admin_clear_all]: the five deletes, the optional
    reset of the counters, the commit. *)
Definition clear_all_block (fault : nat -> bool) (now : datetime) (reset_ai : bool)
  : io unit :=
  _ <~ cur_execute fault now (DeleteFrom Laporan);;
  _ <~ cur_execute fault now (DeleteFrom Tanaman);;
  _ <~ cur_execute fault now (DeleteFrom Petugas);;
  _ <~ cur_execute fault now (DeleteFrom Kegiatan);;
  _ <~ cur_execute fault now (DeleteFrom Taman);;
  _ <~ (if reset_ai then
          _ <~ try_alter fault now Laporan;;
          _ <~ try_alter fault now Tanaman;;
          _ <~ try_alter fault now Petugas;;
          _ <~ try_alter fault now Kegiatan;;
          try_alter fault now Taman
        else fun c => (Ok tt, c));;
  conn_commit fault.

Definition cleared_body (reset_ai : bool) : body :=
  JsonBody (JObj [("status", JStr "ok");
                  ("cleared", JArr [JStr "laporan"; JStr "tanaman"; JStr "petugas";
                                    JStr "kegiatan"; JStr "taman"]);
                  ("reset_auto_increment", JBool reset_ai)]).

(** POST /api/admin/clear_all.  [None] is a body that is not JSON, which
    [get_json(force=True, silent=True)] answers with [None]. *)
Definition admin_clear_all (fault : nat -> bool) (now : datetime)
    (req : option json) (d : db) : result response * db :=
  let payload :=
    match req with
    | Some j => if json_truthy j then j else JObj []
    | None => JObj []
    end in
  match json_get payload "confirm" JNull with
  | Raise e => (Raise e, d)
  | Ok confirm =>
      if negb (json_truthy confirm)
      then (Ok (Response 400 (error_body confirmation_required)), d)
      else
        match json_get payload "reset_auto_increment" (JBool true) with
        | Raise e => (Raise e, d)
        | Ok r =>
            let reset_ai := json_truthy r in
            match clear_all_block fault now reset_ai (get_conn d) with
            | (Ok _, c) => (Ok (Response 200 (cleared_body reset_ai)), conn_close c)
            | (Raise (MySQLError msg), c) =>
                (Ok (Response 500 (error_body msg)), conn_close (conn_rollback c))
            | (Raise e, c) => (Raise e, conn_close c)
            end
        end
  end.

(** ** The specification's reading of the report helpers *)

(** The text of a cell before escaping: nothing for [None]. *)
Definition cell_text (v : value) : string :=
  match v with
  | VNone => ""
  | _ => py_str v
  end.

Definition dq_char : ascii := ascii_of_nat 34.

(** The entity of one character: ampersand, angle brackets and the two
    quotes are replaced, every other character stands for itself. *)
Definition escape_char (c : ascii) : string :=
  if Ascii.eqb c "&" then "&amp;"
  else if Ascii.eqb c "<" then "&lt;"
  else if Ascii.eqb c ">" then "&gt;"
  else if Ascii.eqb c dq_char then "&quot;"
  else if Ascii.eqb c "'" then "&#39;"
  else String c EmptyString.

(** Escaping as the specification states it: every character replaced by
    its entity, at once. *)
Fixpoint spec_escape (s : string) : string :=
  match s with
  | EmptyString => EmptyString
  | String c r => escape_char c +:+ spec_escape r
  end.

(** A text that can stand inside an element without opening markup: no
    angle bracket and no quote, and every ampersand starts one of the five
    entities. *)
Fixpoint html_safe (s : string) : bool :=
  match s with
  | EmptyString => true
  | String c r =>
      if Ascii.eqb c "<" || Ascii.eqb c ">" || Ascii.eqb c dq_char || Ascii.eqb c "'"
      then false
      else if Ascii.eqb c "&"
      then (starts_with "amp;" r || starts_with "lt;" r || starts_with "gt;" r
            || starts_with "quot;" r || starts_with "#39;" r) && html_safe r
      else html_safe r
  end.

(** The markup of a table whose header and cell texts are already escaped. *)
Definition spec_table (headers : list string) (cells : list (list string)) : string :=
  "<table><thead><tr>"
  +:+ join (map (fun h => "<th>" +:+ h +:+ "</th>") headers)
  +:+ "</tr></thead><tbody>"
  +:+ join (map (fun r => "<tr>" +:+ join (map (fun c => "<td>" +:+ c +:+ "</td>") r) +:+ "</tr>")
              cells)
  +:+ "</tbody></table>".

(** One character of [s.replace(c, new)] for a one-character [c]. *)
Fixpoint subst (c : ascii) (new : string) (s : string) : string :=
  match s with
  | EmptyString => EmptyString
  | String x r => (if Ascii.eqb x c then new else String x EmptyString) +:+ subst c new r
  end.

(** The specification's resolution of the park of a report row: which of
    the two paths the row takes. *)
Inductive plant_ref : Type :=
| ByIdentifier (k : Z)
| ByName (nm : string)
| NoRef.

(** A plant identifier that is present and valid wins; a row with no
    identifier and a display name goes by the case-folded name; a row with an
    identifier that is no integer, or with neither, resolves nothing. *)
Definition plant_ref_of (L : row) : plant_ref :=
  match L !! "id_tanaman" with
  | Some VNone | None =>
      match L !! "tanaman" with
      | Some nm => if truthy nm then ByName (lower (py_str nm)) else NoRef
      | None => NoRef
      end
  | Some v =>
      match py_int v with
      | Ok k => ByIdentifier k
      | Raise _ => NoRef
      end
  end.

(** Lookup 1 at the park identifier of a plant row, the placeholder when
    the identifier is missing, no integer, or not a park's. *)
Definition park_of_plant (by_id : gmap Z value) (t_ : row) : value :=
  match t_ !! "id_taman" with
  | Some v =>
      match py_int v with
      | Ok k => default (VStr "-") (by_id !! k)
      | Raise _ => VStr "-"
      end
  | None => VStr "-"
  end.

Definition spec_nama_taman (by_id by_tanaman_id : gmap Z value)
    (by_name : gmap string row) (L : row) : value :=
  match plant_ref_of L with
  | ByIdentifier k => default (VStr "-") (by_tanaman_id !! k)
  | ByName nm =>
      match by_name !! nm with
      | Some t_ => park_of_plant by_id t_
      | None => VStr "-"
      end
  | NoRef => VStr "-"
  end.

(** ** Sample data *)

Definition mk_row (l : list (string * value)) : row := list_to_map l.

Definition mk_bundle (taman tanaman_ laporan : list row) : bundle :=
  list_to_map [("taman", taman); ("petugas", []); ("kegiatan", []);
               ("tanaman", tanaman_); ("laporan", laporan)].

Definition taman_A : row := mk_row [("id_taman", VInt 1); ("nama_taman", VStr "Taman A")].
Definition taman_B : row := mk_row [("id_taman", VInt 2); ("nama_taman", VStr "Taman B")].

Definition mawar_10 : row :=
  mk_row [("id_tanaman", VInt 10); ("id_taman", VInt 1); ("nama_umum", VStr "Mawar")].

(** A second plant of the same name, in the other park. *)
Definition mawar_11 : row :=
  mk_row [("id_tanaman", VInt 11); ("id_taman", VInt 2); ("nama_umum", VStr "mawar")].

(** A plant row that repeats the identifier of [mawar_10]. *)
Definition melati_10 : row :=
  mk_row [("id_tanaman", VInt 10); ("id_taman", VInt 2); ("nama_umum", VStr "Melati")].

(** A plant row whose park identifier is no integer. *)
Definition mawar_bad_park : row :=
  mk_row [("id_tanaman", VInt 10); ("id_taman", VStr "x"); ("nama_umum", VStr "Mawar")].

(** A park row whose identifier is no integer. *)
Definition taman_bad_id : row :=
  mk_row [("id_taman", VStr "x"); ("nama_taman", VStr "Taman A")].

(** A report that references plant 10 by identifier, as the join returns it. *)
Definition laporan_by_id : row :=
  mk_row [("id_laporan", VInt 1); ("id_tanaman", VInt 10); ("id_petugas", VInt 1);
          ("id_kegiatan", VInt 1); ("tanggal", VStr "2025-01-01 08:00:00");
          ("isi_laporan", VStr "ok"); ("tanaman", VStr "Mawar");
          ("petugas", VStr "Budi"); ("kegiatan", VStr "Penyiraman")].

(** A report that carries the display name only. *)
Definition laporan_by_name : row :=
  mk_row [("tanggal", VStr "2025-01-01 08:00:00"); ("isi_laporan", VStr "ok");
          ("tanaman", VStr "Mawar"); ("kegiatan", VStr "Penyiraman")].

Definition example_bundle : bundle := mk_bundle [taman_A] [mawar_10] [laporan_by_id].

Definition melati_12 : row :=
  mk_row [("id_tanaman", VInt 12); ("id_taman", VInt 2); ("nama_umum", VStr "Melati")].

(** Lookup 1 of the two sample parks. *)
Definition parks_AB : gmap Z value := <[2 := VStr "Taman B"]> {[ 1 := VStr "Taman A" ]}.

(** A small store: two parks, a plant in each, one staff member, one
    activity type, one report. *)
Definition sample_db : db :=
  Db [LaporanRec 1 10 1 1 (Datetime 2025 1 1 8 0 0 0) (Some "ok")]
     [TanamanRec 10 1 (Some "Mawar") None None; TanamanRec 11 2 (Some "Melati") None None]
     [PetugasRec 1 "Budi" None]
     [KegiatanRec 1 "Penyiraman"]
     [TamanRec 1 "Taman A" None None; TamanRec 2 "Taman B" (Some 900) None]
     2 12 2 2 3.

Definition no_fault : nat -> bool := fun _ => false.

Definition sample_now : datetime := Datetime 2025 6 1 12 30 0 0.

(** ** The specification's reading of the bulk wipe *)

(** The dependency order: reports, plants, staff, activity types, parks. *)
Definition deletes : list command :=
  [DeleteFrom Laporan; DeleteFrom Tanaman; DeleteFrom Petugas; DeleteFrom Kegiatan;
   DeleteFrom Taman].

Definition alters : list command :=
  [AlterAutoIncrement Laporan; AlterAutoIncrement Tanaman; AlterAutoIncrement Petugas;
   AlterAutoIncrement Kegiatan; AlterAutoIncrement Taman].

(** The store after a wipe: no row in any table; the counters at one when
    they were reset. *)
Definition wiped (reset_ai : bool) (d : db) : db :=
  if reset_ai then Db [] [] [] [] [] 1 1 1 1 1
  else Db [] [] [] [] [] (ai_laporan d) (ai_tanaman d) (ai_petugas d) (ai_kegiatan d)
          (ai_taman d).

(** A request that does not confirm: a body that is not JSON, a body that
    is an empty value, or an object whose [confirm] member is missing or
    false, null, zero or empty. *)
Definition confirmation_missing (req : option json) : bool :=
  match req with
  | None => true
  | Some (JObj members) =>
      match member "confirm" members with
      | Some c => negb (json_truthy c)
      | None => true
      end
  | Some j => negb (json_truthy j)
  end.

(** The [confirm] member is the JSON value [true]. *)
Definition confirm_is_true (req : option json) : bool :=
  match req with
  | Some (JObj members) =>
      match member "confirm" members with
      | Some (JBool true) => true
      | _ => false
      end
  | _ => false
  end.

(** ** Digits *)

(** The integers from 0 up to [n], excluded. *)
Definition upto (n : nat) : list Z := map Z.of_nat (seq 0 n).

Definition digit_char (x : Z) : ascii := ascii_of_nat (48 + Z.to_nat x).

(** ** The specification's reading of report creation *)

(** The store with one more report, and the next key advanced. *)
Definition inserted (d : db) (r : laporan_rec) : db :=
  Db (t_laporan d ++ [r])%list (t_tanaman d) (t_petugas d) (t_kegiatan d) (t_taman d)
     (ai_laporan d + 1) (ai_tanaman d) (ai_petugas d) (ai_kegiatan d) (ai_taman d).

(** The plant, the staff member and the activity type exist. *)
Definition references_exist (d : db) (id_tanaman id_petugas id_kegiatan : Z) : bool :=
  existsb (fun t => Z.eqb (tn_id t) id_tanaman) (t_tanaman d)
  && existsb (fun p => Z.eqb (pt_id p) id_petugas) (t_petugas d)
  && existsb (fun k => Z.eqb (kg_id k) id_kegiatan) (t_kegiatan d).

Definition created (id : Z) : response :=
  Response 201 (JsonBody (JObj [("id_laporan", JInt id)])).

Definition request_now : json :=
  JObj [("id_tanaman", JInt 10); ("id_petugas", JStr "1"); ("id_kegiatan", JInt 1);
        ("isi_laporan", JStr "disiram")].

Definition request_at : json :=
  JObj [("id_tanaman", JInt 10); ("id_petugas", JStr "1"); ("id_kegiatan", JInt 1);
        ("tanggal", JStr "2024-02-29 23:59:59"); ("isi_laporan", JStr "disiram")].

(** ** Tactics *)

(** Case analysis on the oracle, one driver call at a time. *)
Ltac next_fault fault :=
  match goal with
  | |- context [fault ?n] => destruct (fault n) eqn:?; cbn
  end.

(** ** The other create endpoints *)

(** The INSERT statements of [create_taman], [create_petugas],
    [create_kegiatan] and [create_tanaman], with their bound parameters. *)
Inductive insert : Type :=
| InsertTaman (nama : json) (luas : option Z) (lokasi : json)
| InsertPetugas (nama jabatan : json)
| InsertKegiatan (jenis : json)
| InsertTanaman (id_taman : Z) (nama_umum nama_ilmiah jenis : json).

Definition data_too_long : exn := MySQLError "1406 (22001): Data too long for column".

Definition out_of_range : exn := MySQLError "1264 (22003): Out of range value for column".

Definition column_null : exn := MySQLError "1048 (23000): Column cannot be null".

Definition duplicate_entry : exn :=
  MySQLError "1062 (23000): Duplicate entry for key uk_taman_nama".

(** A parameter bound to a VARCHAR(n) column. *)
Definition sql_varchar (n : nat) (j : json) : result (option string) :=
  txt <- sql_text j;;
  match txt with
  | Some s => if (n <? String.length s)%nat then Raise data_too_long else Ok (Some s)
  | None => Ok None
  end.

(** A parameter bound to a VARCHAR(n) NOT NULL column. *)
Definition sql_varchar_required (n : nat) (j : json) : result string :=
  txt <- sql_varchar n j;;
  match txt with
  | Some s => Ok s
  | None => Raise column_null
  end.

(** A parameter bound to an INT column. *)
Definition sql_int (z : Z) : result Z :=
  if Z.leb (-2147483648) z && Z.leb z 2147483647 then Ok z else Raise out_of_range.

Definition sql_int_opt (o : option Z) : result (option Z) :=
  match o with
  | Some z => n <- sql_int z;; Ok (Some n)
  | None => Ok None
  end.

Fixpoint drop_spaces (s : string) : string :=
  match s with
  | EmptyString => EmptyString
  | String c r => if Ascii.eqb c " " then drop_spaces r else s
  end.

(** What the unique key on the park name compares: the collation ignores
    case and trailing spaces (names are taken to be ASCII text, as
    [collate_leb] takes them). *)
Definition collate_key (s : string) : string :=
  String.rev (drop_spaces (String.rev (lower s))).

(** The store with one more park, staff member, activity type or plant,
    and the table's counter advanced. *)
Definition add_taman (d : db) (r : taman_rec) : db :=
  Db (t_laporan d) (t_tanaman d) (t_petugas d) (t_kegiatan d) (t_taman d ++ [r])%list
     (ai_laporan d) (ai_tanaman d) (ai_petugas d) (ai_kegiatan d) (ai_taman d + 1).

Definition add_petugas (d : db) (r : petugas_rec) : db :=
  Db (t_laporan d) (t_tanaman d) (t_petugas d ++ [r])%list (t_kegiatan d) (t_taman d)
     (ai_laporan d) (ai_tanaman d) (ai_petugas d + 1) (ai_kegiatan d) (ai_taman d).

Definition add_kegiatan (d : db) (r : kegiatan_rec) : db :=
  Db (t_laporan d) (t_tanaman d) (t_petugas d) (t_kegiatan d ++ [r])%list (t_taman d)
     (ai_laporan d) (ai_tanaman d) (ai_petugas d) (ai_kegiatan d + 1) (ai_taman d).

Definition add_tanaman (d : db) (r : tanaman_rec) : db :=
  Db (t_laporan d) (t_tanaman d ++ [r])%list (t_petugas d) (t_kegiatan d) (t_taman d)
     (ai_laporan d) (ai_tanaman d + 1) (ai_petugas d) (ai_kegiatan d) (ai_taman d).

(** The effect of an INSERT on the tables: the columns are converted in
    order, then the unique key and the foreign key are checked; the new key
    is the table's counter.  (The counter is advanced by an accepted insert
    only.) *)
Definition insert_row (i : insert) (d : db) : result (Z * db) :=
  match i with
  | InsertTaman nama luas lokasi =>
      nm <- sql_varchar_required 100 nama;;
      ls <- sql_int_opt luas;;
      lk <- sql_varchar 255 lokasi;;
      if existsb (fun p => String.eqb (collate_key (tm_nama p)) (collate_key nm)) (t_taman d)
      then Raise duplicate_entry
      else Ok (ai_taman d, add_taman d (TamanRec (ai_taman d) nm ls lk))
  | InsertPetugas nama jabatan =>
      nm <- sql_varchar_required 100 nama;;
      jb <- sql_varchar 100 jabatan;;
      Ok (ai_petugas d, add_petugas d (PetugasRec (ai_petugas d) nm jb))
  | InsertKegiatan jenis =>
      jn <- sql_varchar_required 120 jenis;;
      Ok (ai_kegiatan d, add_kegiatan d (KegiatanRec (ai_kegiatan d) jn))
  | InsertTanaman id_taman nama_umum nama_ilmiah jenis =>
      tm <- sql_int id_taman;;
      nu <- sql_varchar 100 nama_umum;;
      ni <- sql_varchar 150 nama_ilmiah;;
      jn <- sql_varchar 80 jenis;;
      if existsb (fun p => Z.eqb (tm_id p) tm) (t_taman d)
      then Ok (ai_tanaman d, add_tanaman d (TanamanRec (ai_tanaman d) tm nu ni jn))
      else Raise fk_parent_missing
  end.

(** [cur.execute] for these statements (the log [sent] lists the
    statements of the bulk wipe and of [create_laporan] only). *)
Definition cur_execute_row (fault : nat -> bool) (i : insert) : io Z :=
  fun c =>
    let c1 := Conn (committed c) (working c) (sent c) (S (calls c)) in
    if fault (calls c) then (Raise lost_connection, c1)
    else
      match insert_row i (working c1) with
      | Ok (id, w) => (Ok id, Conn (committed c1) w (sent c1) (calls c1))
      | Raise e => (Raise e, c1)
      end.

(** [execute(query, params)] for these statements. *)
Definition execute_row (fault : nat -> bool) (i : insert) (d : db) : result Z * db :=
  let (r, c) := (id <~ cur_execute_row fault i;;
                 _ <~ conn_commit fault;;
                 (fun c => (Ok id, c))) (get_conn d) in
  (r, conn_close c).

(** The answer of a create endpoint to the outcome of [execute]. *)
Definition created_or_error (key : string) (out : result Z * db) : result response * db :=
  match out with
  | (Ok new_id, d') => (Ok (Response 201 (JsonBody (JObj [(key, JInt new_id)]))), d')
  | (Raise (MySQLError msg), d') => (Ok (Response 400 (error_body msg)), d')
  | (Raise e, d') => (Raise e, d')
  end.

(** [luas in (None, "")] *)
Definition is_blank (j : json) : bool :=
  match j with
  | JNull => true
  | JStr s => String.eqb s ""
  | _ => false
  end.

(** POST /api/taman *)
Definition create_taman (fault : nat -> bool) (req : option json) (d : db)
  : result response * db :=
  match req with
  | None => (Raise BadRequest, d)
  | Some payload =>
      match (nama <- json_get payload "nama_taman" JNull;;
             luas <- json_get payload "luas_taman" JNull;;
             lokasi <- json_get payload "lokasi" JNull;;
             Ok (nama, luas, lokasi)) with
      | Raise e => (Raise e, d)
      | Ok (nama, luas, lokasi) =>
          if negb (json_truthy nama)
          then (Ok (Response 400 (error_body "nama_taman is required")), d)
          else
            match (if is_blank luas then Ok None else n <- json_int luas;; Ok (Some n)) with
            | Raise e => (Raise e, d)
            | Ok l => created_or_error "id_taman" (execute_row fault (InsertTaman nama l lokasi) d)
            end
      end
  end.

(** POST /api/petugas *)
Definition create_petugas (fault : nat -> bool) (req : option json) (d : db)
  : result response * db :=
  match req with
  | None => (Raise BadRequest, d)
  | Some payload =>
      match (nama <- json_get payload "nama_petugas" JNull;;
             jabatan <- json_get payload "jabatan" JNull;;
             Ok (nama, jabatan)) with
      | Raise e => (Raise e, d)
      | Ok (nama, jabatan) =>
          if negb (json_truthy nama)
          then (Ok (Response 400 (error_body "nama_petugas is required")), d)
          else created_or_error "id_petugas" (execute_row fault (InsertPetugas nama jabatan) d)
      end
  end.

(** POST /api/kegiatan *)
Definition create_kegiatan (fault : nat -> bool) (req : option json) (d : db)
  : result response * db :=
  match req with
  | None => (Raise BadRequest, d)
  | Some payload =>
      match json_get payload "jenis_kegiatan" JNull with
      | Raise e => (Raise e, d)
      | Ok jenis =>
          if negb (json_truthy jenis)
          then (Ok (Response 400 (error_body "jenis_kegiatan is required")), d)
          else created_or_error "id_kegiatan" (execute_row fault (InsertKegiatan jenis) d)
      end
  end.

(** POST /api/tanaman *)
Definition create_tanaman (fault : nat -> bool) (req : option json) (d : db)
  : result response * db :=
  match req with
  | None => (Raise BadRequest, d)
  | Some payload =>
      match (x <- json_getitem payload "id_taman";; json_int x) with
      | Raise _ => (Ok (Response 400 (error_body "id_taman is required (int)")), d)
      | Ok id_taman =>
          match (nama_umum <- json_get payload "nama_umum" JNull;;
                 nama_ilmiah <- json_get payload "nama_ilmiah" JNull;;
                 jenis <- json_get payload "jenis" JNull;;
                 Ok (nama_umum, nama_ilmiah, jenis)) with
          | Raise e => (Raise e, d)
          | Ok (nama_umum, nama_ilmiah, jenis) =>
              if negb (json_truthy nama_umum)
              then (Ok (Response 400 (error_body "nama_umum is required")), d)
              else created_or_error "id_tanaman"
                     (execute_row fault (InsertTanaman id_taman nama_umum nama_ilmiah jenis) d)
          end
      end
  end.

(** ** Reading the extra properties *)

(** The five tables hold the same rows (the counters apart). *)
Definition same_rows (d d' : db) : Prop :=
  t_laporan d' = t_laporan d /\ t_tanaman d' = t_tanaman d
  /\ t_petugas d' = t_petugas d /\ t_kegiatan d' = t_kegiatan d
  /\ t_taman d' = t_taman d.

(** No row in any of the five tables. *)
Definition no_rows (d : db) : Prop :=
  t_laporan d = [] /\ t_tanaman d = [] /\ t_petugas d = [] /\ t_kegiatan d = []
  /\ t_taman d = [].

(** Every plant names a park of the store, every report a plant, a staff
    member and an activity type of the store. *)
Definition refs_ok (d : db) : bool :=
  forallb (fun t => existsb (fun p => Z.eqb (tm_id p) (tn_id_taman t)) (t_taman d))
    (t_tanaman d)
  && forallb (fun l => references_exist d (lp_id_tanaman l) (lp_id_petugas l)
                         (lp_id_kegiatan l))
       (t_laporan d).

(** Every key in use is below its table's counter. *)
Definition keys_fresh (d : db) : bool :=
  forallb (fun l => Z.ltb (lp_id l) (ai_laporan d)) (t_laporan d)
  && forallb (fun t => Z.ltb (tn_id t) (ai_tanaman d)) (t_tanaman d)
  && forallb (fun p => Z.ltb (pt_id p) (ai_petugas d)) (t_petugas d)
  && forallb (fun k => Z.ltb (kg_id k) (ai_kegiatan d)) (t_kegiatan d)
  && forallb (fun p => Z.ltb (tm_id p) (ai_taman d)) (t_taman d).

(** Reading escaped text back: an entity stands for its character; [skip]
    counts the characters of the entity just read that are still to be
    dropped. *)
Fixpoint unescape_go (skip : nat) (s : string) : string :=
  match s with
  | EmptyString => EmptyString
  | String c r =>
      match skip with
      | S k => unescape_go k r
      | O =>
          if Ascii.eqb c "&" then
            if starts_with "amp;" r then String "&" (unescape_go 4 r)
            else if starts_with "lt;" r then String "<" (unescape_go 3 r)
            else if starts_with "gt;" r then String ">" (unescape_go 3 r)
            else if starts_with "quot;" r then String dq_char (unescape_go 5 r)
            else if starts_with "#39;" r then String "'" (unescape_go 4 r)
            else String c (unescape_go 0 r)
          else String c (unescape_go 0 r)
      end
  end.

(** ** The account service ([auth_sqlite.py]) *)

(** Whitespace as [str.strip] sees it, on ASCII: tab to carriage return,
    the four separators and the space. *)
Definition is_py_space (c : ascii) : bool :=
  let n := nat_of_ascii c in
  ((9 <=? n)%nat && (n <=? 13)%nat) || ((28 <=? n)%nat && (n <=? 32)%nat).

Fixpoint py_lstrip (s : string) : string :=
  match s with
  | EmptyString => EmptyString
  | String c r => if is_py_space c then py_lstrip r else s
  end.

(** [s.strip()] *)
Definition py_strip (s : string) : string :=
  String.rev (py_lstrip (String.rev (py_lstrip s))).

(** [j or ""] *)
Definition or_empty (j : json) : json := if json_truthy j then j else JStr "".

(** [j.strip()]: only a string has the method. *)
Definition json_strip (j : json) : result string :=
  match j with
  | JStr s => Ok (py_strip s)
  | _ => Raise AttributeError
  end.

(** [len(j)]; an object counts its distinct keys. *)
Definition json_len (j : json) : result Z :=
  match j with
  | JStr s => Ok (Z.of_nat (String.length s))
  | JArr items => Ok (Z.of_nat (length items))
  | JObj members => Ok (Z.of_nat (length (remove_dups (map fst members))))
  | _ => Raise TypeError
  end.

(** A row of the table [users] (the creation time apart). *)
Record user_rec : Type := UserRec {
  us_id : Z; us_username : string; us_password_hash : string; us_name : option string
}.

(** The table [users] and the largest key it has ever given out. *)
Record users : Type := Users { t_users : list user_rec; seq_users : Z }.

(** INSERT INTO users: [None] stands for the [sqlite3.IntegrityError] of
    the unique key on the user name, which compares the text exactly; the new
    key is one more than every key the table has held. *)
Definition insert_user (username ph : string) (name : option string) (u : users)
  : option (Z * users) :=
  if existsb (fun r => String.eqb (us_username r) username) (t_users u) then None
  else
    let uid := Z.max (seq_users u) (foldr Z.max 0 (map us_id (t_users u))) + 1 in
    Some (uid, Users (t_users u ++ [UserRec uid username ph name])%list uid).

(** The body of a request, [request.get_json(force=True, silent=True) or {}]. *)
Definition json_or_empty (req : option json) : json :=
  match req with
  | Some j => if json_truthy j then j else JObj []
  | None => JObj []
  end.

Definition user_body (uid : Z) (username name : string) : json :=
  JObj [("id", JInt uid); ("username", JStr username); ("name", JStr name)].

(** POST /api/auth/register.  [generate_password_hash] is the hashing
    function of the library, with the salt it draws for this request; the
    INSERT runs inside [with get_db()], which commits when the block returns
    and closes without a commit when it raises. *)
Definition register (generate_password_hash : json -> result string)
    (req : option json) (u : users) : result response * users :=
  let data := json_or_empty req in
  match (x <- json_get data "username" JNull;; username <- json_strip (or_empty x);;
         y <- json_get data "password" JNull;;
         z <- json_get data "name" JNull;; name <- json_strip (or_empty z);;
         Ok (username, or_empty y, name)) with
  | Raise e => (Raise e, u)
  | Ok (username, password, name) =>
      if String.eqb username "" || negb (json_truthy password)
      then (Ok (Response 400 (error_body "username dan password wajib diisi")), u)
      else
        match json_len password with
        | Raise e => (Raise e, u)
        | Ok n =>
            if Z.ltb n 6
            then (Ok (Response 400 (error_body "password minimal 6 karakter")), u)
            else
              match generate_password_hash password with
              | Raise e => (Raise e, u)
              | Ok ph =>
                  match insert_user username ph
                          (if String.eqb name "" then None else Some name) u with
                  | Some (uid, u') =>
                      (Ok (Response 201
                             (JsonBody (JObj [("user", user_body uid username name)]))), u')
                  | None => (Ok (Response 409 (error_body "username sudah digunakan")), u)
                  end
              end
        end
  end.

Definition wrong_credentials : response :=
  Response 401 (error_body "username atau password salah").

(** POST /api/auth/login.  [check_password_hash] is the checking function
    of the library. *)
Definition login (check_password_hash : string -> json -> result bool)
    (req : option json) (u : users) : result response :=
  let data := json_or_empty req in
  x <- json_get data "username" JNull;;
  username <- json_strip (or_empty x);;
  y <- json_get data "password" JNull;;
  let password := or_empty y in
  if String.eqb username "" || negb (json_truthy password)
  then Ok (Response 400 (error_body "username dan password wajib diisi"))
  else
    match find (fun r => String.eqb (us_username r) username) (t_users u) with
    | None => Ok wrong_credentials
    | Some row =>
        ok <- check_password_hash (us_password_hash row) password;;
        if ok
        then Ok (Response 200
                   (JsonBody (JObj [("user",
                                     user_body (us_id row) (us_username row)
                                       (default (us_username row) (us_name row)));
                                    ("token", JNull)])))
        else Ok wrong_credentials
    end.

(** A hashing function and its check, for the examples: the hash of a
    password is the password behind a marker. *)
Definition sample_hash (j : json) : result string :=
  match j with
  | JStr s => Ok ("plain$" +:+ s)
  | _ => Raise AttributeError
  end.

Definition sample_check (h : string) (j : json) : result bool :=
  match j with
  | JStr s => Ok (String.eqb h ("plain$" +:+ s))
  | _ => Raise AttributeError
  end.

Definition sample_users : users :=
  Users [UserRec 1 "admin" "plain$rahasia1" None;
         UserRec 4 "Budi" "plain$taman-kota" (Some "Budi Santoso")] 6.

(** * Properties *)

(** ** Strings *)

#[local] Arguments String.append !_ _ / : simpl nomatch.

Lemma append_assoc (a b c : string) : (a +:+ b) +:+ c = a +:+ (b +:+ c).
Proof. induction a as [|x a IH]; simpl; [reflexivity | now rewrite IH]. Qed.

Lemma append_nil_r (a : string) : a +:+ "" = a.
Proof. induction a as [|x a IH]; simpl; [reflexivity | now rewrite IH]. Qed.

Lemma prefix_char (c x : ascii) (r : string) :
  starts_with (String c EmptyString) (String x r) = Ascii.eqb x c.
Proof. simpl. rewrite andb_true_r. apply Ascii.eqb_sym. Qed.

(** Replacing a one-character pattern is a substitution character by
    character. *)
Lemma replace_char (c : ascii) (new s : string) :
  replace (String c EmptyString) new s = subst c new s.
Proof.
  unfold replace. induction s as [|x r IH]; [reflexivity|].
  cbn [replace_go subst]. rewrite prefix_char.
  cbn [String.length Nat.sub]. rewrite IH.
  destruct (Ascii.eqb x c); reflexivity.
Qed.

Lemma subst_app (c : ascii) (new a b : string) :
  subst c new (a +:+ b) = subst c new a +:+ subst c new b.
Proof.
  induction a as [|x a IH]; [reflexivity|].
  simpl. rewrite IH, append_assoc. reflexivity.
Qed.

(** ** Escaping and tables *)

(** The four later replacements leave the entity of an ampersand alone and
    turn each of the other four characters into its entity. *)
Lemma escape_head (c : ascii) :
  subst "'" "&#39;"
    (subst dq_char "&quot;"
      (subst ">" "&gt;"
        (subst "<" "&lt;"
          (if Ascii.eqb c "&" then "&amp;" else String c EmptyString))))
  = escape_char c.
Proof. destruct c as [[] [] [] [] [] [] [] []]; reflexivity. Qed.

(** The chain of five replacements is the simultaneous substitution. *)
Lemma replace_chain (s : string) :
  replace "'" "&#39;"
    (replace dq "&quot;"
      (replace ">" "&gt;"
        (replace "<" "&lt;"
          (replace "&" "&amp;" s))))
  = spec_escape s.
Proof.
  unfold dq. fold dq_char. rewrite !replace_char.
  induction s as [|c r IH]; [reflexivity|].
  cbn [subst spec_escape]. rewrite !subst_app, IH, escape_head. reflexivity.
Qed.

Lemma escape_html_spec (v : value) : _escape_html v = spec_escape (cell_text v).
Proof. unfold _escape_html. rewrite replace_chain. destruct v; reflexivity. Qed.

Lemma html_safe_escape_char (c : ascii) (t : string) :
  html_safe (escape_char c +:+ t) = html_safe t.
Proof. destruct c as [[] [] [] [] [] [] [] []]; reflexivity. Qed.

Lemma html_safe_spec_escape (s : string) : html_safe (spec_escape s) = true.
Proof.
  induction s as [|c r IH]; [reflexivity|].
  cbn [spec_escape]. now rewrite html_safe_escape_char.
Qed.

(** The table is the fixed markup around the escaped cells. *)
Lemma table_markup (a b : string) :
  "<table>" +:+ ("<thead><tr>" +:+ a +:+ "</tr></thead>")
  +:+ ("<tbody>" +:+ b +:+ "</tbody>") +:+ "</table>"
  = "<table><thead><tr>" +:+ a +:+ "</tr></thead><tbody>" +:+ b +:+ "</tbody></table>".
Proof. rewrite !append_assoc. reflexivity. Qed.

Lemma build_table_cells (headers : list value) (rows_ : list (list value)) :
  _build_table headers rows_
  = spec_table (map _escape_html headers) (map (map _escape_html) rows_).
Proof.
  unfold _build_table, spec_table. rewrite table_markup, !map_map.
  do 4 f_equal. apply (f_equal join), map_ext. intros r. now rewrite map_map.
Qed.

(** C2.  Every cell reaches the table in escaped form only: the chain of
    replacements of [_escape_html] turns each ampersand, angle bracket and
    quote of the cell's text into its entity and leaves the other characters
    (one pass: an entity is not escaped again); the escaped text holds no
    angle bracket or quote, and each of its ampersands starts an entity; the
    table is the fixed markup around the escaped header and cell texts; a
    cell [<script>] appears as [&lt;script&gt;]. *)
Theorem build_table_escapes_cells :
  (forall v : value, _escape_html v = spec_escape (cell_text v))
  /\ (forall v : value, html_safe (_escape_html v) = true)
  /\ (forall (headers : list value) (rows_ : list (list value)),
        _build_table headers rows_
        = spec_table (map (fun h => spec_escape (cell_text h)) headers)
                     (map (map (fun c => spec_escape (cell_text c))) rows_))
  /\ _build_table [] [[VStr "<script>"]]
     = "<table><thead><tr></tr></thead><tbody><tr><td>&lt;script&gt;</td></tr></tbody></table>".
Proof.
  split; [exact escape_html_spec|].
  split; [intros v; rewrite escape_html_spec; apply html_safe_spec_escape|].
  split; [|reflexivity].
  intros headers rows_. rewrite build_table_cells. f_equal.
  - apply map_ext. exact escape_html_spec.
  - apply map_ext. intros r. apply map_ext. exact escape_html_spec.
Qed.

(** C9.  A cell whose value is [None] renders as an empty cell, not as the
    text [None] that [str] would give: [_escape_html None] is the empty
    string, so in any table a [None] cell renders exactly as an empty-string
    cell does, [<td></td>]; the builder is a total function of its rows. *)
Theorem build_table_none_cell :
  _escape_html VNone = "" /\ py_str VNone = "None"
  /\ (forall (headers : list value) (rows_ : list (list value)),
        exists html : string, _build_table headers rows_ = html)
  /\ (forall (headers r1 r2 : list value) (rs1 rs2 : list (list value)),
        _build_table headers (rs1 ++ (r1 ++ VNone :: r2) :: rs2)%list
        = _build_table headers (rs1 ++ (r1 ++ VStr "" :: r2) :: rs2)%list)
  /\ (forall headers : list value,
        _build_table headers [[VNone]]
        = spec_table (map _escape_html headers) [[""]])
  /\ _build_table [VStr "Lokasi"] [[VInt 1; VNone]]
     = "<table><thead><tr><th>Lokasi</th></tr></thead><tbody><tr><td>1</td><td></td></tr></tbody></table>".
Proof.
  split; [reflexivity|]. split; [reflexivity|].
  split; [intros; eexists; reflexivity|].
  split; [|split; [|reflexivity]].
  - intros headers r1 r2 rs1 rs2. rewrite !build_table_cells.
    rewrite !map_app. cbn [map]. rewrite !map_app. reflexivity.
  - intros headers. now rewrite build_table_cells.
Qed.

(** ** The park name of a report row *)

Lemma get_None_lookup (d : row) (k : string) :
  get d k = VNone -> d !! k = None \/ d !! k = Some VNone.
Proof. unfold get. destruct (d !! k) as [v|]; simpl; [intros ->; now right | now left]. Qed.

Lemma truthy_row_lookup (t_ : row) (k : string) (v : value) :
  t_ !! k = Some v -> truthy_row t_ = true.
Proof.
  intros H. unfold truthy_row. rewrite bool_decide_eq_false_2; [reflexivity|].
  intros ->. now rewrite lookup_empty in H.
Qed.

(** The guarded lookup of the name path is lookup 1 at the plant's park. *)
Lemma name_path_park (by_id : gmap Z value) (t_ : row) :
  try_or (VStr "-")
    (if truthy_row t_ && not_None (get t_ "id_taman")
     then idv <- getitem t_ "id_taman";; k <- py_int idv;;
          Ok (default (VStr "-") (by_id !! k))
     else Ok (VStr "-"))
  = park_of_plant by_id t_.
Proof.
  unfold park_of_plant, get, getitem.
  destruct (t_ !! "id_taman") as [v|] eqn:E; simpl.
  - rewrite (truthy_row_lookup _ _ _ E). simpl.
    destruct v; simpl; try reflexivity.
    destruct (int_of_string s); reflexivity.
  - now rewrite andb_false_r.
Qed.

(** The [try] block of the report loop computes the specification's
    resolution. *)
Lemma nama_taman_of_spec (by_id by_tanaman_id : gmap Z value)
    (by_name : gmap string row) (L : row) :
  nama_taman_of by_id by_tanaman_id by_name L
  = spec_nama_taman by_id by_tanaman_id by_name L.
Proof.
  unfold nama_taman_of, spec_nama_taman, plant_ref_of, get, getitem.
  destruct (L !! "id_tanaman") as [v|]; simpl.
  - destruct v; simpl; try reflexivity.
    + destruct (L !! "tanaman") as [nm|]; simpl; [|reflexivity].
      destruct (truthy nm); simpl; [|reflexivity].
      destruct (by_name !! lower (py_str nm)) as [t_|]; [|reflexivity].
      apply name_path_park.
    + destruct (int_of_string s); reflexivity.
  - destruct (L !! "tanaman") as [nm|]; simpl; [|reflexivity].
    destruct (truthy nm); simpl; [|reflexivity].
    destruct (by_name !! lower (py_str nm)) as [t_|]; [|reflexivity].
    apply name_path_park.
Qed.

(** Row [i] of the report table carries the resolved park name in its
    third cell. *)
Lemma rows5_lookup (by_id by_tanaman_id : gmap Z value) (by_name : gmap string row)
    (laporan : list row) (i : nat) :
  rows5 by_id by_tanaman_id by_name laporan !! i
  = (fun L => [number i;
               py_or (_fmt_date (get L "tanggal")) (VStr "");
               spec_nama_taman by_id by_tanaman_id by_name L;
               get_or L "tanaman" (VStr "");
               get_or L "kegiatan" (VStr "");
               get_or L "isi_laporan" (VStr "")]) <$> laporan !! i.
Proof.
  unfold rows5. rewrite list_lookup_imap.
  destruct (laporan !! i) as [L|]; simpl; [|reflexivity].
  now rewrite nama_taman_of_spec.
Qed.

(** C1.  The park name of every report row is resolved as the
    specification says: through lookup 2 when the row carries a plant
    identifier that is present and an integer; through the case-folded name
    lookup 3 (and lookup 1 at the found plant's park) when the row carries no
    identifier and a display name; and it is the placeholder ["-"] when
    neither path resolves.  This is the third cell of the row in the report
    table.  With one park (1, Taman A), one plant (10, park 1, Mawar) and one
    report referencing plant 10, the report table shows Taman A. *)
Theorem report_row_park_name :
  (forall (by_id by_tanaman_id : gmap Z value) (by_name : gmap string row) (L : row),
      nama_taman_of by_id by_tanaman_id by_name L
      = spec_nama_taman by_id by_tanaman_id by_name L)
  /\ (forall (by_id by_tanaman_id : gmap Z value) (by_name : gmap string row)
        (laporan : list row) (i : nat),
        rows5 by_id by_tanaman_id by_name laporan !! i
        = (fun L => [number i;
                     py_or (_fmt_date (get L "tanggal")) (VStr "");
                     spec_nama_taman by_id by_tanaman_id by_name L;
                     get_or L "tanaman" (VStr "");
                     get_or L "kegiatan" (VStr "");
                     get_or L "isi_laporan" (VStr "")]) <$> laporan !! i)
  /\ _escape_html (VStr "-") = "-"
  /\ (forall tgl_str : string,
        exists s1 s2 s3 s4 : string,
          _build_report_html tgl_str example_bundle
          = Ok (page tgl_str s1 s2 s3 s4
                  ("<table><thead><tr><th>No.</th><th>Tanggal</th><th>Nama Taman</th>"
                   +:+ "<th>Nama Tanaman</th><th>Kegiatan</th><th>Isi Laporan</th></tr></thead>"
                   +:+ "<tbody><tr><td>1</td><td>2025-01-01 08:00:00</td><td>Taman A</td>"
                   +:+ "<td>Mawar</td><td>Penyiraman</td><td>ok</td></tr></tbody></table>"))).
Proof.
  split; [exact nama_taman_of_spec|].
  split; [exact rows5_lookup|].
  split; [reflexivity|].
  intros tgl_str.
  exists (sec1 [taman_A]), (sec2 []), (sec3 []),
         (try_or "" (sec4 {[ 1 := VStr "Taman A" ]} [mawar_10])).
  vm_compute. reflexivity.
Qed.

(** C3 (the code departs from the claim).  The loop that builds lookup 2
    tolerates a plant row whose park identifier is no integer, and the
    report loop answers the placeholder for a report on such a plant; but
    section IV converts the same field unguarded, and lookup 1 converts the
    park identifiers unguarded: either aborts the whole document with
    [ValueError]. *)
Theorem report_aborts_on_malformed_identifier :
  map_taman_name_by_tanaman_id {[ 1 := VStr "Taman A" ]} [mawar_bad_park] = ∅
  /\ nama_taman_of {[ 1 := VStr "Taman A" ]} ∅ (map_tanaman_by_name [mawar_bad_park])
       laporan_by_name = VStr "-"
  /\ (forall tgl_str : string,
        _build_report_html tgl_str (mk_bundle [taman_A] [mawar_bad_park] [laporan_by_id])
        = Raise ValueError)
  /\ (forall tgl_str : string,
        _build_report_html tgl_str (mk_bundle [taman_bad_id] [] [])
        = Raise ValueError).
Proof. repeat split; intros; vm_compute; reflexivity. Qed.

(** ** The lookups of the assembler *)

Section Lookups.

(** Lookup 1, whatever the park rows it was built from. *)
Context (by_id : gmap Z value).

Lemma spec_by_identifier (by_tanaman_id : gmap Z value)
    (by_name : gmap string row) (L : row) (k : Z) :
  py_int (get L "id_tanaman") = Ok k ->
  spec_nama_taman by_id by_tanaman_id by_name L
  = default (VStr "-") (by_tanaman_id !! k).
Proof.
  unfold spec_nama_taman, plant_ref_of, get.
  destruct (L !! "id_tanaman") as [v|]; simpl; [|discriminate].
  destruct v; simpl; try discriminate.
  - now intros [= ->].
  - destruct (int_of_string s); [now intros [= ->] | discriminate].
Qed.

Lemma spec_by_name (by_tanaman_id : gmap Z value)
    (by_name : gmap string row) (L : row) :
  get L "id_tanaman" = VNone ->
  truthy (get L "tanaman") = true ->
  spec_nama_taman by_id by_tanaman_id by_name L
  = match by_name !! lower (py_str (get L "tanaman")) with
    | Some t_ => park_of_plant by_id t_
    | None => VStr "-"
    end.
Proof.
  intros Hid Hnm. unfold spec_nama_taman, plant_ref_of.
  unfold get in Hnm |- *.
  destruct (L !! "tanaman") as [nm|]; simpl in *; [|discriminate].
  destruct (get_None_lookup _ _ Hid) as [-> | ->]; now rewrite Hnm.
Qed.

(** Lookup 3: rows with another key do not touch a key. *)
Lemma by_name_fold_miss (l : list row) (m : gmap string row) (k : string) :
  (forall Q : row, Q ∈ l -> name_key Q <> k) ->
  foldl (fun m x => <[name_key x := x]> m) m l !! k = m !! k.
Proof.
  revert m. induction l as [|x l IH]; intros m H; [reflexivity|].
  cbn [foldl]. rewrite IH.
  - apply lookup_insert_ne, H. now left.
  - intros Q HQ. apply H. now right.
Qed.

(** Lookup 3 holds, for a key, the last row that has it. *)
Lemma map_tanaman_by_name_last (l1 l2 : list row) (P : row) :
  (forall Q : row, Q ∈ l2 -> name_key Q <> name_key P) ->
  map_tanaman_by_name (l1 ++ P :: l2) !! name_key P = Some P.
Proof.
  intros H. unfold map_tanaman_by_name.
  rewrite foldl_app. cbn [foldl].
  rewrite by_name_fold_miss by exact H.
  apply lookup_insert_eq.
Qed.

(** Lookup 2: a plant row with another identifier does not touch a key. *)
Lemma tanaman_step_miss (m : gmap Z value) (x : row) (k : Z) :
  py_int (get x "id_tanaman") <> Ok k -> tanaman_step by_id m x !! k = m !! k.
Proof.
  intros H. unfold tanaman_step.
  destruct (py_int (get x "id_tanaman")) as [j|e]; simpl; [|reflexivity].
  destruct (not_None (get x "id_taman")); simpl; [|reflexivity].
  destruct (py_int (get x "id_taman")) as [kt|e]; simpl; [|reflexivity].
  apply lookup_insert_ne. congruence.
Qed.

Lemma by_tanaman_fold_miss (l : list row) (m : gmap Z value) (k : Z) :
  (forall Q : row, Q ∈ l -> py_int (get Q "id_tanaman") <> Ok k) ->
  foldl (tanaman_step by_id) m l !! k = m !! k.
Proof.
  revert m. induction l as [|x l IH]; intros m H; [reflexivity|].
  cbn [foldl]. rewrite IH.
  - apply tanaman_step_miss, H. now left.
  - intros Q HQ. apply H. now right.
Qed.

(** Lookup 2: what the row of plant [k] binds is lookup 1 at its park. *)
Lemma tanaman_step_hit (m : gmap Z value) (P : row) (k : Z) :
  py_int (get P "id_tanaman") = Ok k ->
  m !! k = None ->
  default (VStr "-") (tanaman_step by_id m P !! k) = park_of_plant by_id P.
Proof.
  intros Hk Hm. unfold tanaman_step, park_of_plant. rewrite Hk. simpl.
  unfold get. destruct (P !! "id_taman") as [v|]; simpl.
  - destruct v; simpl; rewrite ?Hm; try reflexivity.
    + now rewrite lookup_insert_eq.
    + destruct (int_of_string s); simpl; [now rewrite lookup_insert_eq | now rewrite Hm].
  - now rewrite Hm.
Qed.

Lemma map_taman_name_by_tanaman_id_unique (l1 l2 : list row) (P : row) (k : Z) :
  py_int (get P "id_tanaman") = Ok k ->
  (forall Q : row, Q ∈ (l1 ++ l2)%list -> py_int (get Q "id_tanaman") <> Ok k) ->
  default (VStr "-") (map_taman_name_by_tanaman_id by_id (l1 ++ P :: l2) !! k)
  = park_of_plant by_id P.
Proof.
  intros Hk H. unfold map_taman_name_by_tanaman_id.
  rewrite foldl_app. cbn [foldl].
  rewrite by_tanaman_fold_miss
    by (intros Q HQ; apply H, elem_of_app; now right).
  apply tanaman_step_hit; [exact Hk|].
  rewrite by_tanaman_fold_miss
    by (intros Q HQ; apply H, elem_of_app; now left).
  apply lookup_empty.
Qed.

(** C4, as amended.  For a report row that carries only a display name and
    a plant row [P] whose case-folded name equals the case-folded display
    name: when [P] is the last plant row with that folded name, and the
    identifier of [P] is an integer that no other plant row carries, the name
    fallback resolves the park name that the identifier path resolves for a
    report referencing [P] by its identifier. *)
Theorem name_fallback_agrees_with_identifier_path
    (l1 l2 : list row) (P L_name L_id : row) (k : Z) :
  get L_name "id_tanaman" = VNone ->
  truthy (get L_name "tanaman") = true ->
  lower (py_str (get L_name "tanaman")) = name_key P ->
  (forall Q : row, Q ∈ l2 -> name_key Q <> name_key P) ->
  py_int (get P "id_tanaman") = Ok k ->
  (forall Q : row, Q ∈ (l1 ++ l2)%list -> py_int (get Q "id_tanaman") <> Ok k) ->
  get L_id "id_tanaman" = get P "id_tanaman" ->
  nama_taman_of by_id
    (map_taman_name_by_tanaman_id by_id (l1 ++ P :: l2))
    (map_tanaman_by_name (l1 ++ P :: l2)) L_name
  = nama_taman_of by_id
      (map_taman_name_by_tanaman_id by_id (l1 ++ P :: l2))
      (map_tanaman_by_name (l1 ++ P :: l2)) L_id.
Proof.
  intros Hnone Hnm Hfold Hlast Hk Huniq Hid.
  rewrite !nama_taman_of_spec.
  rewrite (spec_by_name _ _ _ Hnone Hnm), Hfold.
  rewrite (map_tanaman_by_name_last _ _ _ Hlast).
  rewrite <- Hid in Hk. rewrite (spec_by_identifier _ _ _ _ Hk).
  rewrite Hid in Hk.
  symmetry. now apply map_taman_name_by_tanaman_id_unique.
Qed.

(** C10.  Lookup 3 holds, for a case-folded name, the last plant row of
    the row-set with that name, whatever rows with the same name come
    before; the name fallback resolves the park of that row. *)
Theorem name_fallback_last_plant_wins
    (by_tanaman_id : gmap Z value) (l1 l2 : list row) (P L : row) :
  (forall Q : row, Q ∈ l2 -> name_key Q <> name_key P) ->
  get L "id_tanaman" = VNone ->
  truthy (get L "tanaman") = true ->
  lower (py_str (get L "tanaman")) = name_key P ->
  map_tanaman_by_name (l1 ++ P :: l2) !! name_key P = Some P
  /\ nama_taman_of by_id by_tanaman_id (map_tanaman_by_name (l1 ++ P :: l2)) L
     = park_of_plant by_id P.
Proof.
  intros Hlast Hnone Hnm Hfold.
  split; [now apply map_tanaman_by_name_last|].
  rewrite nama_taman_of_spec, (spec_by_name _ _ _ Hnone Hnm), Hfold.
  now rewrite (map_tanaman_by_name_last _ _ _ Hlast).
Qed.

End Lookups.

Lemma name_fallback_agrees_witness :
  nama_taman_of parks_AB
    (map_taman_name_by_tanaman_id parks_AB ([mawar_11] ++ mawar_10 :: [melati_12]))
    (map_tanaman_by_name ([mawar_11] ++ mawar_10 :: [melati_12])) laporan_by_name
  = nama_taman_of parks_AB
      (map_taman_name_by_tanaman_id parks_AB ([mawar_11] ++ mawar_10 :: [melati_12]))
      (map_tanaman_by_name ([mawar_11] ++ mawar_10 :: [melati_12])) laporan_by_id.
Proof.
  apply (name_fallback_agrees_with_identifier_path
           parks_AB [mawar_11] [melati_12] mawar_10 laporan_by_name laporan_by_id 10).
  - reflexivity.
  - reflexivity.
  - reflexivity.
  - intros Q HQ. apply list_elem_of_singleton in HQ. subst Q.
    vm_compute. discriminate.
  - reflexivity.
  - intros Q HQ. apply elem_of_cons in HQ as [-> | HQ].
    + vm_compute. discriminate.
    + apply list_elem_of_singleton in HQ. subst Q. vm_compute. discriminate.
  - reflexivity.
Defined.

(** The claim C4 as the specification states it fails when two plant rows
    share a folded name: the display name [Mawar] matches plant 10 of Taman A,
    the fallback resolves Taman B (the later plant 11), the identifier path
    for plant 10 resolves Taman A.  It also fails when two plant rows share an
    identifier. *)
Lemma name_fallback_differs_on_shared_name :
  map_taman_name_by_id [taman_A; taman_B] = Ok parks_AB
  /\ get laporan_by_name "id_tanaman" = VNone
  /\ lower (py_str (get laporan_by_name "tanaman")) = name_key mawar_10
  /\ get laporan_by_id "id_tanaman" = get mawar_10 "id_tanaman"
  /\ nama_taman_of parks_AB
       (map_taman_name_by_tanaman_id parks_AB [mawar_10; mawar_11])
       (map_tanaman_by_name [mawar_10; mawar_11]) laporan_by_name = VStr "Taman B"
  /\ nama_taman_of parks_AB
       (map_taman_name_by_tanaman_id parks_AB [mawar_10; mawar_11])
       (map_tanaman_by_name [mawar_10; mawar_11]) laporan_by_id = VStr "Taman A"
  /\ nama_taman_of parks_AB
       (map_taman_name_by_tanaman_id parks_AB [mawar_10; melati_10])
       (map_tanaman_by_name [mawar_10; melati_10]) laporan_by_name = VStr "Taman A"
  /\ nama_taman_of parks_AB
       (map_taman_name_by_tanaman_id parks_AB [mawar_10; melati_10])
       (map_tanaman_by_name [mawar_10; melati_10]) laporan_by_id = VStr "Taman B".
Proof. repeat split; vm_compute; reflexivity. Qed.

Lemma name_fallback_last_plant_witness :
  map_tanaman_by_name ([mawar_10] ++ mawar_11 :: [melati_12]) !! name_key mawar_11
  = Some mawar_11
  /\ nama_taman_of parks_AB ∅ (map_tanaman_by_name ([mawar_10] ++ mawar_11 :: [melati_12]))
       laporan_by_name
     = park_of_plant parks_AB mawar_11.
Proof.
  apply (name_fallback_last_plant_wins parks_AB ∅ [mawar_10] [melati_12] mawar_11
           laporan_by_name).
  - intros Q HQ. apply list_elem_of_singleton in HQ. subst Q.
    vm_compute. discriminate.
  - reflexivity.
  - reflexivity.
  - reflexivity.
Defined.

(** ** The bulk wipe *)

Section BulkWipe.

(** The driver oracle and the store's clock of one request. *)
Variables (fault : nat -> bool) (now : datetime).

(** When a delete fails, the block raises and nothing is committed. *)
Lemma clear_all_block_delete_fails (reset_ai : bool) (d : db) (n : nat) :
  (n < 5)%nat -> fault n = true ->
  exists c : conn,
    clear_all_block fault now reset_ai (get_conn d) = (Raise lost_connection, c)
    /\ committed c = d
    /\ sent c = firstn (length (sent c)) deletes
    /\ (length (sent c) <= S n)%nat.
Proof.
  intros Hn Hf. unfold clear_all_block, io_bind, cur_execute, get_conn. cbn.
  destruct (fault 0%nat) eqn:F0; cbn.
  { eexists; repeat split; cbn; lia. }
  destruct (fault 1%nat) eqn:F1; cbn.
  { destruct n as [|n]; [congruence|]. eexists; repeat split; cbn; lia. }
  destruct (fault 2%nat) eqn:F2; cbn.
  { do 2 (destruct n as [|n]; [congruence|]). eexists; repeat split; cbn; lia. }
  destruct (fault 3%nat) eqn:F3; cbn.
  { do 3 (destruct n as [|n]; [congruence|]). eexists; repeat split; cbn; lia. }
  destruct (fault 4%nat) eqn:F4; cbn.
  { do 4 (destruct n as [|n]; [congruence|]). eexists; repeat split; cbn; lia. }
  do 5 (destruct n as [|n]; [congruence|]). lia.
Qed.

(** With a driver that does not fail, the block sends the deletes in the
    dependency order, then the resets, and commits the empty tables: no
    delete is refused by a foreign key, whatever the store holds. *)
Lemma clear_all_block_succeeds (reset_ai : bool) (d : db) :
  (forall n : nat, fault n = false) ->
  exists c : conn,
    clear_all_block fault now reset_ai (get_conn d) = (Ok tt, c)
    /\ committed c = wiped reset_ai d
    /\ sent c = (deletes ++ (if reset_ai then alters else []))%list.
Proof.
  intros Hf. unfold clear_all_block, io_bind, try_alter, cur_execute, conn_commit, get_conn.
  destruct reset_ai; cbn; do 12 (try (rewrite Hf; cbn));
    (eexists; split; [reflexivity|]; split; reflexivity).
Qed.

(** Whatever the driver does, what the block has sent is a prefix of the
    deletes in the dependency order followed by the resets. *)
Lemma clear_all_block_sent (reset_ai : bool) (d : db) :
  sent (clear_all_block fault now reset_ai (get_conn d)).2
  `prefix_of` (deletes ++ (if reset_ai then alters else []))%list.
Proof.
  unfold clear_all_block, io_bind, try_alter, cur_execute, conn_commit, get_conn.
  cbn. repeat (next_fault fault; [eexists; reflexivity|]).
  destruct reset_ai; cbn; repeat next_fault fault; eexists; reflexivity.
Qed.

Lemma admin_clear_all_confirmed (members : list (string * json)) (c : json) (d : db) :
  member "confirm" members = Some c ->
  json_truthy c = true ->
  admin_clear_all fault now (Some (JObj members)) d
  = let reset_ai := json_truthy (default (JBool true)
                                   (member "reset_auto_increment" members)) in
    match clear_all_block fault now reset_ai (get_conn d) with
    | (Ok _, c) => (Ok (Response 200 (cleared_body reset_ai)), conn_close c)
    | (Raise (MySQLError msg), c) =>
        (Ok (Response 500 (error_body msg)), conn_close (conn_rollback c))
    | (Raise e, c) => (Raise e, conn_close c)
    end.
Proof.
  intros Hm Hc. unfold admin_clear_all.
  assert (Ht : json_truthy (JObj members) = true)
    by (destruct members; [discriminate | reflexivity]).
  rewrite Ht. cbn. rewrite Hm. cbn. rewrite Hc. reflexivity.
Qed.

(** C5.  A confirmed bulk wipe sends the deletes in the dependency order
    report, plant, staff, activity type, park (what it has sent is always a
    prefix of that sequence followed by the counter resets).  When the driver
    does not fail, every delete succeeds and all five tables end empty; when
    any of the five deletes fails, the answer is a 500 and the store is
    exactly what it was before the request. *)
Theorem admin_clear_all_atomic (members : list (string * json)) (c : json) (d : db) :
  member "confirm" members = Some c ->
  json_truthy c = true ->
  let reset_ai := json_truthy (default (JBool true)
                                 (member "reset_auto_increment" members)) in
  sent (clear_all_block fault now reset_ai (get_conn d)).2
    `prefix_of` (deletes ++ (if reset_ai then alters else []))%list
  /\ ((forall n : nat, fault n = false) ->
      sent (clear_all_block fault now reset_ai (get_conn d)).2
      = (deletes ++ (if reset_ai then alters else []))%list
      /\ admin_clear_all fault now (Some (JObj members)) d
         = (Ok (Response 200 (cleared_body reset_ai)), wiped reset_ai d))
  /\ (forall n : nat, (n < 5)%nat -> fault n = true ->
      admin_clear_all fault now (Some (JObj members)) d
      = (Ok (Response 500 (error_body "2013 (HY000): Lost connection to MySQL server during query")), d)).
Proof.
  intros Hm Hc reset_ai.
  split; [apply clear_all_block_sent|].
  split.
  - intros Hf.
    destruct (clear_all_block_succeeds reset_ai d Hf) as (k & Hk & Hdb & Hsent).
    split; [rewrite Hk; exact Hsent|].
    rewrite (admin_clear_all_confirmed _ _ _ Hm Hc). cbv zeta. fold reset_ai.
    rewrite Hk. unfold conn_close. now rewrite Hdb.
  - intros n Hn Hf.
    destruct (clear_all_block_delete_fails reset_ai d n Hn Hf)
      as (k & Hk & Hdb & _).
    rewrite (admin_clear_all_confirmed _ _ _ Hm Hc). cbv zeta. fold reset_ai.
    rewrite Hk. unfold conn_close, conn_rollback, lost_connection. cbn.
    now rewrite Hdb.
Qed.

End BulkWipe.

Lemma admin_clear_all_atomic_witness :
  sent (clear_all_block (fun n => Nat.eqb n 3) sample_now true (get_conn sample_db)).2
    `prefix_of` (deletes ++ alters)%list
  /\ ((forall n : nat, Nat.eqb n 3 = false) ->
      sent (clear_all_block (fun n => Nat.eqb n 3) sample_now true (get_conn sample_db)).2
      = (deletes ++ alters)%list
      /\ admin_clear_all (fun n => Nat.eqb n 3) sample_now
           (Some (JObj [("confirm", JBool true)])) sample_db
         = (Ok (Response 200 (cleared_body true)), wiped true sample_db))
  /\ (forall n : nat, (n < 5)%nat -> Nat.eqb n 3 = true ->
      admin_clear_all (fun n => Nat.eqb n 3) sample_now
        (Some (JObj [("confirm", JBool true)])) sample_db
      = (Ok (Response 500 (error_body "2013 (HY000): Lost connection to MySQL server during query")),
         sample_db)).
Proof.
  apply (admin_clear_all_atomic (fun n => Nat.eqb n 3) sample_now
           [("confirm", JBool true)] (JBool true) sample_db).
  - reflexivity.
  - reflexivity.
Defined.

Example admin_clear_all_runs :
  admin_clear_all no_fault sample_now (Some (JObj [("confirm", JBool true)])) sample_db
  = (Ok (Response 200 (cleared_body true)), Db [] [] [] [] [] 1 1 1 1 1)
  /\ admin_clear_all (fun n => Nat.eqb n 3) sample_now
       (Some (JObj [("confirm", JBool true)])) sample_db
     = (Ok (Response 500 (error_body "2013 (HY000): Lost connection to MySQL server during query")),
        sample_db)
  /\ (cur_execute no_fault sample_now (DeleteFrom Tanaman) (get_conn sample_db)).1
     = Raise fk_child_exists.
Proof. repeat split; vm_compute; reflexivity. Qed.

(** C6, as amended.  A request that does not confirm (a body that is not
    JSON or is an empty value, or an object whose [confirm] member is
    missing, false, null, zero or empty) is answered with the 400 validation
    error and the store is untouched; a non-empty body that is not an object
    is not answered at all (the lookup of [confirm] raises), and the store is
    untouched as well. *)
Theorem admin_clear_all_requires_confirmation :
  (forall (fault : nat -> bool) (now : datetime) (req : option json) (d : db),
      confirmation_missing req = true ->
      admin_clear_all fault now req d
      = (Ok (Response 400 (error_body confirmation_required)), d))
  /\ (forall (fault : nat -> bool) (now : datetime) (j : json) (d : db),
        json_truthy j = true -> (forall members, j <> JObj members) ->
        admin_clear_all fault now (Some j) d = (Raise AttributeError, d))
  /\ admin_clear_all no_fault sample_now
       (Some (JObj [("reset_auto_increment", JBool true)])) sample_db
     = (Ok (Response 400 (error_body confirmation_required)), sample_db).
Proof.
  split; [|split; [|reflexivity]].
  - intros fault now req d H. unfold admin_clear_all.
    destruct req as [j|]; [|reflexivity].
    destruct j as [|b|n|s|items|members]; cbn in H |- *;
      try reflexivity;
      try (apply negb_true_iff in H; rewrite H; reflexivity).
    destruct members as [|kv members]; [reflexivity|].
    cbn [json_truthy json_get].
    destruct (member "confirm" (kv :: members)) as [c|]; cbn; [|reflexivity].
    now rewrite H.
  - intros fault now j d Ht Hj. unfold admin_clear_all. rewrite Ht.
    destruct j as [|b|n|s|items|members]; try reflexivity. now destruct (Hj members).
Qed.

(** The claim C6 as the specification states it fails for a [confirm]
    member that is not [true] but is not empty either: the string [no] is
    taken as confirmation and the five tables are emptied. *)
Lemma admin_clear_all_accepts_truthy_confirm :
  confirm_is_true (Some (JObj [("confirm", JStr "no")])) = false
  /\ admin_clear_all no_fault sample_now (Some (JObj [("confirm", JStr "no")])) sample_db
     = (Ok (Response 200 (cleared_body true)), Db [] [] [] [] [] 1 1 1 1 1)
  /\ t_taman sample_db <> [].
Proof.
  split; [reflexivity|]. split; [vm_compute; reflexivity|]. discriminate.
Qed.

(** ** Timestamps *)

Lemma upto_forallb (P : Z -> bool) (n : nat) :
  forallb P (upto n) = true ->
  forall x : Z, (0 <= x < Z.of_nat n)%Z -> P x = true.
Proof.
  intros H x Hx. rewrite forallb_forall in H. apply H.
  unfold upto. apply in_map_iff. exists (Z.to_nat x). split; [lia|].
  apply in_seq. lia.
Qed.

Lemma digit_of_inv (a : ascii) (x : Z) :
  digit_of a = Some x -> (0 <= x <= 9)%Z /\ a = digit_char x.
Proof.
  unfold digit_of, digit_char.
  destruct (_ && _) eqn:E; [|discriminate]. intros [= <-].
  apply andb_true_iff in E as [E1 E2].
  apply Nat.leb_le in E1. apply Nat.leb_le in E2.
  split; [lia|].
  replace (48 + Z.to_nat (Z.of_nat (nat_of_ascii a) - 48))%nat with (nat_of_ascii a) by lia.
  symmetry. apply ascii_nat_embedding.
Qed.

Lemma zpad2_digits (x y : Z) :
  (0 <= x <= 9)%Z -> (0 <= y <= 9)%Z ->
  zpad 2 (10 * x + y) = String (digit_char x) (String (digit_char y) EmptyString).
Proof.
  intros Hx Hy. apply String.eqb_eq.
  refine (upto_forallb
            (fun y => String.eqb (zpad 2 (10 * x + y))
                        (String (digit_char x) (String (digit_char y) EmptyString)))
            10 _ y ltac:(lia)).
  revert x Hx. intros x Hx.
  refine (upto_forallb
            (fun x => forallb
                        (fun y => String.eqb (zpad 2 (10 * x + y))
                                    (String (digit_char x)
                                       (String (digit_char y) EmptyString)))
                        (upto 10))
            10 _ x ltac:(lia)).
  vm_compute. reflexivity.
Qed.

(** Two digits read as a number print back as themselves. *)
Lemma two_digits_zpad (a b : ascii) (n : Z) :
  two_digits a b = Some n ->
  zpad 2 n = String a (String b EmptyString) /\ (0 <= n <= 99)%Z.
Proof.
  unfold two_digits.
  destruct (digit_of a) as [x|] eqn:Ea; [|discriminate].
  destruct (digit_of b) as [y|] eqn:Eb; [|discriminate].
  cbn. intros [= <-].
  apply digit_of_inv in Ea as [Hx ->]. apply digit_of_inv in Eb as [Hy ->].
  split; [now apply zpad2_digits | lia].
Qed.

Lemma zpad4_split (h l : Z) :
  (0 <= h <= 99)%Z -> (0 <= l <= 99)%Z ->
  zpad 4 (100 * h + l) = zpad 2 h +:+ zpad 2 l.
Proof.
  intros Hh Hl. apply String.eqb_eq.
  refine (upto_forallb
            (fun l => String.eqb (zpad 4 (100 * h + l)) (zpad 2 h +:+ zpad 2 l))
            100 _ l ltac:(lia)).
  refine (upto_forallb
            (fun h => forallb
                        (fun l => String.eqb (zpad 4 (100 * h + l))
                                    (zpad 2 h +:+ zpad 2 l))
                        (upto 100))
            100 _ h ltac:(lia)).
  vm_compute. reflexivity.
Qed.

Lemma is_char_eq (c : ascii) (s : string) :
  is_char c s = true -> s = String c EmptyString.
Proof. unfold is_char. intros H. apply String.eqb_eq in H. now symmetry. Qed.

(** A literal the store accepts reads back as itself. *)
Lemma datetime_of_string_isoformat (s : string) (t : datetime) :
  datetime_of_string s = Some t -> isoformat_seconds t = s.
Proof.
  unfold datetime_of_string. intros H.
  rewrite <- (string_of_list_ascii_of_string s).
  destruct (list_ascii_of_string s)
    as [|y1 [|y2 [|y3 [|y4 [|c1 [|m1 [|m2 [|c2 [|d1 [|d2 [|c3 [|h1 [|h2 [|c4
        [|n1 [|n2 [|c5 [|s1 [|s2 [|x l]]]]]]]]]]]]]]]]]]]]; try discriminate.
  destruct (is_char c1 "-") eqn:E1; [|discriminate].
  destruct (is_char c2 "-") eqn:E2; [|discriminate].
  destruct (is_char c3 " ") eqn:E3; [|discriminate].
  destruct (is_char c4 ":") eqn:E4; [|discriminate].
  destruct (is_char c5 ":") eqn:E5; [|discriminate].
  apply is_char_eq in E1, E2, E3, E4, E5.
  injection E1 as <-. injection E2 as <-. injection E3 as <-.
  injection E4 as <-. injection E5 as <-.
  cbn [andb] in H.
  destruct (two_digits y1 y2) as [yh|] eqn:Tyh; [|discriminate].
  destruct (two_digits y3 y4) as [yl|] eqn:Tyl; [|discriminate].
  destruct (two_digits m1 m2) as [mo|] eqn:Tmo; [|discriminate].
  destruct (two_digits d1 d2) as [dd|] eqn:Tdd; [|discriminate].
  destruct (two_digits h1 h2) as [hh|] eqn:Thh; [|discriminate].
  destruct (two_digits n1 n2) as [mi|] eqn:Tmi; [|discriminate].
  destruct (two_digits s1 s2) as [ss|] eqn:Tss; [|discriminate].
  cbn in H. destruct (valid_datetime _); [|discriminate].
  injection H as <-.
  apply two_digits_zpad in Tyh as [Fyh Byh], Tyl as [Fyl Byl], Tmo as [Fmo _],
      Tdd as [Fdd _], Thh as [Fhh _], Tmi as [Fmi _], Tss as [Fss _].
  unfold isoformat_seconds. cbn [year month day hour minute second].
  rewrite (zpad4_split _ _ Byh Byl), Fyh, Fyl, Fmo, Fdd, Fhh, Fmi, Fss.
  reflexivity.
Qed.

(** ** Creating a report *)

Lemma execute_insert (fault : nat -> bool) (now : datetime) (cmd : command) (d : db)
    (a b c : Z) (when : datetime) (isi : json) (txt : option string) :
  fault 0%nat = false -> fault 1%nat = false ->
  references_exist d a b c = true ->
  sql_text isi = Ok txt ->
  (cmd = InsertLaporanNow a b c isi /\ when = now
   \/ exists tanggal, cmd = InsertLaporan a b c tanggal isi /\ sql_datetime tanggal = Ok when) ->
  execute fault now cmd d
  = (Ok (ai_laporan d), inserted d (LaporanRec (ai_laporan d) a b c when txt)).
Proof.
  intros F0 F1 Hfk Htxt Hcmd.
  unfold execute, io_bind, cur_execute, conn_commit, get_conn. cbn.
  rewrite F0.
  destruct Hcmd as [[-> ->] | (tanggal & -> & Hts)]; cbn;
    rewrite ?Hts, Htxt; cbn; unfold insert_laporan; cbn;
    unfold references_exist in Hfk; rewrite Hfk; cbn; rewrite F1; reflexivity.
Qed.

(** C7.  For a creation request whose three identifiers are integers of
    existing rows, on a driver that does not fail: when the timestamp is
    omitted or empty, the inserted report carries the store's current time;
    when a timestamp [YYYY-MM-DD HH:MM:SS] is supplied, the inserted report
    carries it, and it reads back as exactly the supplied text; the key, the
    three references and the content of the inserted row are the same in both
    cases. *)
Theorem create_laporan_timestamp (fault : nat -> bool) (now : datetime)
    (members : list (string * json)) (d : db) (x y z : json) (a b c : Z)
    (txt : option string) :
  member "id_tanaman" members = Some x -> json_int x = Ok a ->
  member "id_petugas" members = Some y -> json_int y = Ok b ->
  member "id_kegiatan" members = Some z -> json_int z = Ok c ->
  references_exist d a b c = true ->
  sql_text (default (JStr "") (member "isi_laporan" members)) = Ok txt ->
  fault 0%nat = false -> fault 1%nat = false ->
  (json_truthy (default JNull (member "tanggal" members)) = false ->
   create_laporan fault now (Some (JObj members)) d
   = (Ok (created (ai_laporan d)),
      inserted d (LaporanRec (ai_laporan d) a b c now txt)))
  /\ (forall (ts : string) (t : datetime),
        member "tanggal" members = Some (JStr ts) ->
        datetime_of_string ts = Some t ->
        create_laporan fault now (Some (JObj members)) d
        = (Ok (created (ai_laporan d)),
           inserted d (LaporanRec (ai_laporan d) a b c t txt))
        /\ isoformat_seconds t = ts).
Proof.
  intros Hx Ha Hy Hb Hz Hc Hfk Htxt F0 F1.
  assert (Hids :
    create_laporan fault now (Some (JObj members)) d
    = let tanggal := default JNull (member "tanggal" members) in
      let isi := default (JStr "") (member "isi_laporan" members) in
      let cmd := if negb (json_truthy tanggal) then InsertLaporanNow a b c isi
                 else InsertLaporan a b c tanggal isi in
      match execute fault now cmd d with
      | (Ok new_id, d') => (Ok (created new_id), d')
      | (Raise (MySQLError msg), d') => (Ok (Response 400 (error_body msg)), d')
      | (Raise e, d') => (Raise e, d')
      end).
  { unfold create_laporan, json_getitem. rewrite Hx, Hy, Hz. cbn.
    rewrite Ha. cbn. rewrite Hb. cbn. rewrite Hc. reflexivity. }
  split.
  - intros Hfalsy. rewrite Hids. cbv zeta. rewrite Hfalsy. cbn [negb].
    rewrite (execute_insert fault now _ d a b c now _ txt F0 F1 Hfk Htxt); [reflexivity|].
    left. split; reflexivity.
  - intros ts t Hts Ht. split; [|now apply datetime_of_string_isoformat].
    rewrite Hids. cbv zeta. rewrite Hts. simpl (default _ (Some _)).
    assert (Htruthy : json_truthy (JStr ts) = true).
    { destruct ts; [discriminate Ht | reflexivity]. }
    rewrite Htruthy. cbn [negb].
    rewrite (execute_insert fault now _ d a b c t _ txt F0 F1 Hfk Htxt); [reflexivity|].
    right. exists (JStr ts). split; [reflexivity|]. cbn. now rewrite Ht.
Qed.

Lemma create_laporan_timestamp_witness :
  (json_truthy (default JNull (member "tanggal"
      [("id_tanaman", JInt 10); ("id_petugas", JStr "1"); ("id_kegiatan", JInt 1);
       ("tanggal", JStr "2024-02-29 23:59:59"); ("isi_laporan", JStr "disiram")])) = false ->
   create_laporan no_fault sample_now (Some request_at) sample_db
   = (Ok (created (ai_laporan sample_db)),
      inserted sample_db
        (LaporanRec (ai_laporan sample_db) 10 1 1 sample_now (Some "disiram"))))
  /\ (forall (ts : string) (t : datetime),
        member "tanggal"
          [("id_tanaman", JInt 10); ("id_petugas", JStr "1"); ("id_kegiatan", JInt 1);
           ("tanggal", JStr "2024-02-29 23:59:59"); ("isi_laporan", JStr "disiram")]
        = Some (JStr ts) ->
        datetime_of_string ts = Some t ->
        create_laporan no_fault sample_now (Some request_at) sample_db
        = (Ok (created (ai_laporan sample_db)),
           inserted sample_db (LaporanRec (ai_laporan sample_db) 10 1 1 t (Some "disiram")))
        /\ isoformat_seconds t = ts).
Proof.
  apply (create_laporan_timestamp no_fault sample_now
           [("id_tanaman", JInt 10); ("id_petugas", JStr "1"); ("id_kegiatan", JInt 1);
            ("tanggal", JStr "2024-02-29 23:59:59"); ("isi_laporan", JStr "disiram")]
           sample_db (JInt 10) (JStr "1") (JInt 1) 10 1 1 (Some "disiram"));
    reflexivity.
Defined.

Example create_laporan_runs :
  create_laporan no_fault sample_now (Some request_now) sample_db
  = (Ok (created 2),
     inserted sample_db (LaporanRec 2 10 1 1 sample_now (Some "disiram")))
  /\ create_laporan no_fault sample_now (Some request_at) sample_db
     = (Ok (created 2),
        inserted sample_db
          (LaporanRec 2 10 1 1 (Datetime 2024 2 29 23 59 59 0) (Some "disiram")))
  /\ isoformat_seconds (Datetime 2024 2 29 23 59 59 0) = "2024-02-29 23:59:59".
Proof. repeat split; vm_compute; reflexivity. Qed.

(** ** List operations *)

Lemma length_insert_sorted {A : Type} (le : A -> A -> bool) (x : A) (l : list A) :
  length (insert_sorted le x l) = S (length l).
Proof.
  induction l as [|y l IH]; [reflexivity|].
  cbn. destruct (le x y); cbn; [reflexivity | now rewrite IH].
Qed.

(** ORDER BY keeps every row. *)
Lemma length_order_by {A : Type} (le : A -> A -> bool) (l : list A) :
  length (order_by le l) = length l.
Proof.
  unfold order_by. induction l as [|x l IH]; [reflexivity|].
  cbn [foldr length]. now rewrite length_insert_sorted, IH.
Qed.

Lemma mapM_total {A B : Type} (f : A -> result B) (l : list A) :
  Forall (fun a => exists b, f a = Ok b) l ->
  exists bs, mapM f l = Ok bs /\ length bs = length l.
Proof.
  induction 1 as [|a l [b Hb] _ (bs & Hbs & Hlen)]; [now exists []|].
  exists (b :: bs). cbn. rewrite Hb, Hbs. cbn. now rewrite Hlen.
Qed.

(** A row of the report join carries its timestamp. *)
Lemma laporan_join_tanggal (d : db) (l : laporan_rec) (r : row) :
  laporan_join d l = Some r -> r !! "tanggal" = Some (VDatetime (lp_tanggal l)).
Proof.
  unfold laporan_join.
  destruct (find _ (t_tanaman d)); [|discriminate].
  destruct (find _ (t_petugas d)); [|discriminate].
  destruct (find _ (t_kegiatan d)); [|discriminate].
  cbn. intros [= <-]. reflexivity.
Qed.

Lemma omap_join_tanggal (d : db) (l : list laporan_rec) :
  Forall (fun r : row => exists t, r !! "tanggal" = Some (VDatetime t))
         (omap (laporan_join d) l).
Proof.
  induction l as [|x l IH]; cbn; [constructor|].
  destruct (laporan_join d x) as [r|] eqn:E; [|exact IH].
  constructor; [|exact IH]. eexists. exact (laporan_join_tanggal _ _ _ E).
Qed.

(** The report query with a limit that is not negative returns at most
    that many rows. *)
Lemma select_laporan_capped (n : Z) (d : db) :
  (0 <= n)%Z ->
  exists data,
    rows (SelectLaporan n) d = Ok data
    /\ (Z.of_nat (length data) <= n)%Z
    /\ Forall (fun r : row => exists t, r !! "tanggal" = Some (VDatetime t)) data.
Proof.
  intros Hn. unfold rows, run_query, sql_limit.
  destruct (Z.ltb_spec n 0) as [?|_]; [lia|].
  eexists. split; [reflexivity|]. split.
  - rewrite length_firstn. lia.
  - apply Forall_take, omap_join_tanggal.
Qed.

Lemma list_laporan_capped (a : args) (d : db) (n : Z) :
  default 20 (args_int a "limit") = n -> (0 <= n)%Z ->
  exists data,
    list_laporan a d = Ok (Response 200 (RowsBody data))
    /\ (Z.of_nat (length data) <= n)%Z.
Proof.
  intros Hlim Hn. unfold list_laporan. rewrite Hlim.
  destruct (select_laporan_capped n d Hn) as (data & -> & Hlen & Hts). cbn.
  destruct (mapM_total
              (fun r : row =>
                 v <- getitem r "tanggal";;
                 Ok (match v with
                     | VDatetime t => <["tanggal" := VStr (isoformat_seconds t)]> r
                     | _ => r
                     end)) data) as (out & -> & Hout).
  { eapply Forall_impl; [exact Hts|]. intros r [t Ht]. unfold getitem.
    rewrite Ht. cbn. eauto. }
  exists out. split; [reflexivity | lia].
Qed.

Lemma report_all_capped (a : args) (d : db) (n : Z) :
  default 100000 (args_int a "limit") = n -> (0 <= n)%Z ->
  exists b : bundle,
    report_all a d = Ok (Response 200 (BundleBody b))
    /\ (Z.of_nat (length (bundle_get b "laporan")) <= n)%Z
    /\ length (bundle_get b "taman") = length (t_taman d)
    /\ length (bundle_get b "petugas") = length (t_petugas d)
    /\ length (bundle_get b "kegiatan") = length (t_kegiatan d)
    /\ length (bundle_get b "tanaman") = length (t_tanaman d).
Proof.
  intros Hlim Hn. unfold report_all, fetch_bundle. rewrite Hlim.
  destruct (select_laporan_capped n d Hn) as (data & -> & Hlen & _). cbn.
  eexists. split; [reflexivity|].
  unfold bundle_get.
  repeat split; cbn; simplify_map_eq; cbn;
    rewrite ?length_map, ?length_order_by; try reflexivity; lia.
Qed.

(** C8, as amended.  Only the report list takes a limit: with none
    supplied (or one that is no integer) at most 20 rows are returned, with
    a limit [n >= 0] at most [n]; the combined report fetch caps its report
    rows the same way, at 100000 by default, and returns every row of the
    other four tables.  The park, staff and activity-type lists read nothing
    from the query string and return every row of their table; the plant
    list reads only the park identifier and returns every plant of that
    park. *)
Theorem list_operations_limits :
  (forall (a : args) (d : db),
      args_int a "limit" = None ->
      exists data,
        list_laporan a d = Ok (Response 200 (RowsBody data))
        /\ (Z.of_nat (length data) <= 20)%Z)
  /\ (forall (a : args) (d : db) (n : Z),
        args_int a "limit" = Some n -> (0 <= n)%Z ->
        exists data,
          list_laporan a d = Ok (Response 200 (RowsBody data))
          /\ (Z.of_nat (length data) <= n)%Z)
  /\ (forall (a : args) (d : db),
        args_int a "limit" = None ->
        exists b : bundle,
          report_all a d = Ok (Response 200 (BundleBody b))
          /\ (Z.of_nat (length (bundle_get b "laporan")) <= 100000)%Z
          /\ length (bundle_get b "taman") = length (t_taman d)
          /\ length (bundle_get b "petugas") = length (t_petugas d)
          /\ length (bundle_get b "kegiatan") = length (t_kegiatan d)
          /\ length (bundle_get b "tanaman") = length (t_tanaman d))
  /\ (forall (a : args) (d : db),
        exists data,
          list_taman a d = Ok (Response 200 (RowsBody data))
          /\ length data = length (t_taman d))
  /\ (forall (a : args) (d : db),
        exists data,
          list_petugas a d = Ok (Response 200 (RowsBody data))
          /\ length data = length (t_petugas d))
  /\ (forall (a : args) (d : db),
        exists data,
          list_kegiatan a d = Ok (Response 200 (RowsBody data))
          /\ length data = length (t_kegiatan d))
  /\ (forall (a : args) (d : db) (k : Z),
        args_int a "id_taman" = Some k -> k <> 0%Z ->
        exists data,
          list_tanaman a d = Ok (Response 200 (RowsBody data))
          /\ length data
             = length (filter (fun t => tn_id_taman t = k) (t_tanaman d))).
Proof.
  repeat apply conj.
  - intros a d Ha. apply list_laporan_capped; [now rewrite Ha | lia].
  - intros a d n Ha Hn. apply list_laporan_capped; [now rewrite Ha | exact Hn].
  - intros a d Ha. apply report_all_capped; [now rewrite Ha | lia].
  - intros a d. eexists. split; [reflexivity|].
    now rewrite length_map, length_order_by.
  - intros a d. eexists. split; [reflexivity|].
    now rewrite length_map, length_order_by.
  - intros a d. eexists. split; [reflexivity|].
    now rewrite length_map, length_order_by.
  - intros a d k Ha Hk. unfold list_tanaman. rewrite Ha.
    destruct (Z.eqb_spec k 0) as [?|_]; [contradiction|].
    eexists. split; [reflexivity|].
    now rewrite length_map, length_order_by.
Qed.

(** The claim C8 as the specification states it fails for the park list
    (and the staff and activity-type lists alike): a limit of 1 in the query
    string is not read, and both parks of the sample store come back. *)
Lemma list_taman_ignores_limit :
  list_taman [("limit", "1")] sample_db
  = Ok (Response 200
          (RowsBody [taman_dict (TamanRec 1 "Taman A" None None);
                     taman_dict (TamanRec 2 "Taman B" (Some 900) None)]))
  /\ list_tanaman [("id_taman", "1"); ("limit", "0")] sample_db
     = Ok (Response 200 (RowsBody [tanaman_dict (TanamanRec 10 1 (Some "Mawar") None None)]))
  /\ list_laporan [("limit", "0")] sample_db = Ok (Response 200 (RowsBody [])).
Proof. repeat split; vm_compute; reflexivity. Qed.

(** ** The renderer on rows of the store *)

(** Lookup 1 is defined on park rows as the store returns them. *)
Lemma map_taman_name_by_id_total (l : list taman_rec) (m : gmap Z value) :
  exists m', map_taman_name_by_id_from m (map taman_dict l) = Ok m'.
Proof.
  revert m. induction l as [|r l IH]; intros m; [now exists m|].
  cbn [map map_taman_name_by_id_from].
  replace (get (taman_dict r) "id_taman") with (VInt (tm_id r)) by reflexivity.
  replace (getitem (taman_dict r) "id_taman") with (Ok (VInt (tm_id r)))
    by reflexivity.
  replace (getitem (taman_dict r) "nama_taman") with (Ok (VStr (tm_nama r)))
    by reflexivity.
  cbn. apply IH.
Qed.

(** Section IV is defined on plant rows as the store returns them. *)
Lemma rows4_total (by_id : gmap Z value) (l : list tanaman_rec) :
  exists rs, rows4 by_id (map tanaman_dict l) = Ok rs.
Proof.
  unfold rows4.
  destruct (mapM_total
              (fun ix : nat * row =>
                 let (i, x) := ix in
                 k <- py_int (py_or (get x "id_taman") (VInt 0));;
                 Ok [number i;
                     default (VStr "-") (by_id !! k);
                     get_or x "nama_umum" (VStr "");
                     get_or x "nama_ilmiah" (VStr "-");
                     get_or x "jenis" (VStr "-")])
              (imap pair (map tanaman_dict l))) as (rs & Hrs & _).
  - apply Forall_forall. intros [i x] Hin.
    apply list_elem_of_lookup in Hin as [j Hj].
    rewrite list_lookup_imap, list_lookup_fmap in Hj.
    destruct (l !! j) as [r|]; [|discriminate].
    change (Some (j, tanaman_dict r) = Some (i, x)) in Hj.
    injection Hj as <- <-.
    replace (get (tanaman_dict r) "id_taman") with (VInt (tn_id_taman r))
      by reflexivity.
    unfold py_or. destruct (truthy (VInt (tn_id_taman r))); cbn [py_int rbind]; eauto.
  - now exists rs.
Qed.

(** The assembler is defined on a bundle whose park and plant rows are
    rows of the store. *)
Lemma build_report_html_total (tgl_str : string) (b : bundle)
    (parks : list taman_rec) (plants : list tanaman_rec) :
  bundle_get b "taman" = map taman_dict parks ->
  bundle_get b "tanaman" = map tanaman_dict plants ->
  exists html, _build_report_html tgl_str b = Ok html.
Proof.
  intros Hparks Hplants. unfold _build_report_html. cbv zeta.
  rewrite Hparks, Hplants. unfold map_taman_name_by_id.
  destruct (map_taman_name_by_id_total parks ∅) as [by_id ->].
  cbn [rbind]. unfold sec4.
  destruct (rows4_total by_id plants) as [rs ->].
  cbn [rbind]. eauto.
Qed.

Lemma fetch_bundle_rows (n : Z) (d : db) :
  (0 <= n)%Z ->
  exists b : bundle,
    fetch_bundle n d = Ok b
    /\ bundle_get b "taman"
       = map taman_dict
           (order_by (fun x y => collate_leb (tm_nama x) (tm_nama y)) (t_taman d))
    /\ bundle_get b "tanaman"
       = map tanaman_dict
           (order_by (fun x y => lex_leb [tn_id_taman x; tn_id x] [tn_id_taman y; tn_id y])
              (t_tanaman d)).
Proof.
  intros Hn. unfold fetch_bundle.
  destruct (select_laporan_capped n d Hn) as (data & -> & _ & _).
  cbn [rows run_query rbind]. eexists. split; [reflexivity|].
  unfold bundle_get. split; cbn [list_to_map foldr]; now simplify_map_eq.
Qed.

(** X1.  The printable report is rendered for every store: on rows fetched from
    the store no conversion of [_build_report_html] raises. *)
Theorem report_html_total (tgl_str : string) (a : args) (d : db) (n : Z) :
  default 100000 (args_int a "limit") = n -> (0 <= n)%Z ->
  exists html, report_html tgl_str a d = Ok (Response 200 (HtmlBody html)).
Proof.
  intros Hlim Hn. unfold report_html. rewrite Hlim.
  destruct (fetch_bundle_rows n d Hn) as (b & -> & Hparks & Hplants).
  cbn [rbind].
  destruct (build_report_html_total tgl_str b _ _ Hparks Hplants) as [html ->].
  cbn [rbind]. eauto.
Qed.

Lemma report_html_total_witness :
  exists html, report_html "01 June 2025" [] sample_db = Ok (Response 200 (HtmlBody html)).
Proof.
  apply (report_html_total "01 June 2025" [] sample_db 100000);
    [reflexivity | discriminate].
Defined.

(** X2.  A report on a plant whose park is not among the parks renders the
    placeholder: for a report referencing by identifier the only plant row
    with that identifier, when the plant's park identifier is an integer that
    lookup 1 does not hold. *)
Theorem report_missing_park_placeholder
    (by_id : gmap Z value) (by_name : gmap string row)
    (l1 l2 : list row) (P L : row) (v : value) (k kt : Z) :
  py_int (get L "id_tanaman") = Ok k ->
  py_int (get P "id_tanaman") = Ok k ->
  (forall Q : row, Q ∈ (l1 ++ l2)%list -> py_int (get Q "id_tanaman") <> Ok k) ->
  P !! "id_taman" = Some v -> py_int v = Ok kt -> by_id !! kt = None ->
  nama_taman_of by_id (map_taman_name_by_tanaman_id by_id (l1 ++ P :: l2)) by_name L
  = VStr "-".
Proof.
  intros HL HP Huniq Hv Hkt Hmiss.
  rewrite nama_taman_of_spec, (spec_by_identifier _ _ _ _ _ HL).
  rewrite (map_taman_name_by_tanaman_id_unique _ _ _ _ _ HP Huniq).
  unfold park_of_plant. now rewrite Hv, Hkt, Hmiss.
Qed.

Lemma report_missing_park_witness :
  nama_taman_of {[ 1 := VStr "Taman A" ]}
    (map_taman_name_by_tanaman_id {[ 1 := VStr "Taman A" ]} ([mawar_10] ++ mawar_11 :: []))
    ∅ (mk_row [("id_tanaman", VInt 11)])
  = VStr "-".
Proof.
  apply (report_missing_park_placeholder {[ 1 := VStr "Taman A" ]} ∅ [mawar_10] []
           mawar_11 (mk_row [("id_tanaman", VInt 11)]) (VInt 2) 11 2).
  - reflexivity.
  - reflexivity.
  - intros Q HQ. apply list_elem_of_singleton in HQ. subst Q. vm_compute. discriminate.
  - reflexivity.
  - reflexivity.
  - reflexivity.
Defined.

(** * Further properties of the code *)

(** ** ORDER BY *)

Lemma insert_sorted_perm {A : Type} (le : A -> A -> bool) (x : A) (l : list A) :
  insert_sorted le x l ≡ₚ x :: l.
Proof.
  induction l as [|y l IH]; [reflexivity|].
  cbn. destruct (le x y); [reflexivity|].
  rewrite IH. apply Permutation_swap.
Qed.

(** ORDER BY neither loses nor repeats a row. *)
Lemma order_by_perm {A : Type} (le : A -> A -> bool) (l : list A) :
  order_by le l ≡ₚ l.
Proof.
  unfold order_by. induction l as [|x l IH]; [reflexivity|].
  cbn [foldr]. now rewrite insert_sorted_perm, IH.
Qed.

Lemma order_by_elem {A : Type} (le : A -> A -> bool) (l : list A) (x : A) :
  x ∈ order_by le l <-> x ∈ l.
Proof. now rewrite order_by_perm. Qed.

Section Sorting.

Context {A : Type} (le : A -> A -> bool).
Hypothesis le_total : forall x y, le x y = true \/ le y x = true.
Hypothesis le_trans : forall x y z, le x y = true -> le y z = true -> le x z = true.

Lemma insert_sorted_sorted (x : A) (l : list A) :
  StronglySorted (fun a b => le a b = true) l ->
  StronglySorted (fun a b => le a b = true) (insert_sorted le x l).
Proof.
  induction 1 as [|y l Hl IH Hy]; cbn; [repeat constructor|].
  destruct (le x y) eqn:E.
  - constructor; [now constructor|].
    constructor; [exact E|].
    eapply Forall_impl; [exact Hy|]. intros z Hz. now apply (le_trans x y z).
  - constructor; [exact IH|].
    rewrite (insert_sorted_perm le x l). constructor; [|exact Hy].
    destruct (le_total x y) as [H|H]; [congruence | exact H].
Qed.

(** ORDER BY returns the rows in the order asked for. *)
Lemma order_by_sorted (l : list A) :
  StronglySorted (fun a b => le a b = true) (order_by le l).
Proof.
  unfold order_by. induction l as [|x l IH]; [constructor|].
  cbn [foldr]. now apply insert_sorted_sorted.
Qed.

End Sorting.

Lemma collate_leb_total (a b : string) : collate_leb a b = true \/ collate_leb b a = true.
Proof. apply String.leb_total. Qed.

Lemma collate_leb_trans (a b c : string) :
  collate_leb a b = true -> collate_leb b c = true -> collate_leb a c = true.
Proof.
  unfold collate_leb. intros H1 H2.
  apply Is_true_true. apply Is_true_true in H1, H2.
  exact (transitivity (R := String.le) H1 H2).
Qed.

(** ** The assembler's join on rows of the store *)

(** Lookup 1 on park rows of the store: every row binds its key to its name. *)
Lemma lookup1_store_rows (l : list taman_rec) (m0 : gmap Z value) :
  map_taman_name_by_id_from m0 (map taman_dict l)
  = Ok (foldl (fun m p => <[tm_id p := VStr (tm_nama p)]> m) m0 l).
Proof.
  revert m0. induction l as [|r l IH]; intros m0; [reflexivity|].
  cbn [map map_taman_name_by_id_from foldl].
  replace (get (taman_dict r) "id_taman") with (VInt (tm_id r)) by reflexivity.
  replace (getitem (taman_dict r) "id_taman") with (Ok (VInt (tm_id r)))
    by reflexivity.
  replace (getitem (taman_dict r) "nama_taman") with (Ok (VStr (tm_nama r)))
    by reflexivity.
  cbn. apply IH.
Qed.

Lemma park_fold_miss (l : list taman_rec) (m0 : gmap Z value) (k : Z) :
  (forall p, p ∈ l -> tm_id p <> k) ->
  foldl (fun m p => <[tm_id p := VStr (tm_nama p)]> m) m0 l !! k = m0 !! k.
Proof.
  revert m0. induction l as [|x l IH]; intros m0 H; [reflexivity|].
  cbn [foldl]. rewrite IH.
  - apply lookup_insert_ne, H. now left.
  - intros p Hp. apply H. now right.
Qed.

Lemma park_fold_hit (l : list taman_rec) (m0 : gmap Z value) (p : taman_rec) :
  NoDup (map tm_id l) -> p ∈ l ->
  foldl (fun m p => <[tm_id p := VStr (tm_nama p)]> m) m0 l !! tm_id p
  = Some (VStr (tm_nama p)).
Proof.
  revert m0. induction l as [|x l IH]; intros m0 Hnd Hp; [now apply elem_of_nil in Hp|].
  cbn [map] in Hnd. apply NoDup_cons in Hnd as [Hx Hnd].
  cbn [foldl]. apply elem_of_cons in Hp as [-> | Hp].
  - rewrite park_fold_miss; [apply lookup_insert_eq|].
    intros q Hq E. apply Hx. rewrite <- E. apply list_elem_of_fmap. eauto.
  - now apply IH.
Qed.

(** The plant rows of the store, as dicts: only the row of plant [t]
    carries the key of [t]. *)
Lemma plant_rows_unique (l1 l2 : list tanaman_rec) (t : tanaman_rec) :
  NoDup (map tn_id (l1 ++ t :: l2)) ->
  forall Q : row, Q ∈ (map tanaman_dict l1 ++ map tanaman_dict l2)%list ->
    py_int (get Q "id_tanaman") <> Ok (tn_id t).
Proof.
  intros Hnd Q HQ.
  rewrite map_app in Hnd. cbn [map] in Hnd.
  apply NoDup_app in Hnd as (_ & H12 & Hnd2).
  apply NoDup_cons in Hnd2 as [H2 _].
  apply elem_of_app in HQ as [HQ | HQ];
    apply list_elem_of_fmap in HQ as (q & -> & Hq);
    replace (get (tanaman_dict q) "id_tanaman") with (VInt (tn_id q)) by reflexivity;
    cbn; intros [= E].
  - apply (H12 (tn_id q)); [apply list_elem_of_fmap; eauto|]. rewrite E. now left.
  - apply H2. rewrite <- E. apply list_elem_of_fmap. eauto.
Qed.

(** Lookup 2 on plant rows of the store: the key of a plant is bound to
    lookup 1 at the plant's park. *)
Lemma lookup2_store_rows (by_id : gmap Z value) (l : list tanaman_rec) (t : tanaman_rec) :
  NoDup (map tn_id l) -> t ∈ l ->
  default (VStr "-") (map_taman_name_by_tanaman_id by_id (map tanaman_dict l) !! tn_id t)
  = default (VStr "-") (by_id !! tn_id_taman t).
Proof.
  intros Hnd Ht.
  apply list_elem_of_split in Ht as (l1 & l2 & ->).
  rewrite map_app. cbn [map].
  rewrite (map_taman_name_by_tanaman_id_unique by_id _ _ (tanaman_dict t) (tn_id t)).
  - reflexivity.
  - reflexivity.
  - now apply plant_rows_unique.
Qed.

(** The report rows of a fetched bundle: each is a row of the join, its
    timestamp rewritten, and it references a plant of the store. *)
Lemma fetch_bundle_laporan (n : Z) (d : db) :
  (0 <= n)%Z ->
  exists b : bundle,
    fetch_bundle n d = Ok b
    /\ bundle_get b "taman"
       = map taman_dict
           (order_by (fun x y => collate_leb (tm_nama x) (tm_nama y)) (t_taman d))
    /\ bundle_get b "tanaman"
       = map tanaman_dict
           (order_by (fun x y => lex_leb [tn_id_taman x; tn_id x] [tn_id_taman y; tn_id y])
              (t_tanaman d))
    /\ forall L : row, L ∈ bundle_get b "laporan" ->
         exists (l : laporan_rec) (t : tanaman_rec),
           l ∈ t_laporan d /\ t ∈ t_tanaman d /\ tn_id t = lp_id_tanaman l
           /\ get L "id_tanaman" = VInt (tn_id t)
           /\ get L "id_laporan" = VInt (lp_id l).
Proof.
  intros Hn. unfold fetch_bundle, rows, run_query, sql_limit.
  destruct (Z.ltb_spec n 0) as [?|_]; [lia|].
  cbn [rbind]. eexists. split; [reflexivity|].
  unfold bundle_get.
  split; [cbn [list_to_map foldr]; now simplify_map_eq|].
  split; [cbn [list_to_map foldr]; now simplify_map_eq|].
  cbn [list_to_map foldr]. simplify_map_eq. cbn [default from_option id].
  intros L HL.
  apply list_elem_of_fmap in HL as (r & -> & Hr).
  apply elem_of_take in Hr as (i & Hr & _).
  apply list_elem_of_lookup_2 in Hr.
  apply list_elem_of_omap in Hr as (l & Hl & Hjoin).
  apply order_by_elem in Hl.
  unfold laporan_join in Hjoin.
  destruct (find _ (t_tanaman d)) as [t|] eqn:Ft; [|discriminate].
  destruct (find _ (t_petugas d)) as [p|]; [|discriminate].
  destruct (find _ (t_kegiatan d)) as [k|]; [|discriminate].
  cbn in Hjoin. injection Hjoin as <-.
  apply find_some in Ft as [Ht Hid]. apply Z.eqb_eq in Hid.
  exists l, t. split; [exact Hl|]. split; [now apply list_elem_of_In|].
  split; [exact Hid|]. rewrite Hid.
  split; reflexivity.
Qed.

(** X3.  On a store whose park keys and plant keys are unique, the
    in-memory join of the assembler is the relational one: every report row
    of the fetched bundle references a plant of the store, and its resolved
    park name is the name of the park that plant belongs to, or the
    placeholder when the store has no such park. *)
Theorem report_rows_show_park_of_plant (d : db) (n : Z) :
  NoDup (map tm_id (t_taman d)) ->
  NoDup (map tn_id (t_tanaman d)) ->
  (0 <= n)%Z ->
  exists (b : bundle) (by_id : gmap Z value),
    fetch_bundle n d = Ok b
    /\ map_taman_name_by_id (bundle_get b "taman") = Ok by_id
    /\ forall L : row, L ∈ bundle_get b "laporan" ->
         exists t : tanaman_rec,
           t ∈ t_tanaman d
           /\ get L "id_tanaman" = VInt (tn_id t)
           /\ (forall p : taman_rec, p ∈ t_taman d -> tm_id p = tn_id_taman t ->
                 nama_taman_of by_id
                   (map_taman_name_by_tanaman_id by_id (bundle_get b "tanaman"))
                   (map_tanaman_by_name (bundle_get b "tanaman")) L
                 = VStr (tm_nama p))
           /\ ((forall p : taman_rec, p ∈ t_taman d -> tm_id p <> tn_id_taman t) ->
                 nama_taman_of by_id
                   (map_taman_name_by_tanaman_id by_id (bundle_get b "tanaman"))
                   (map_tanaman_by_name (bundle_get b "tanaman")) L
                 = VStr "-").
Proof.
  intros Hparks Hplants Hn.
  destruct (fetch_bundle_laporan n d Hn) as (b & Hb & Htm & Htn & Hlap).
  exists b. eexists. split; [exact Hb|].
  rewrite Htm, Htn. unfold map_taman_name_by_id. rewrite lookup1_store_rows.
  split; [reflexivity|].
  intros L HL. destruct (Hlap L HL) as (l & t & _ & Ht & _ & Hid & _).
  exists t. split; [exact Ht|]. split; [exact Hid|].
  assert (Hname :
    forall by_id,
      nama_taman_of by_id
        (map_taman_name_by_tanaman_id by_id
           (map tanaman_dict
              (order_by (fun x y => lex_leb [tn_id_taman x; tn_id x] [tn_id_taman y; tn_id y])
                 (t_tanaman d))))
        (map_tanaman_by_name
           (map tanaman_dict
              (order_by (fun x y => lex_leb [tn_id_taman x; tn_id x] [tn_id_taman y; tn_id y])
                 (t_tanaman d)))) L
      = default (VStr "-") (by_id !! tn_id_taman t)).
  { intros by_id. rewrite nama_taman_of_spec.
    rewrite (spec_by_identifier by_id _ _ L (tn_id t)) by (now rewrite Hid).
    apply lookup2_store_rows.
    - now rewrite order_by_perm.
    - now apply order_by_elem. }
  split.
  - intros p Hp Hpid. rewrite Hname, <- Hpid.
    rewrite park_fold_hit; [reflexivity | now rewrite order_by_perm | now apply order_by_elem].
  - intros Hnone. rewrite Hname.
    rewrite park_fold_miss; [reflexivity|].
    intros p Hp. apply Hnone. now apply order_by_elem in Hp.
Qed.

Lemma report_rows_show_park_witness :
  exists (b : bundle) (by_id : gmap Z value),
    fetch_bundle 100000 sample_db = Ok b
    /\ map_taman_name_by_id (bundle_get b "taman") = Ok by_id
    /\ forall L : row, L ∈ bundle_get b "laporan" ->
         exists t : tanaman_rec,
           t ∈ t_tanaman sample_db
           /\ get L "id_tanaman" = VInt (tn_id t)
           /\ (forall p : taman_rec, p ∈ t_taman sample_db -> tm_id p = tn_id_taman t ->
                 nama_taman_of by_id
                   (map_taman_name_by_tanaman_id by_id (bundle_get b "tanaman"))
                   (map_tanaman_by_name (bundle_get b "tanaman")) L
                 = VStr (tm_nama p))
           /\ ((forall p : taman_rec, p ∈ t_taman sample_db -> tm_id p <> tn_id_taman t) ->
                 nama_taman_of by_id
                   (map_taman_name_by_tanaman_id by_id (bundle_get b "tanaman"))
                   (map_tanaman_by_name (bundle_get b "tanaman")) L
                 = VStr "-").
Proof.
  apply (report_rows_show_park_of_plant sample_db 100000).
  - apply (bool_decide_unpack _). vm_compute. exact I.
  - apply (bool_decide_unpack _). vm_compute. exact I.
  - discriminate.
Defined.

(** ** Edge cases of the renderer *)

(** X4.  A bundle with no rows: the five keys are missing or hold empty lists.
    The document is rendered, each of its five tables with its header and an
    empty body. *)
Theorem empty_bundle_renders (tgl_str : string) (b : bundle) :
  bundle_get b "taman" = [] -> bundle_get b "petugas" = [] ->
  bundle_get b "kegiatan" = [] -> bundle_get b "tanaman" = [] ->
  bundle_get b "laporan" = [] ->
  _build_report_html tgl_str b
  = Ok (page tgl_str
          ("<table><thead><tr><th>No.</th><th>Nama</th><th>Luas (mÂ²)</th><th>Lokasi</th>"
           +:+ "</tr></thead><tbody></tbody></table>")
          ("<table><thead><tr><th>No.</th><th>Nama Petugas</th><th>Jabatan</th>"
           +:+ "</tr></thead><tbody></tbody></table>")
          ("<table><thead><tr><th>No.</th><th>Jenis Kegiatan</th>"
           +:+ "</tr></thead><tbody></tbody></table>")
          ("<table><thead><tr><th>No.</th><th>Nama Taman</th><th>Nama Tanaman</th>"
           +:+ "<th>Nama Ilmiah</th><th>Jenis</th></tr></thead><tbody></tbody></table>")
          ("<table><thead><tr><th>No.</th><th>Tanggal</th><th>Nama Taman</th>"
           +:+ "<th>Nama Tanaman</th><th>Kegiatan</th><th>Isi Laporan</th>"
           +:+ "</tr></thead><tbody></tbody></table>")).
Proof.
  intros H1 H2 H3 H4 H5. unfold _build_report_html. cbv zeta.
  rewrite H1, H2, H3, H4, H5.
  change (map_taman_name_by_id []) with (Ok (∅ : gmap Z value)). cbn [rbind].
  change (sec4 ∅ []) with
    (Ok ("<table><thead><tr><th>No.</th><th>Nama Taman</th><th>Nama Tanaman</th>"
         +:+ "<th>Nama Ilmiah</th><th>Jenis</th></tr></thead><tbody></tbody></table>")).
  cbn [rbind]. reflexivity.
Qed.

Lemma empty_bundle_renders_witness :
  exists html, _build_report_html "01 June 2025" (mk_bundle [] [] []) = Ok html.
Proof.
  eexists.
  apply (empty_bundle_renders "01 June 2025" (mk_bundle [] [] [])); reflexivity.
Defined.

(** Reading back the entity of one character gives the character. *)
Lemma unescape_escape_char (c : ascii) (t : string) :
  unescape_go 0 (escape_char c +:+ t) = String c (unescape_go 0 t).
Proof. destruct c as [[] [] [] [] [] [] [] []]; reflexivity. Qed.

Lemma unescape_spec_escape (s : string) : unescape_go 0 (spec_escape s) = s.
Proof.
  induction s as [|c r IH]; [reflexivity|].
  cbn [spec_escape]. now rewrite unescape_escape_char, IH.
Qed.

(** X5.  Escaping loses nothing: the text of a cell can be read back from its
    escaped form, so two different texts never escape to the same markup. *)
Theorem escape_html_injective :
  (forall s : string, unescape_go 0 (_escape_html (VStr s)) = s)
  /\ (forall a b : string, _escape_html (VStr a) = _escape_html (VStr b) -> a = b)
  /\ _escape_html (VStr "&lt;") = "&amp;lt;".
Proof.
  assert (H : forall s, unescape_go 0 (_escape_html (VStr s)) = s).
  { intros s. rewrite escape_html_spec. apply unescape_spec_escape. }
  split; [exact H|]. split; [|reflexivity].
  intros a b E. rewrite <- (H a), <- (H b). now rewrite E.
Qed.

(** ** Creating rows: all or nothing *)

(** [execute] on an INSERT of a report: one row appended under the
    table's counter, or an exception and the store as it was. *)
Lemma execute_laporan_outcome (fault : nat -> bool) (now : datetime) (cmd : command)
    (d : db) (a b c : Z) (tanggal isi : json) :
  cmd = InsertLaporanNow a b c isi \/ cmd = InsertLaporan a b c tanggal isi ->
  (exists when txt,
      execute fault now cmd d
      = (Ok (ai_laporan d), inserted d (LaporanRec (ai_laporan d) a b c when txt))
      /\ references_exist d a b c = true)
  \/ (exists e, execute fault now cmd d = (Raise e, d)).
Proof.
  intros Hcmd.
  unfold execute, io_bind, cur_execute, conn_commit, get_conn. cbn.
  destruct (fault 0%nat); [right; eexists; reflexivity|].
  unfold references_exist.
  destruct Hcmd as [-> | ->]; cbn.
  - destruct (sql_text isi) as [txt|e]; cbn; [|right; eexists; reflexivity].
    unfold insert_laporan. cbn.
    destruct (_ && _) eqn:Hfk; cbn; [|right; eexists; reflexivity].
    destruct (fault 1%nat); [right; eexists; reflexivity|].
    left. do 2 eexists. split; reflexivity.
  - destruct (sql_datetime tanggal) as [ts|e]; cbn; [|right; eexists; reflexivity].
    destruct (sql_text isi) as [txt|e]; cbn; [|right; eexists; reflexivity].
    unfold insert_laporan. cbn.
    destruct (_ && _) eqn:Hfk; cbn; [|right; eexists; reflexivity].
    destruct (fault 1%nat); [right; eexists; reflexivity|].
    left. do 2 eexists. split; reflexivity.
Qed.

Lemma same_rows_refl (d : db) : same_rows d d.
Proof. repeat split. Qed.

(** X6.  Creating a report either appends exactly one report, under the
    table's counter and referencing rows that exist, and answers 201 with
    that key, or leaves the rows of all five tables as they were and answers
    something else.  Existing rows are never touched, whatever the request
    and whatever the driver does. *)
Theorem create_laporan_all_or_nothing (fault : nat -> bool) (now : datetime)
    (req : option json) (d : db) :
  (exists row : laporan_rec,
      create_laporan fault now req d = (Ok (created (ai_laporan d)), inserted d row)
      /\ lp_id row = ai_laporan d
      /\ references_exist d (lp_id_tanaman row) (lp_id_petugas row) (lp_id_kegiatan row)
         = true)
  \/ (same_rows d (create_laporan fault now req d).2
      /\ forall id : Z, (create_laporan fault now req d).1 <> Ok (created id)).
Proof.
  unfold create_laporan.
  destruct req as [payload|]; [|right; split; [apply same_rows_refl | discriminate]].
  destruct (x <- json_getitem payload "id_tanaman";; _) as [[[a b] c]|e];
    [|right; split; [apply same_rows_refl | discriminate]].
  destruct (tanggal <- json_get payload "tanggal" JNull;; _) as [[tanggal isi]|e];
    [|right; split; [apply same_rows_refl | discriminate]].
  destruct (execute_laporan_outcome fault now
              (if negb (json_truthy tanggal) then InsertLaporanNow a b c isi
               else InsertLaporan a b c tanggal isi) d a b c tanggal isi)
    as [(when & txt & -> & Hfk) | (e & ->)].
  - destruct (json_truthy tanggal); cbn; auto.
  - left. eexists. split; [reflexivity|]. split; [reflexivity | exact Hfk].
  - right. destruct e; cbn; split; (apply same_rows_refl || discriminate).
Qed.

(** ** A created report in the list *)

Lemma create_laporan_inserts (fault : nat -> bool) (now : datetime)
    (members : list (string * json)) (d : db) (x y z : json) (a b c : Z)
    (txt : option string) (when : datetime) :
  member "id_tanaman" members = Some x -> json_int x = Ok a ->
  member "id_petugas" members = Some y -> json_int y = Ok b ->
  member "id_kegiatan" members = Some z -> json_int z = Ok c ->
  references_exist d a b c = true ->
  sql_text (default (JStr "") (member "isi_laporan" members)) = Ok txt ->
  fault 0%nat = false -> fault 1%nat = false ->
  (json_truthy (default JNull (member "tanggal" members)) = false /\ when = now
   \/ exists ts, member "tanggal" members = Some (JStr ts)
                 /\ datetime_of_string ts = Some when) ->
  create_laporan fault now (Some (JObj members)) d
  = (Ok (created (ai_laporan d)),
     inserted d (LaporanRec (ai_laporan d) a b c when txt)).
Proof.
  intros Hx Ha Hy Hb Hz Hc Hfk Htxt F0 F1 Hstamp.
  unfold create_laporan, json_getitem. rewrite Hx, Hy, Hz. cbn.
  rewrite Ha. cbn. rewrite Hb. cbn. rewrite Hc. cbn.
  destruct Hstamp as [[Hfalsy ->] | (ts & Hts & Ht)].
  - rewrite Hfalsy. cbn [negb].
    rewrite (execute_insert fault now _ d a b c now _ txt F0 F1 Hfk Htxt); [reflexivity|].
    left. split; reflexivity.
  - rewrite Hts. simpl (default _ (Some _)).
    assert (Htruthy : json_truthy (JStr ts) = true)
      by (destruct ts; [discriminate Ht | reflexivity]).
    rewrite Htruthy. cbn [negb].
    rewrite (execute_insert fault now _ d a b c when _ txt F0 F1 Hfk Htxt); [reflexivity|].
    right. exists (JStr ts). split; [reflexivity|]. cbn. now rewrite Ht.
Qed.

Lemma existsb_find {A : Type} (f : A -> bool) (l : list A) :
  existsb f l = true -> exists x, find f l = Some x.
Proof.
  induction l as [|a l IH]; cbn; [discriminate|].
  destruct (f a); [eauto | exact IH].
Qed.

Lemma mapM_elem {A B : Type} (f : A -> result B) (l : list A) (out : list B) (x : A) :
  mapM f l = Ok out -> x ∈ l -> exists y, f x = Ok y /\ y ∈ out.
Proof.
  revert out. induction l as [|a l IH]; intros out H Hx; [now apply elem_of_nil in Hx|].
  cbn in H. destruct (f a) as [b|e] eqn:Fa; [|discriminate]. cbn in H.
  destruct (mapM f l) as [bs|e]; [|discriminate]. cbn in H. injection H as <-.
  apply elem_of_cons in Hx as [-> | Hx].
  - exists b. split; [exact Fa | now left].
  - destruct (IH bs eq_refl Hx) as (y & Hy & Hin). exists y. split; [exact Hy | now right].
Qed.

Lemma length_omap_le {A B : Type} (f : A -> option B) (l : list A) :
  (length (omap f l) <= length l)%nat.
Proof.
  induction l as [|a l IH]; cbn; [lia|]. destruct (f a); cbn; lia.
Qed.

(** A report of the store whose three references exist is in the list,
    with its timestamp as text, when the limit covers the table. *)
Lemma list_laporan_includes (a : args) (d : db) (l : laporan_rec) (n : Z) :
  default 20 (args_int a "limit") = n ->
  (Z.of_nat (length (t_laporan d)) <= n)%Z ->
  l ∈ t_laporan d ->
  references_exist d (lp_id_tanaman l) (lp_id_petugas l) (lp_id_kegiatan l) = true ->
  exists data R,
    list_laporan a d = Ok (Response 200 (RowsBody data))
    /\ R ∈ data
    /\ get R "id_laporan" = VInt (lp_id l)
    /\ get R "id_tanaman" = VInt (lp_id_tanaman l)
    /\ get R "tanggal" = VStr (isoformat_seconds (lp_tanggal l))
    /\ get R "isi_laporan" = opt_str (lp_isi l).
Proof.
  intros Hlim Hn Hl Hfk.
  destruct (list_laporan_capped a d n Hlim ltac:(lia)) as (data & Hdata & _).
  exists data. revert Hdata. unfold list_laporan. rewrite Hlim.
  unfold rows, run_query, sql_limit.
  destruct (Z.ltb_spec n 0) as [?|_]; [lia|]. cbn [rbind].
  rewrite take_ge.
  2:{ etransitivity; [apply length_omap_le|]. rewrite length_order_by. lia. }
  destruct (mapM _ _) as [out|e] eqn:Hout; [|discriminate]. cbn [rbind].
  intros [= <-].
  unfold references_exist in Hfk.
  apply andb_true_iff in Hfk as [Hfk Hk]. apply andb_true_iff in Hfk as [Ht Hp].
  apply existsb_find in Ht as [t Ht]. apply existsb_find in Hp as [p Hp].
  apply existsb_find in Hk as [k Hk].
  assert (Hjoin : exists r, laporan_join d l = Some r
                            /\ r ∈ omap (laporan_join d)
                                   (order_by (fun x y => datetime_leb (lp_tanggal y) (lp_tanggal x))
                                      (t_laporan d))).
  { eexists. split.
    - unfold laporan_join. rewrite Ht, Hp, Hk. reflexivity.
    - apply list_elem_of_omap. exists l. split; [now apply order_by_elem|].
      unfold laporan_join. rewrite Ht, Hp, Hk. reflexivity. }
  destruct Hjoin as (r & Hr & Hin).
  destruct (mapM_elem _ _ _ r Hout Hin) as (R & HR & HRin).
  exists R. split; [reflexivity|]. split; [exact HRin|].
  unfold laporan_join in Hr. rewrite Ht, Hp, Hk in Hr. cbn in Hr.
  injection Hr as <-. cbn in HR. injection HR as <-.
  repeat split.
Qed.

(** X7.  A report that was created is in the report list afterwards (when the
    limit covers the table), under the key the creation answered and with
    the request's content; its timestamp shows as exactly the text that was
    supplied, or as the store's clock when none was. *)
Theorem created_report_is_listed (fault : nat -> bool) (now : datetime)
    (members : list (string * json)) (d : db) (x y z : json) (a b c : Z)
    (txt : option string) (q : args) (n : Z) :
  member "id_tanaman" members = Some x -> json_int x = Ok a ->
  member "id_petugas" members = Some y -> json_int y = Ok b ->
  member "id_kegiatan" members = Some z -> json_int z = Ok c ->
  references_exist d a b c = true ->
  sql_text (default (JStr "") (member "isi_laporan" members)) = Ok txt ->
  fault 0%nat = false -> fault 1%nat = false ->
  default 20 (args_int q "limit") = n ->
  (Z.of_nat (length (t_laporan d)) < n)%Z ->
  forall shown : string,
    (json_truthy (default JNull (member "tanggal" members)) = false
     /\ shown = isoformat_seconds now
     \/ member "tanggal" members = Some (JStr shown)
        /\ exists t, datetime_of_string shown = Some t) ->
    (create_laporan fault now (Some (JObj members)) d).1 = Ok (created (ai_laporan d))
    /\ exists data R,
         list_laporan q (create_laporan fault now (Some (JObj members)) d).2
         = Ok (Response 200 (RowsBody data))
         /\ R ∈ data
         /\ get R "id_laporan" = VInt (ai_laporan d)
         /\ get R "id_tanaman" = VInt a
         /\ get R "tanggal" = VStr shown
         /\ get R "isi_laporan" = opt_str txt.
Proof.
  intros Hx Ha Hy Hb Hz Hc Hfk Htxt F0 F1 Hlim Hn shown Hshown.
  assert (Hwhen : exists when,
             isoformat_seconds when = shown
             /\ create_laporan fault now (Some (JObj members)) d
                = (Ok (created (ai_laporan d)),
                   inserted d (LaporanRec (ai_laporan d) a b c when txt))).
  { destruct Hshown as [[Hfalsy ->] | (Hts & t & Ht)].
    - exists now. split; [reflexivity|].
      apply (create_laporan_inserts fault now members d x y z); auto.
    - exists t. split; [now apply datetime_of_string_isoformat|].
      apply (create_laporan_inserts fault now members d x y z); eauto. }
  destruct Hwhen as (when & Hiso & ->). cbn [fst snd]. split; [reflexivity|].
  destruct (list_laporan_includes q
              (inserted d (LaporanRec (ai_laporan d) a b c when txt))
              (LaporanRec (ai_laporan d) a b c when txt) n Hlim)
    as (data & R & Hlist & HR & Hid & Hplant & Hts & Hisi).
  - cbn. rewrite length_app. cbn. lia.
  - cbn. apply elem_of_app. right. now left.
  - exact Hfk.
  - exists data, R. cbn in Hid, Hplant, Hts, Hisi. rewrite Hiso in Hts. auto 10.
Qed.

Lemma created_report_is_listed_witness :
  (create_laporan no_fault sample_now (Some request_at) sample_db).1
  = Ok (created (ai_laporan sample_db))
  /\ exists data R,
       list_laporan [] (create_laporan no_fault sample_now (Some request_at) sample_db).2
       = Ok (Response 200 (RowsBody data))
       /\ R ∈ data
       /\ get R "id_laporan" = VInt (ai_laporan sample_db)
       /\ get R "id_tanaman" = VInt 10
       /\ get R "tanggal" = VStr "2024-02-29 23:59:59"
       /\ get R "isi_laporan" = opt_str (Some "disiram").
Proof.
  apply (created_report_is_listed no_fault sample_now
           [("id_tanaman", JInt 10); ("id_petugas", JStr "1"); ("id_kegiatan", JInt 1);
            ("tanggal", JStr "2024-02-29 23:59:59"); ("isi_laporan", JStr "disiram")]
           sample_db (JInt 10) (JStr "1") (JInt 1) 10 1 1 (Some "disiram") [] 20);
    try reflexivity.
  right. split; [reflexivity|]. eexists. vm_compute. reflexivity.
Defined.

(** ** The list endpoints *)

Lemma lex_leb2_spec (a1 a2 b1 b2 : Z) :
  lex_leb [a1; a2] [b1; b2] = true
  <-> (a1 < b1)%Z \/ a1 = b1 /\ (a2 <= b2)%Z.
Proof.
  cbn. destruct (Z.ltb_spec a1 b1), (Z.ltb_spec b1 a1),
         (Z.ltb_spec a2 b2), (Z.ltb_spec b2 a2);
    split; intros; try reflexivity; try discriminate; lia.
Qed.

Lemma StronglySorted_weaken {A : Type} (R S : A -> A -> Prop) (l : list A) :
  (forall x y, R x y -> S x y) -> StronglySorted R l -> StronglySorted S l.
Proof.
  intros HRS. induction 1 as [|x l Hl IH Hx]; constructor; [exact IH|].
  eapply Forall_impl; [exact Hx|]. intros y. apply HRS.
Qed.

(** X8.  The lists of parks, staff, activity types and of all plants take no
    argument into account and always answer 200 with every row of their
    table exactly once: parks, staff and activity types in the order of their
    names (case ignored), the plants by park and then by key. *)
Theorem list_endpoints_complete_and_ordered (a : args) (d : db) :
  (exists parks,
      list_taman a d = Ok (Response 200 (RowsBody (map taman_dict parks)))
      /\ parks ≡ₚ t_taman d
      /\ StronglySorted (fun p q => String.leb (lower (tm_nama p)) (lower (tm_nama q)) = true)
           parks)
  /\ (exists staff,
        list_petugas a d = Ok (Response 200 (RowsBody (map petugas_dict staff)))
        /\ staff ≡ₚ t_petugas d
        /\ StronglySorted
             (fun p q => String.leb (lower (pt_nama p)) (lower (pt_nama q)) = true) staff)
  /\ (exists kinds,
        list_kegiatan a d = Ok (Response 200 (RowsBody (map kegiatan_dict kinds)))
        /\ kinds ≡ₚ t_kegiatan d
        /\ StronglySorted
             (fun p q => String.leb (lower (kg_jenis p)) (lower (kg_jenis q)) = true) kinds)
  /\ (exists plants,
        list_tanaman_all a d = Ok (Response 200 (RowsBody (map tanaman_dict plants)))
        /\ plants ≡ₚ t_tanaman d
        /\ StronglySorted
             (fun p q => (tn_id_taman p < tn_id_taman q)%Z
                         \/ tn_id_taman p = tn_id_taman q /\ (tn_id p <= tn_id q)%Z) plants).
Proof.
  repeat split.
  - eexists. split; [reflexivity|]. split; [apply order_by_perm|].
    apply (order_by_sorted (fun x y => collate_leb (tm_nama x) (tm_nama y))).
    + intros x y. apply collate_leb_total.
    + intros x y z. apply collate_leb_trans.
  - eexists. split; [reflexivity|]. split; [apply order_by_perm|].
    apply (order_by_sorted (fun x y => collate_leb (pt_nama x) (pt_nama y))).
    + intros x y. apply collate_leb_total.
    + intros x y z. apply collate_leb_trans.
  - eexists. split; [reflexivity|]. split; [apply order_by_perm|].
    apply (order_by_sorted (fun x y => collate_leb (kg_jenis x) (kg_jenis y))).
    + intros x y. apply collate_leb_total.
    + intros x y z. apply collate_leb_trans.
  - eexists. split; [reflexivity|]. split; [apply order_by_perm|].
    apply (StronglySorted_weaken
             (fun x y => lex_leb [tn_id_taman x; tn_id x] [tn_id_taman y; tn_id y] = true)).
    + intros x y. apply lex_leb2_spec.
    + apply (order_by_sorted
               (fun x y => lex_leb [tn_id_taman x; tn_id x] [tn_id_taman y; tn_id y])).
      * intros x y. rewrite !lex_leb2_spec. lia.
      * intros x y z. rewrite !lex_leb2_spec. lia.
Qed.

(** X9.  The plants of one park: for a park key that is an integer other than
    zero the answer is 200 with exactly the plants of that park, each once,
    the newest key first. *)
Theorem list_tanaman_of_park (a : args) (d : db) (k : Z) :
  args_int a "id_taman" = Some k -> k <> 0%Z ->
  exists plants,
    list_tanaman a d = Ok (Response 200 (RowsBody (map tanaman_dict plants)))
    /\ plants ≡ₚ filter (fun t => tn_id_taman t = k) (t_tanaman d)
    /\ (forall t, t ∈ plants <-> t ∈ t_tanaman d /\ tn_id_taman t = k)
    /\ StronglySorted (fun p q => (tn_id q <= tn_id p)%Z) plants.
Proof.
  intros Ha Hk. unfold list_tanaman. rewrite Ha.
  destruct (Z.eqb_spec k 0) as [?|_]; [contradiction|].
  eexists. split; [reflexivity|].
  split; [apply order_by_perm|]. split.
  - intros t. rewrite order_by_elem, list_elem_of_filter. tauto.
  - apply (StronglySorted_weaken (fun p q => Z.leb (tn_id q) (tn_id p) = true)).
    + intros x y. apply Z.leb_le.
    + apply (order_by_sorted (fun p q => Z.leb (tn_id q) (tn_id p))).
      * intros x y. rewrite !Z.leb_le. lia.
      * intros x y z. rewrite !Z.leb_le. lia.
Qed.

Lemma list_tanaman_of_park_witness :
  exists plants,
    list_tanaman [("id_taman", " 1 ")] sample_db
    = Ok (Response 200 (RowsBody (map tanaman_dict plants)))
    /\ plants ≡ₚ filter (fun t => tn_id_taman t = 1%Z) (t_tanaman sample_db)
    /\ (forall t, t ∈ plants <-> t ∈ t_tanaman sample_db /\ tn_id_taman t = 1%Z)
    /\ StronglySorted (fun p q => (tn_id q <= tn_id p)%Z) plants.
Proof.
  apply (list_tanaman_of_park [("id_taman", " 1 ")] sample_db 1); [reflexivity | lia].
Defined.

(** X10.  The list of plants is refused with 400 exactly when the park key is
    missing from the query string, is not the text of an integer, or is zero
    (the first value counts when the key is repeated); the store is not read. *)
Theorem list_tanaman_requires_park (a : args) (d : db) :
  list_tanaman a d = Ok (Response 400 (error_body "id_taman query param is required"))
  <-> first_arg "id_taman" a = None
      \/ exists s, first_arg "id_taman" a = Some s
                   /\ (int_of_string s = None \/ int_of_string s = Some 0%Z).
Proof.
  unfold list_tanaman, args_int, args_get_int.
  destruct (first_arg "id_taman" a) as [s|]; [|split; auto].
  destruct (int_of_string s) as [k|] eqn:Hs.
  - destruct (Z.eqb_spec k 0) as [->|Hk].
    + split; [|reflexivity]. intros _. right. exists s. auto.
    + split; [discriminate|].
      intros [H | (s' & [= <-] & [H | H])]; try discriminate; congruence.
  - split; [|reflexivity]. intros _. right. exists s. auto.
Qed.

(** ** The bulk wipe under any driver *)

Lemma no_rows_wiped (reset_ai : bool) (d : db) : no_rows (wiped reset_ai d).
Proof. destruct reset_ai; repeat split. Qed.

(** What the block leaves committed, whatever the driver does: the store
    as it was, or five empty tables; five empty tables when it returns; the
    store as it was when it raises and no counter was to be reset. *)
Lemma clear_all_block_store (fault : nat -> bool) (now : datetime) (reset_ai : bool)
    (d : db) :
  (committed (clear_all_block fault now reset_ai (get_conn d)).2 = d
   \/ no_rows (committed (clear_all_block fault now reset_ai (get_conn d)).2))
  /\ (forall u, (clear_all_block fault now reset_ai (get_conn d)).1 = Ok u ->
                no_rows (committed (clear_all_block fault now reset_ai (get_conn d)).2))
  /\ (reset_ai = false ->
      forall e, (clear_all_block fault now reset_ai (get_conn d)).1 = Raise e ->
                committed (clear_all_block fault now reset_ai (get_conn d)).2 = d).
Proof.
  unfold clear_all_block, io_bind, try_alter, cur_execute, conn_commit, get_conn.
  cbn.
  repeat (next_fault fault;
          [split; [now left|]; split; [discriminate | reflexivity]|]).
  destruct reset_ai; cbn; repeat next_fault fault;
    (split; [first [now left | right; repeat split]|]);
    (split; [first [discriminate | intros; repeat split]
            | first [discriminate | reflexivity | intros; discriminate]]).
Qed.

(** X11.  The bulk wipe is never partial: whatever the request and whatever the
    driver does, the store afterwards is the store as it was or holds no row
    at all; it holds no row whenever the answer is 200; and when the request
    asks for no counter reset, any other answer leaves the store exactly as
    it was. *)
Theorem admin_clear_all_never_partial (fault : nat -> bool) (now : datetime)
    (req : option json) (d : db) :
  ((admin_clear_all fault now req d).2 = d \/ no_rows (admin_clear_all fault now req d).2)
  /\ (forall b, (admin_clear_all fault now req d).1 = Ok (Response 200 b) ->
                no_rows (admin_clear_all fault now req d).2)
  /\ (forall members,
        req = Some (JObj members) ->
        json_truthy (default (JBool true) (member "reset_auto_increment" members)) = false ->
        (forall b, (admin_clear_all fault now req d).1 <> Ok (Response 200 b)) ->
        (admin_clear_all fault now req d).2 = d).
Proof.
  unfold admin_clear_all.
  set (payload := match req with
                  | Some j => if json_truthy j then j else JObj []
                  | None => JObj []
                  end).
  assert (Hreq : forall members, req = Some (JObj members) ->
                 json_get payload "reset_auto_increment" (JBool true)
                 = Ok (default (JBool true) (member "reset_auto_increment" members))).
  { intros members ->. subst payload. now destruct members. }
  destruct (json_get payload "confirm" JNull) as [confirm|e];
    [|cbn; split; [now left|]; split; [discriminate | reflexivity]].
  destruct (negb (json_truthy confirm));
    [cbn; split; [now left|]; split; [discriminate | reflexivity]|].
  destruct (json_get payload "reset_auto_increment" (JBool true)) as [r|e] eqn:Hr;
    [|cbn; split; [now left|]; split; [discriminate | reflexivity]].
  destruct (clear_all_block_store fault now (json_truthy r) d) as (Hany & Hok & Hkeep).
  destruct (clear_all_block fault now (json_truthy r) (get_conn d)) as [[u|e] c] eqn:Hblock;
    cbn [fst snd] in *.
  - split; [right; now apply (Hok u)|]. split; [intros _ _; now apply (Hok u)|].
    intros members Hm _ Hno. now destruct (Hno (cleared_body (json_truthy r))).
  - assert (Hstore : (match e with
                      | MySQLError msg =>
                          (Ok (Response 500 (error_body msg)), conn_close (conn_rollback c))
                      | _ => (Raise e, conn_close c)
                      end).2 = committed c) by (now destruct e).
    rewrite Hstore.
    split; [exact Hany|]. split; [destruct e; discriminate|].
    intros members Hm Hfalse _. pose proof (Hreq members Hm) as E.
    injection E as ->. now apply (Hkeep Hfalse e).
Qed.

(** X12.  A 500 answer does not always mean that nothing happened: when the
    counters are to be reset and the driver fails at the final commit only,
    the wipe has already been committed by the resets; the rollback has
    nothing to undo and the answer is 500 over five empty tables. *)
Theorem admin_clear_all_failed_commit_after_reset (fault : nat -> bool) (now : datetime)
    (members : list (string * json)) (c : json) (d : db) :
  member "confirm" members = Some c ->
  json_truthy c = true ->
  json_truthy (default (JBool true) (member "reset_auto_increment" members)) = true ->
  (forall n : nat, (n < 10)%nat -> fault n = false) ->
  fault 10%nat = true ->
  admin_clear_all fault now (Some (JObj members)) d
  = (Ok (Response 500 (error_body "2013 (HY000): Lost connection to MySQL server during query")),
     wiped true d).
Proof.
  intros Hm Hc Hreset Hf H10.
  rewrite (admin_clear_all_confirmed fault now members c d Hm Hc). cbv zeta.
  rewrite Hreset.
  unfold clear_all_block, io_bind, try_alter, cur_execute, conn_commit, get_conn.
  cbn. do 10 (rewrite Hf by lia; cbn). rewrite H10. reflexivity.
Qed.

Lemma admin_clear_all_failed_commit_witness :
  admin_clear_all (fun n => Nat.eqb n 10) sample_now
    (Some (JObj [("confirm", JBool true)])) sample_db
  = (Ok (Response 500 (error_body "2013 (HY000): Lost connection to MySQL server during query")),
     wiped true sample_db).
Proof.
  apply (admin_clear_all_failed_commit_after_reset (fun n => Nat.eqb n 10) sample_now
           [("confirm", JBool true)] (JBool true) sample_db);
    try reflexivity.
  intros n Hn. apply Nat.eqb_neq. lia.
Defined.

(** ** The other create endpoints *)

Lemma sql_text_error (j : json) (e : exn) :
  sql_text j = Raise e -> exists msg, e = MySQLError msg.
Proof. destruct j; cbn; intros H; try discriminate; injection H as <-; eauto. Qed.

Lemma sql_varchar_error (n : nat) (j : json) (e : exn) :
  sql_varchar n j = Raise e -> exists msg, e = MySQLError msg.
Proof.
  unfold sql_varchar. destruct (sql_text j) as [[s|]|e'] eqn:H; cbn.
  - case_match; [|discriminate]. intros [= <-]. eexists; reflexivity.
  - discriminate.
  - intros [= <-]. now apply (sql_text_error j).
Qed.

Lemma sql_varchar_required_error (n : nat) (j : json) (e : exn) :
  sql_varchar_required n j = Raise e -> exists msg, e = MySQLError msg.
Proof.
  unfold sql_varchar_required. destruct (sql_varchar n j) as [[s|]|e'] eqn:H; cbn.
  - discriminate.
  - intros [= <-]. eexists; reflexivity.
  - intros [= <-]. now apply (sql_varchar_error n j).
Qed.

Lemma sql_int_error (z : Z) (e : exn) :
  sql_int z = Raise e -> exists msg, e = MySQLError msg.
Proof.
  unfold sql_int. destruct (_ && _); cbn; [discriminate|].
  intros [= <-]. eexists; reflexivity.
Qed.

Lemma sql_int_opt_error (o : option Z) (e : exn) :
  sql_int_opt o = Raise e -> exists msg, e = MySQLError msg.
Proof.
  destruct o as [z|]; cbn; [|discriminate].
  destruct (sql_int z) as [n|e'] eqn:H; cbn; [discriminate|].
  intros [= <-]. now apply (sql_int_error z).
Qed.

(** What an accepted INSERT does: one row appended under the table's
    counter, after the checks of the schema. *)
Lemma insert_row_ok (i : insert) (d : db) (id : Z) (d' : db) :
  insert_row i d = Ok (id, d') ->
  match i with
  | InsertTaman nama luas lokasi =>
      exists nm ls lk,
        sql_varchar_required 100 nama = Ok nm /\ sql_int_opt luas = Ok ls
        /\ sql_varchar 255 lokasi = Ok lk
        /\ existsb (fun p => String.eqb (collate_key (tm_nama p)) (collate_key nm)) (t_taman d)
           = false
        /\ id = ai_taman d /\ d' = add_taman d (TamanRec id nm ls lk)
  | InsertPetugas nama jabatan =>
      exists nm jb,
        sql_varchar_required 100 nama = Ok nm /\ sql_varchar 100 jabatan = Ok jb
        /\ id = ai_petugas d /\ d' = add_petugas d (PetugasRec id nm jb)
  | InsertKegiatan jenis =>
      exists jn,
        sql_varchar_required 120 jenis = Ok jn
        /\ id = ai_kegiatan d /\ d' = add_kegiatan d (KegiatanRec id jn)
  | InsertTanaman id_taman nama_umum nama_ilmiah jenis =>
      exists nu ni jn,
        sql_int id_taman = Ok id_taman
        /\ sql_varchar 100 nama_umum = Ok nu /\ sql_varchar 150 nama_ilmiah = Ok ni
        /\ sql_varchar 80 jenis = Ok jn
        /\ existsb (fun p => Z.eqb (tm_id p) id_taman) (t_taman d) = true
        /\ id = ai_tanaman d /\ d' = add_tanaman d (TanamanRec id id_taman nu ni jn)
  end.
Proof.
  destruct i as [nama luas lokasi | nama jabatan | jenis | k nu ni jn]; cbn [insert_row].
  - destruct (sql_varchar_required 100 nama) as [nm|]; [|discriminate]. cbn [rbind].
    destruct (sql_int_opt luas) as [ls|]; [|discriminate]. cbn [rbind].
    destruct (sql_varchar 255 lokasi) as [lk|]; [|discriminate]. cbn [rbind].
    destruct (existsb _ _) eqn:Hdup; cbn; [discriminate|]. intros [= <- <-].
    exists nm, ls, lk. auto 10.
  - destruct (sql_varchar_required 100 nama) as [nm|]; [|discriminate]. cbn [rbind].
    destruct (sql_varchar 100 jabatan) as [jb|]; [|discriminate]. cbn [rbind].
    intros [= <- <-]. exists nm, jb. auto.
  - destruct (sql_varchar_required 120 jenis) as [j|]; [|discriminate]. cbn [rbind].
    intros [= <- <-]. exists j. auto.
  - unfold sql_int. destruct (_ && _); cbn; [|discriminate].
    destruct (sql_varchar 100 nu) as [a|]; [|discriminate]. cbn [rbind].
    destruct (sql_varchar 150 ni) as [b|]; [|discriminate]. cbn [rbind].
    destruct (sql_varchar 80 jn) as [c|]; [|discriminate]. cbn [rbind].
    destruct (existsb _ _) eqn:Hfk; cbn; [|discriminate]. intros [= <- <-].
    exists a, b, c. auto 10.
Qed.

(** A refused INSERT is an error of the store. *)
Lemma insert_row_error (i : insert) (d : db) (e : exn) :
  insert_row i d = Raise e -> exists msg, e = MySQLError msg.
Proof.
  destruct i as [nama luas lokasi | nama jabatan | jenis | k nu ni jn]; cbn [insert_row].
  - destruct (sql_varchar_required 100 nama) as [nm|e1] eqn:H1; cbn [rbind];
      [|intros [= <-]; now apply (sql_varchar_required_error 100 nama)].
    destruct (sql_int_opt luas) as [ls|e2] eqn:H2; cbn [rbind];
      [|intros [= <-]; now apply (sql_int_opt_error luas)].
    destruct (sql_varchar 255 lokasi) as [lk|e3] eqn:H3; cbn [rbind];
      [|intros [= <-]; now apply (sql_varchar_error 255 lokasi)].
    destruct (existsb _ _); cbn; [|discriminate]. intros [= <-]. eexists; reflexivity.
  - destruct (sql_varchar_required 100 nama) as [nm|e1] eqn:H1; cbn [rbind];
      [|intros [= <-]; now apply (sql_varchar_required_error 100 nama)].
    destruct (sql_varchar 100 jabatan) as [jb|e2] eqn:H2; cbn [rbind];
      [discriminate | intros [= <-]; now apply (sql_varchar_error 100 jabatan)].
  - destruct (sql_varchar_required 120 jenis) as [j|e1] eqn:H1; cbn [rbind];
      [discriminate | intros [= <-]; now apply (sql_varchar_required_error 120 jenis)].
  - destruct (sql_int k) as [k'|e0] eqn:H0; cbn [rbind];
      [|intros [= <-]; now apply (sql_int_error k)].
    destruct (sql_varchar 100 nu) as [a|e1] eqn:H1; cbn [rbind];
      [|intros [= <-]; now apply (sql_varchar_error 100 nu)].
    destruct (sql_varchar 150 ni) as [b|e2] eqn:H2; cbn [rbind];
      [|intros [= <-]; now apply (sql_varchar_error 150 ni)].
    destruct (sql_varchar 80 jn) as [c|e3] eqn:H3; cbn [rbind];
      [|intros [= <-]; now apply (sql_varchar_error 80 jn)].
    destruct (existsb _ _); cbn; [discriminate|]. intros [= <-]. eexists; reflexivity.
Qed.

(** [execute] on one of these statements: the row is inserted and
    committed, or an error of the store is raised and the store is as it
    was. *)
Lemma execute_row_outcome (fault : nat -> bool) (i : insert) (d : db) :
  (exists id d', execute_row fault i d = (Ok id, d') /\ insert_row i d = Ok (id, d'))
  \/ (exists msg, execute_row fault i d = (Raise (MySQLError msg), d)).
Proof.
  unfold execute_row, io_bind, cur_execute_row, conn_commit, get_conn. cbn.
  destruct (fault 0%nat); [right; eexists; reflexivity|].
  destruct (insert_row i d) as [[id d']|e] eqn:Hi.
  - cbn. destruct (fault 1%nat); [right; eexists; reflexivity|].
    left. exists id, d'. split; reflexivity.
  - destruct (insert_row_error i d e Hi) as [msg ->]. right. eexists; reflexivity.
Qed.

Lemma execute_row_ok (fault : nat -> bool) (i : insert) (d : db) (id : Z) (d' : db) :
  fault 0%nat = false -> fault 1%nat = false ->
  insert_row i d = Ok (id, d') ->
  execute_row fault i d = (Ok id, d').
Proof.
  intros F0 F1 Hi.
  unfold execute_row, io_bind, cur_execute_row, conn_commit, get_conn. cbn.
  rewrite F0, Hi. cbn. rewrite F1. reflexivity.
Qed.

Lemma execute_row_refused (fault : nat -> bool) (i : insert) (d : db) (msg : string) :
  fault 0%nat = false ->
  insert_row i d = Raise (MySQLError msg) ->
  execute_row fault i d = (Raise (MySQLError msg), d).
Proof.
  intros F0 Hi.
  unfold execute_row, io_bind, cur_execute_row, conn_commit, get_conn. cbn.
  rewrite F0, Hi. reflexivity.
Qed.

(** The answer of a create endpoint once its statement is built: 201 with
    the key of the inserted row, or 400 with the store as it was. *)
Lemma created_or_error_outcome (key : string) (fault : nat -> bool) (i : insert) (d : db) :
  (exists id d',
      created_or_error key (execute_row fault i d)
      = (Ok (Response 201 (JsonBody (JObj [(key, JInt id)]))), d')
      /\ insert_row i d = Ok (id, d'))
  \/ (exists msg,
        created_or_error key (execute_row fault i d)
        = (Ok (Response 400 (error_body msg)), d)).
Proof.
  destruct (execute_row_outcome fault i d) as [(id & d' & -> & Hi) | (msg & ->)].
  - left. exists id, d'. split; [reflexivity | exact Hi].
  - right. exists msg. reflexivity.
Qed.

(** The store after a create request: as it was, or after one accepted
    INSERT. *)
Lemma create_taman_store (fault : nat -> bool) (req : option json) (d : db) :
  (create_taman fault req d).2 = d
  \/ exists i id, insert_row i d = Ok (id, (create_taman fault req d).2).
Proof.
  unfold create_taman. destruct req as [payload|]; [|now left].
  destruct (nama <- json_get payload "nama_taman" JNull;; _) as [[[nama luas] lokasi]|e];
    [|now left].
  destruct (negb (json_truthy nama)); [now left|].
  destruct (if is_blank luas then _ else _) as [l|e]; [|now left].
  destruct (created_or_error_outcome "id_taman" fault (InsertTaman nama l lokasi) d)
    as [(id & d' & -> & Hi) | (msg & ->)]; [right; eauto | now left].
Qed.

Lemma create_petugas_store (fault : nat -> bool) (req : option json) (d : db) :
  (create_petugas fault req d).2 = d
  \/ exists i id, insert_row i d = Ok (id, (create_petugas fault req d).2).
Proof.
  unfold create_petugas. destruct req as [payload|]; [|now left].
  destruct (nama <- json_get payload "nama_petugas" JNull;; _) as [[nama jabatan]|e];
    [|now left].
  destruct (negb (json_truthy nama)); [now left|].
  destruct (created_or_error_outcome "id_petugas" fault (InsertPetugas nama jabatan) d)
    as [(id & d' & -> & Hi) | (msg & ->)]; [right; eauto | now left].
Qed.

Lemma create_kegiatan_store (fault : nat -> bool) (req : option json) (d : db) :
  (create_kegiatan fault req d).2 = d
  \/ exists i id, insert_row i d = Ok (id, (create_kegiatan fault req d).2).
Proof.
  unfold create_kegiatan. destruct req as [payload|]; [|now left].
  destruct (json_get payload "jenis_kegiatan" JNull) as [jenis|e]; [|now left].
  destruct (negb (json_truthy jenis)); [now left|].
  destruct (created_or_error_outcome "id_kegiatan" fault (InsertKegiatan jenis) d)
    as [(id & d' & -> & Hi) | (msg & ->)]; [right; eauto | now left].
Qed.

Lemma create_tanaman_store (fault : nat -> bool) (req : option json) (d : db) :
  (create_tanaman fault req d).2 = d
  \/ exists i id, insert_row i d = Ok (id, (create_tanaman fault req d).2).
Proof.
  unfold create_tanaman. destruct req as [payload|]; [|now left].
  destruct (x <- json_getitem payload "id_taman";; json_int x) as [k|e]; [|now left].
  destruct (nama_umum <- json_get payload "nama_umum" JNull;; _) as [[[nu ni] jn]|e];
    [|now left].
  destruct (negb (json_truthy nu)); [now left|].
  destruct (created_or_error_outcome "id_tanaman" fault (InsertTanaman k nu ni jn) d)
    as [(id & d' & -> & Hi) | (msg & ->)]; [right; eauto | now left].
Qed.

Lemma create_laporan_store (fault : nat -> bool) (now : datetime) (req : option json)
    (d : db) :
  (create_laporan fault now req d).2 = d
  \/ exists row, (create_laporan fault now req d).2 = inserted d row
                 /\ lp_id row = ai_laporan d
                 /\ references_exist d (lp_id_tanaman row) (lp_id_petugas row)
                      (lp_id_kegiatan row) = true.
Proof.
  unfold create_laporan. destruct req as [payload|]; [|now left].
  destruct (x <- json_getitem payload "id_tanaman";; _) as [[[a b] c]|e]; [|now left].
  destruct (tanggal <- json_get payload "tanggal" JNull;; _) as [[tanggal isi]|e];
    [|now left].
  destruct (execute_laporan_outcome fault now
              (if negb (json_truthy tanggal) then InsertLaporanNow a b c isi
               else InsertLaporan a b c tanggal isi) d a b c tanggal isi)
    as [(when & txt & -> & Hfk) | (e & ->)].
  - destruct (json_truthy tanggal); cbn; auto.
  - right. eexists. split; [reflexivity|]. split; [reflexivity | exact Hfk].
  - left. now destruct e.
Qed.

Lemma admin_clear_all_store (fault : nat -> bool) (now : datetime) (req : option json)
    (d : db) :
  (admin_clear_all fault now req d).2 = d \/ no_rows (admin_clear_all fault now req d).2.
Proof.
  unfold admin_clear_all.
  destruct (json_get _ "confirm" JNull) as [confirm|e]; [|now left].
  destruct (negb (json_truthy confirm)); [now left|].
  destruct (json_get _ "reset_auto_increment" (JBool true)) as [r|e]; [|now left].
  destruct (clear_all_block_store fault now (json_truthy r) d) as (Hany & _ & _).
  destruct (clear_all_block fault now (json_truthy r) (get_conn d)) as [[u|e] c];
    cbn [fst snd] in *; [exact Hany|].
  now destruct e.
Qed.

(** ** Invariants of the store *)

Lemma forallb_mono {A : Type} (f g : A -> bool) (l : list A) :
  (forall x, f x = true -> g x = true) -> forallb f l = true -> forallb g l = true.
Proof.
  intros Hfg. induction l as [|x l IH]; [reflexivity|]. cbn.
  rewrite !andb_true_iff. intros [Hx Hl]. auto.
Qed.

Lemma existsb_app_l {A : Type} (f : A -> bool) (l l' : list A) :
  existsb f l = true -> existsb f (l ++ l')%list = true.
Proof. intros H. rewrite existsb_app, H. reflexivity. Qed.

Lemma refs_ok_no_rows (d : db) : no_rows d -> refs_ok d = true.
Proof. intros (H1 & H2 & _). unfold refs_ok. now rewrite H1, H2. Qed.

Lemma keys_fresh_no_rows (d : db) : no_rows d -> keys_fresh d = true.
Proof.
  intros (H1 & H2 & H3 & H4 & H5). unfold keys_fresh. now rewrite H1, H2, H3, H4, H5.
Qed.

Lemma refs_ok_inserted (d : db) (row : laporan_rec) :
  references_exist d (lp_id_tanaman row) (lp_id_petugas row) (lp_id_kegiatan row) = true ->
  refs_ok d = true -> refs_ok (inserted d row) = true.
Proof.
  unfold refs_ok, inserted, references_exist. cbn.
  intros Hrow [H1 H2]%andb_true_iff. rewrite H1, forallb_app, H2. cbn.
  now rewrite Hrow.
Qed.

Lemma refs_ok_insert_row (i : insert) (d : db) (id : Z) (d' : db) :
  insert_row i d = Ok (id, d') -> refs_ok d = true -> refs_ok d' = true.
Proof.
  intros Hi [H1 H2]%andb_true_iff. apply insert_row_ok in Hi.
  destruct i as [nama luas lokasi | nama jabatan | jenis | k nu ni jn].
  - destruct Hi as (nm & ls & lk & _ & _ & _ & _ & _ & ->).
    unfold refs_ok, references_exist, add_taman. cbn. apply andb_true_iff. split.
    + revert H1. apply forallb_mono. intros t. apply existsb_app_l.
    + exact H2.
  - destruct Hi as (nm & jb & _ & _ & _ & ->).
    unfold refs_ok, references_exist, add_petugas. cbn. apply andb_true_iff. split.
    + exact H1.
    + revert H2. apply forallb_mono. intros l. unfold references_exist.
      rewrite !andb_true_iff. intros [[Ht Hp] Hk]. auto using existsb_app_l.
  - destruct Hi as (jn & _ & _ & ->).
    unfold refs_ok, references_exist, add_kegiatan. cbn. apply andb_true_iff. split.
    + exact H1.
    + revert H2. apply forallb_mono. intros l. unfold references_exist.
      rewrite !andb_true_iff. intros [[Ht Hp] Hk]. auto using existsb_app_l.
  - destruct Hi as (a & b & c & _ & _ & _ & _ & Hfk & _ & ->).
    unfold refs_ok, references_exist, add_tanaman. cbn. apply andb_true_iff. split.
    + rewrite forallb_app, H1. cbn. now rewrite Hfk.
    + revert H2. apply forallb_mono. intros l. unfold references_exist.
      rewrite !andb_true_iff. intros [[Ht Hp] Hk]. auto using existsb_app_l.
Qed.

Lemma forallb_below_succ {A : Type} (key : A -> Z) (n : Z) (l : list A) (x : A) :
  key x = n ->
  forallb (fun y => Z.ltb (key y) n) l = true ->
  forallb (fun y => Z.ltb (key y) (n + 1)) (l ++ [x])%list = true.
Proof.
  intros Hx Hl. rewrite forallb_app. apply andb_true_iff. split.
  - revert Hl. apply forallb_mono. intros y. rewrite !Z.ltb_lt. lia.
  - cbn. rewrite Hx, andb_true_r. apply Z.ltb_lt. lia.
Qed.

Lemma keys_fresh_inserted (d : db) (row : laporan_rec) :
  lp_id row = ai_laporan d -> keys_fresh d = true -> keys_fresh (inserted d row) = true.
Proof.
  unfold keys_fresh, inserted. cbn. rewrite !andb_true_iff.
  intros Hrow ((((H1 & H2) & H3) & H4) & H5). repeat split; try assumption.
  now apply forallb_below_succ.
Qed.

Lemma keys_fresh_insert_row (i : insert) (d : db) (id : Z) (d' : db) :
  insert_row i d = Ok (id, d') -> keys_fresh d = true -> keys_fresh d' = true.
Proof.
  intros Hi. apply insert_row_ok in Hi.
  unfold keys_fresh. rewrite !andb_true_iff. intros ((((H1 & H2) & H3) & H4) & H5).
  destruct i as [nama luas lokasi | nama jabatan | jenis | k nu ni jn].
  - destruct Hi as (nm & ls & lk & _ & _ & _ & _ & -> & ->).
    unfold add_taman. cbn. repeat split; try assumption. now apply forallb_below_succ.
  - destruct Hi as (nm & jb & _ & _ & -> & ->).
    unfold add_petugas. cbn. repeat split; try assumption. now apply forallb_below_succ.
  - destruct Hi as (jn & _ & -> & ->).
    unfold add_kegiatan. cbn. repeat split; try assumption. now apply forallb_below_succ.
  - destruct Hi as (a & b & c & _ & _ & _ & _ & _ & -> & ->).
    unfold add_tanaman. cbn. repeat split; try assumption. now apply forallb_below_succ.
Qed.

(** X13.  Referential integrity is an invariant of the write endpoints: when
    every plant names a park of the store and every report names a plant, a
    staff member and an activity type of the store, the same holds after any
    create request and after any bulk wipe, whatever the request and whatever
    the driver does. *)
Theorem write_endpoints_keep_references (fault : nat -> bool) (now : datetime)
    (req : option json) (d : db) :
  refs_ok d = true ->
  refs_ok (create_taman fault req d).2 = true
  /\ refs_ok (create_petugas fault req d).2 = true
  /\ refs_ok (create_kegiatan fault req d).2 = true
  /\ refs_ok (create_tanaman fault req d).2 = true
  /\ refs_ok (create_laporan fault now req d).2 = true
  /\ refs_ok (admin_clear_all fault now req d).2 = true.
Proof.
  intros H. repeat split.
  - destruct (create_taman_store fault req d) as [-> | (i & id & Hi)];
      [exact H | exact (refs_ok_insert_row i d id _ Hi H)].
  - destruct (create_petugas_store fault req d) as [-> | (i & id & Hi)];
      [exact H | exact (refs_ok_insert_row i d id _ Hi H)].
  - destruct (create_kegiatan_store fault req d) as [-> | (i & id & Hi)];
      [exact H | exact (refs_ok_insert_row i d id _ Hi H)].
  - destruct (create_tanaman_store fault req d) as [-> | (i & id & Hi)];
      [exact H | exact (refs_ok_insert_row i d id _ Hi H)].
  - destruct (create_laporan_store fault now req d) as [-> | (row & -> & _ & Hfk)];
      [exact H | now apply refs_ok_inserted].
  - destruct (admin_clear_all_store fault now req d) as [-> | Hempty];
      [exact H | now apply refs_ok_no_rows].
Qed.

Lemma write_endpoints_keep_references_witness :
  refs_ok (create_taman no_fault (Some request_at) sample_db).2 = true
  /\ refs_ok (create_petugas no_fault (Some request_at) sample_db).2 = true
  /\ refs_ok (create_kegiatan no_fault (Some request_at) sample_db).2 = true
  /\ refs_ok (create_tanaman no_fault (Some request_at) sample_db).2 = true
  /\ refs_ok (create_laporan no_fault sample_now (Some request_at) sample_db).2 = true
  /\ refs_ok (admin_clear_all no_fault sample_now (Some request_at) sample_db).2 = true.
Proof.
  apply (write_endpoints_keep_references no_fault sample_now (Some request_at) sample_db).
  reflexivity.
Defined.

(** X14.  Keys are never reused: when every key in use is below its table's
    counter, the same holds after any create request and after any bulk
    wipe, whatever the request and whatever the driver does. *)
Theorem write_endpoints_keep_keys_fresh (fault : nat -> bool) (now : datetime)
    (req : option json) (d : db) :
  keys_fresh d = true ->
  keys_fresh (create_taman fault req d).2 = true
  /\ keys_fresh (create_petugas fault req d).2 = true
  /\ keys_fresh (create_kegiatan fault req d).2 = true
  /\ keys_fresh (create_tanaman fault req d).2 = true
  /\ keys_fresh (create_laporan fault now req d).2 = true
  /\ keys_fresh (admin_clear_all fault now req d).2 = true.
Proof.
  intros H. repeat split.
  - destruct (create_taman_store fault req d) as [-> | (i & id & Hi)];
      [exact H | exact (keys_fresh_insert_row i d id _ Hi H)].
  - destruct (create_petugas_store fault req d) as [-> | (i & id & Hi)];
      [exact H | exact (keys_fresh_insert_row i d id _ Hi H)].
  - destruct (create_kegiatan_store fault req d) as [-> | (i & id & Hi)];
      [exact H | exact (keys_fresh_insert_row i d id _ Hi H)].
  - destruct (create_tanaman_store fault req d) as [-> | (i & id & Hi)];
      [exact H | exact (keys_fresh_insert_row i d id _ Hi H)].
  - destruct (create_laporan_store fault now req d) as [-> | (row & -> & Hid & _)];
      [exact H | now apply keys_fresh_inserted].
  - destruct (admin_clear_all_store fault now req d) as [-> | Hempty];
      [exact H | now apply keys_fresh_no_rows].
Qed.

Lemma write_endpoints_keep_keys_fresh_witness :
  keys_fresh (create_taman no_fault (Some request_at) sample_db).2 = true
  /\ keys_fresh (create_petugas no_fault (Some request_at) sample_db).2 = true
  /\ keys_fresh (create_kegiatan no_fault (Some request_at) sample_db).2 = true
  /\ keys_fresh (create_tanaman no_fault (Some request_at) sample_db).2 = true
  /\ keys_fresh (create_laporan no_fault sample_now (Some request_at) sample_db).2 = true
  /\ keys_fresh (admin_clear_all no_fault sample_now (Some request_at) sample_db).2 = true.
Proof.
  apply (write_endpoints_keep_keys_fresh no_fault sample_now (Some request_at) sample_db).
  reflexivity.
Defined.

(** ** Creating a park *)

Lemma sql_varchar_str (n : nat) (s : string) :
  (String.length s <= n)%nat -> sql_varchar n (JStr s) = Ok (Some s).
Proof.
  intros H. unfold sql_varchar, sql_text. cbn [rbind].
  destruct (Nat.ltb_spec n (String.length s)); [lia | reflexivity].
Qed.

Lemma sql_varchar_required_str (n : nat) (s : string) :
  (String.length s <= n)%nat -> sql_varchar_required n (JStr s) = Ok s.
Proof. intros H. unfold sql_varchar_required. now rewrite sql_varchar_str. Qed.

Lemma sql_varchar_required_str_inv (n : nat) (s nm : string) :
  sql_varchar_required n (JStr s) = Ok nm -> nm = s.
Proof.
  unfold sql_varchar_required, sql_varchar, sql_text. cbn [rbind].
  case_match; cbn [rbind]; [discriminate|].
  now intros [= <-].
Qed.

Lemma json_truthy_str (s : string) : s <> "" -> json_truthy (JStr s) = true.
Proof. intros H. cbn. now destruct s. Qed.

Lemma existsb_elem {A : Type} (f : A -> bool) (l : list A) (x : A) :
  x ∈ l -> f x = true -> existsb f l = true.
Proof.
  intros Hx Hf. apply existsb_exists. exists x. split; [|exact Hf].
  now apply list_elem_of_In.
Qed.

(** X15.  A park whose name is already taken (up to case and trailing spaces) is
    refused with 400 and the store is as it was, whatever the other members
    of the request, when the area is blank or an integer. *)
Theorem create_taman_rejects_duplicate (fault : nat -> bool)
    (members : list (string * json)) (d : db) (s : string) (p : taman_rec) :
  member "nama_taman" members = Some (JStr s) ->
  s <> "" ->
  p ∈ t_taman d ->
  collate_key (tm_nama p) = collate_key s ->
  (is_blank (default JNull (member "luas_taman" members)) = true
   \/ exists n, json_int (default JNull (member "luas_taman" members)) = Ok n) ->
  exists msg,
    create_taman fault (Some (JObj members)) d = (Ok (Response 400 (error_body msg)), d).
Proof.
  intros Hnama Hs Hp Hkey Hluas. unfold create_taman. cbn [json_get rbind].
  rewrite Hnama. simpl (default _ (Some _)). rewrite (json_truthy_str s Hs). cbn [negb].
  assert (Hl : exists l,
             (if is_blank (default JNull (member "luas_taman" members))
              then Ok None
              else n <- json_int (default JNull (member "luas_taman" members));;
                   Ok (Some n)) = Ok l).
  { destruct Hluas as [-> | (n & Hn)]; [eauto|].
    destruct (is_blank _); [eauto|]. rewrite Hn. cbn. eauto. }
  destruct Hl as [l ->].
  destruct (created_or_error_outcome "id_taman" fault
              (InsertTaman (JStr s) l (default JNull (member "lokasi" members))) d)
    as [(id & d' & _ & Hi) | (msg & ->)]; [|eauto].
  apply insert_row_ok in Hi. destruct Hi as (nm & ls & lk & Hnm & _ & _ & Hdup & _).
  apply sql_varchar_required_str_inv in Hnm. subst nm.
  rewrite (existsb_elem _ _ p Hp) in Hdup; [discriminate|].
  rewrite Hkey. apply String.eqb_refl.
Qed.

Lemma create_taman_rejects_duplicate_witness :
  exists msg,
    create_taman no_fault
      (Some (JObj [("nama_taman", JStr "TAMAN kota  "); ("luas_taman", JStr "1200")]))
      (add_taman sample_db (TamanRec 77 "Taman Kota" None None))
    = (Ok (Response 400 (error_body msg)),
       add_taman sample_db (TamanRec 77 "Taman Kota" None None)).
Proof.
  apply (create_taman_rejects_duplicate no_fault
           [("nama_taman", JStr "TAMAN kota  "); ("luas_taman", JStr "1200")]
           (add_taman sample_db (TamanRec 77 "Taman Kota" None None))
           "TAMAN kota  " (TamanRec 77 "Taman Kota" None None)).
  - reflexivity.
  - discriminate.
  - unfold add_taman. cbn [t_taman]. apply elem_of_app. right. now left.
  - reflexivity.
  - right. exists 1200%Z. reflexivity.
Defined.

(** X16.  An area that is neither blank nor the text of an integer is not
    answered with a 400: the conversion is made outside the [try], so the
    request raises, before anything is sent to the store. *)
Theorem create_taman_malformed_area_raises (fault : nat -> bool)
    (members : list (string * json)) (d : db) (nama luas : json) (e : exn) :
  member "nama_taman" members = Some nama ->
  json_truthy nama = true ->
  member "luas_taman" members = Some luas ->
  is_blank luas = false ->
  json_int luas = Raise e ->
  create_taman fault (Some (JObj members)) d = (Raise e, d)
  /\ (e = ValueError \/ e = TypeError).
Proof.
  intros Hnama Ht Hluas Hb He. unfold create_taman. cbn [json_get rbind].
  rewrite Hnama, Hluas. simpl (default _ (Some _)). rewrite Ht, Hb. cbn [negb].
  rewrite He. split; [reflexivity|].
  destruct luas as [|b|n|t|items|ms]; cbn in He; try discriminate;
    try (injection He as <-; auto).
  destruct (int_of_string t); [discriminate|]. injection He as <-. auto.
Qed.

Lemma create_taman_malformed_area_witness :
  create_taman no_fault
    (Some (JObj [("nama_taman", JStr "Taman Kota"); ("luas_taman", JStr "1200 m2")]))
    sample_db
  = (Raise ValueError, sample_db)
  /\ (ValueError = ValueError \/ ValueError = TypeError).
Proof.
  apply (create_taman_malformed_area_raises no_fault
           [("nama_taman", JStr "Taman Kota"); ("luas_taman", JStr "1200 m2")]
           sample_db (JStr "Taman Kota") (JStr "1200 m2") ValueError);
    reflexivity.
Defined.

Lemma create_taman_inserts (fault : nat -> bool) (members : list (string * json))
    (d : db) (s : string) (ls : option Z) (lk : option string) :
  member "nama_taman" members = Some (JStr s) ->
  s <> "" -> (String.length s <= 100)%nat ->
  (is_blank (default JNull (member "luas_taman" members)) = true /\ ls = None
   \/ exists n, is_blank (default JNull (member "luas_taman" members)) = false
                /\ json_int (default JNull (member "luas_taman" members)) = Ok n
                /\ (-2147483648 <= n <= 2147483647)%Z /\ ls = Some n) ->
  sql_varchar 255 (default JNull (member "lokasi" members)) = Ok lk ->
  existsb (fun p => String.eqb (collate_key (tm_nama p)) (collate_key s)) (t_taman d)
  = false ->
  fault 0%nat = false -> fault 1%nat = false ->
  create_taman fault (Some (JObj members)) d
  = (Ok (Response 201 (JsonBody (JObj [("id_taman", JInt (ai_taman d))]))),
     add_taman d (TamanRec (ai_taman d) s ls lk)).
Proof.
  intros Hnama Hs Hlen Hluas Hlk Hdup F0 F1. unfold create_taman. cbn [json_get rbind].
  rewrite Hnama. simpl (default _ (Some _)). rewrite (json_truthy_str s Hs). cbn [negb].
  assert (Hl : exists l,
             (if is_blank (default JNull (member "luas_taman" members))
              then Ok None
              else n <- json_int (default JNull (member "luas_taman" members));;
                   Ok (Some n)) = Ok l
             /\ sql_int_opt l = Ok ls).
  { destruct Hluas as [[-> ->] | (n & -> & -> & Hn & ->)].
    - exists None. split; reflexivity.
    - exists (Some n). split; [reflexivity|]. unfold sql_int_opt, sql_int.
      destruct (Z.leb_spec (-2147483648) n); [|lia].
      destruct (Z.leb_spec n 2147483647); [|lia]. reflexivity. }
  destruct Hl as (l & -> & Hls).
  rewrite (execute_row_ok fault _ d (ai_taman d)
             (add_taman d (TamanRec (ai_taman d) s ls lk)) F0 F1); [reflexivity|].
  cbn [insert_row]. rewrite (sql_varchar_required_str 100 s Hlen). cbn [rbind].
  rewrite Hls. cbn [rbind]. rewrite Hlk. cbn [rbind]. now rewrite Hdup.
Qed.

(** X17.  A park that was created is in the list of parks afterwards, under the
    key the creation answered, with the name, area and location of the
    request. *)
Theorem created_park_is_listed (fault : nat -> bool) (members : list (string * json))
    (d : db) (s : string) (ls : option Z) (lk : option string) (q : args) :
  member "nama_taman" members = Some (JStr s) ->
  s <> "" -> (String.length s <= 100)%nat ->
  (is_blank (default JNull (member "luas_taman" members)) = true /\ ls = None
   \/ exists n, is_blank (default JNull (member "luas_taman" members)) = false
                /\ json_int (default JNull (member "luas_taman" members)) = Ok n
                /\ (-2147483648 <= n <= 2147483647)%Z /\ ls = Some n) ->
  sql_varchar 255 (default JNull (member "lokasi" members)) = Ok lk ->
  existsb (fun p => String.eqb (collate_key (tm_nama p)) (collate_key s)) (t_taman d)
  = false ->
  fault 0%nat = false -> fault 1%nat = false ->
  (create_taman fault (Some (JObj members)) d).1
  = Ok (Response 201 (JsonBody (JObj [("id_taman", JInt (ai_taman d))])))
  /\ exists data,
       list_taman q (create_taman fault (Some (JObj members)) d).2
       = Ok (Response 200 (RowsBody data))
       /\ taman_dict (TamanRec (ai_taman d) s ls lk) ∈ data.
Proof.
  intros Hnama Hs Hlen Hluas Hlk Hdup F0 F1.
  rewrite (create_taman_inserts fault members d s ls lk) by assumption.
  cbn [fst snd]. split; [reflexivity|].
  eexists. split; [reflexivity|].
  apply list_elem_of_fmap_2, order_by_elem. unfold add_taman. cbn [t_taman].
  apply elem_of_app. right. now left.
Qed.

Lemma created_park_is_listed_witness :
  (create_taman no_fault
     (Some (JObj [("nama_taman", JStr "Taman Kota"); ("luas_taman", JStr " 1_200 ");
                  ("lokasi", JStr "Jl. Merdeka")])) sample_db).1
  = Ok (Response 201 (JsonBody (JObj [("id_taman", JInt (ai_taman sample_db))])))
  /\ exists data,
       list_taman []
         (create_taman no_fault
            (Some (JObj [("nama_taman", JStr "Taman Kota"); ("luas_taman", JStr " 1_200 ");
                         ("lokasi", JStr "Jl. Merdeka")])) sample_db).2
       = Ok (Response 200 (RowsBody data))
       /\ taman_dict (TamanRec (ai_taman sample_db) "Taman Kota" (Some 1200)
                        (Some "Jl. Merdeka")) ∈ data.
Proof.
  apply (created_park_is_listed no_fault
           [("nama_taman", JStr "Taman Kota"); ("luas_taman", JStr " 1_200 ");
            ("lokasi", JStr "Jl. Merdeka")]
           sample_db "Taman Kota" (Some 1200%Z) (Some "Jl. Merdeka") []);
    try reflexivity; try discriminate.
  - cbn. lia.
  - right. exists 1200%Z. repeat split; lia.
Defined.

(** ** Creating a plant *)

(** X18.  No plant without a park: when the park key of the request is missing
    or is not an integer, or names no park of the store, the answer is 400
    and the store is as it was, whatever the rest of the request and whatever
    the driver does. *)
Theorem create_tanaman_needs_park (fault : nat -> bool) (payload : json) (d : db) :
  (forall k, (x <- json_getitem payload "id_taman";; json_int x) = Ok k ->
             existsb (fun p => Z.eqb (tm_id p) k) (t_taman d) = false) ->
  exists msg,
    create_tanaman fault (Some payload) d = (Ok (Response 400 (error_body msg)), d).
Proof.
  intros Hpark. unfold create_tanaman.
  destruct (x <- json_getitem payload "id_taman";; json_int x) as [k|e] eqn:Hk; [|eauto].
  specialize (Hpark k eq_refl).
  destruct payload as [| | | | |members]; try discriminate Hk.
  cbn [json_get rbind].
  destruct (negb (json_truthy (default JNull (member "nama_umum" members)))); [eauto|].
  destruct (created_or_error_outcome "id_tanaman" fault
              (InsertTanaman k (default JNull (member "nama_umum" members))
                 (default JNull (member "nama_ilmiah" members))
                 (default JNull (member "jenis" members))) d)
    as [(id & d' & _ & Hi) | (msg & ->)]; [|eauto].
  apply insert_row_ok in Hi. destruct Hi as (a & b & c & _ & _ & _ & _ & Hfk & _).
  congruence.
Qed.

Lemma create_tanaman_needs_park_witness :
  exists msg,
    create_tanaman no_fault
      (Some (JObj [("id_taman", JStr "999"); ("nama_umum", JStr "Mawar")])) sample_db
    = (Ok (Response 400 (error_body msg)), sample_db).
Proof.
  apply (create_tanaman_needs_park no_fault
           (JObj [("id_taman", JStr "999"); ("nama_umum", JStr "Mawar")]) sample_db).
  intros k [= <-]. reflexivity.
Defined.

Lemma order_by_newest_first {A : Type} (key : A -> Z) (l : list A) (x : A) :
  Forall (fun y => (key y < key x)%Z) l ->
  order_by (fun a b => Z.leb (key b) (key a)) (l ++ [x])%list
  = x :: order_by (fun a b => Z.leb (key b) (key a)) l.
Proof.
  unfold order_by. induction 1 as [|y l Hy Hl IH]; [reflexivity|].
  cbn [app foldr]. rewrite IH. cbn [insert_sorted].
  destruct (Z.leb_spec (key x) (key y)); [lia | reflexivity].
Qed.

Lemma filter_snoc_keep {A : Type} (P : A -> Prop) `{!forall x, Decision (P x)}
    (l : list A) (x : A) :
  P x -> filter P (l ++ [x])%list = (filter P l ++ [x])%list.
Proof.
  intros Hx. rewrite filter_app. f_equal. cbn.
  unfold filter, list_filter. destruct (decide (P x)); [reflexivity | contradiction].
Qed.

(** X19.  A plant that was created heads the list of plants of its park: the
    creation answers 201 with the table's counter as key, and the list for
    that park then starts with the new plant, when the keys in use are below
    the counter. *)
Theorem created_plant_heads_list (fault : nat -> bool) (members : list (string * json))
    (d : db) (x : json) (k : Z) (s : string) (ni jn : option string) (q : args) :
  member "id_taman" members = Some x -> json_int x = Ok k ->
  (-2147483648 <= k <= 2147483647)%Z -> k <> 0%Z ->
  existsb (fun p => Z.eqb (tm_id p) k) (t_taman d) = true ->
  member "nama_umum" members = Some (JStr s) ->
  s <> "" -> (String.length s <= 100)%nat ->
  sql_varchar 150 (default JNull (member "nama_ilmiah" members)) = Ok ni ->
  sql_varchar 80 (default JNull (member "jenis" members)) = Ok jn ->
  forallb (fun t => Z.ltb (tn_id t) (ai_tanaman d)) (t_tanaman d) = true ->
  fault 0%nat = false -> fault 1%nat = false ->
  args_int q "id_taman" = Some k ->
  (create_tanaman fault (Some (JObj members)) d).1
  = Ok (Response 201 (JsonBody (JObj [("id_tanaman", JInt (ai_tanaman d))])))
  /\ exists older,
       list_tanaman q (create_tanaman fault (Some (JObj members)) d).2
       = Ok (Response 200
               (RowsBody (tanaman_dict (TanamanRec (ai_tanaman d) k (Some s) ni jn)
                          :: older)))
       /\ list_tanaman q d = Ok (Response 200 (RowsBody older)).
Proof.
  intros Hx Hk Hrange Hk0 Hpark Hnama Hs Hlen Hni Hjn Hfresh F0 F1 Hq.
  assert (Hcreate : create_tanaman fault (Some (JObj members)) d
                    = (Ok (Response 201 (JsonBody (JObj [("id_tanaman", JInt (ai_tanaman d))]))),
                       add_tanaman d (TanamanRec (ai_tanaman d) k (Some s) ni jn))).
  { unfold create_tanaman, json_getitem. rewrite Hx. cbn [json_get rbind].
    rewrite Hk, Hnama. simpl (default _ (Some _)). rewrite (json_truthy_str s Hs).
    cbn [negb].
    rewrite (execute_row_ok fault _ d (ai_tanaman d)
               (add_tanaman d (TanamanRec (ai_tanaman d) k (Some s) ni jn)) F0 F1);
      [reflexivity|].
    cbn [insert_row]. unfold sql_int.
    destruct (Z.leb_spec (-2147483648) k); [|lia].
    destruct (Z.leb_spec k 2147483647); [|lia]. cbn [andb rbind].
    rewrite (sql_varchar_str 100 s Hlen). cbn [rbind].
    rewrite Hni. cbn [rbind]. rewrite Hjn. cbn [rbind]. now rewrite Hpark. }
  rewrite Hcreate. cbn [fst snd]. split; [reflexivity|].
  unfold list_tanaman. rewrite Hq.
  destruct (Z.eqb_spec k 0) as [?|_]; [contradiction|].
  unfold rows, run_query, add_tanaman. cbn [t_tanaman rbind].
  eexists. split; [|reflexivity].
  rewrite (filter_snoc_keep (fun t => tn_id_taman t = k)) by reflexivity.
  rewrite (order_by_newest_first tn_id). { reflexivity. }
  apply Forall_forall. intros t Ht. apply list_elem_of_filter in Ht as [_ Ht].
  cbn [tn_id]. apply Z.ltb_lt.
  apply (proj1 (forallb_forall _ _) Hfresh). now apply list_elem_of_In.
Qed.

Lemma created_plant_heads_list_witness :
  (create_tanaman no_fault
     (Some (JObj [("id_taman", JStr "1"); ("nama_umum", JStr "Kamboja")])) sample_db).1
  = Ok (Response 201 (JsonBody (JObj [("id_tanaman", JInt (ai_tanaman sample_db))])))
  /\ exists older,
       list_tanaman [("id_taman", "1")]
         (create_tanaman no_fault
            (Some (JObj [("id_taman", JStr "1"); ("nama_umum", JStr "Kamboja")]))
            sample_db).2
       = Ok (Response 200
               (RowsBody (tanaman_dict
                            (TanamanRec (ai_tanaman sample_db) 1 (Some "Kamboja") None None)
                          :: older)))
       /\ list_tanaman [("id_taman", "1")] sample_db = Ok (Response 200 (RowsBody older)).
Proof.
  apply (created_plant_heads_list no_fault
           [("id_taman", JStr "1"); ("nama_umum", JStr "Kamboja")] sample_db
           (JStr "1") 1 "Kamboja" None None [("id_taman", "1")]);
    try reflexivity; try discriminate; try lia.
  cbn. lia.
Defined.

(** ** Creating staff and activity types *)

(** X20.  A staff member with a name of at most 100 characters is always
    created (the table has no unique key: a name already in use is accepted
    again), under the table's counter, and is in the list of staff
    afterwards. *)
Theorem created_petugas_is_listed (fault : nat -> bool) (members : list (string * json))
    (d : db) (s : string) (jb : option string) (q : args) :
  member "nama_petugas" members = Some (JStr s) ->
  s <> "" -> (String.length s <= 100)%nat ->
  sql_varchar 100 (default JNull (member "jabatan" members)) = Ok jb ->
  fault 0%nat = false -> fault 1%nat = false ->
  create_petugas fault (Some (JObj members)) d
  = (Ok (Response 201 (JsonBody (JObj [("id_petugas", JInt (ai_petugas d))]))),
     add_petugas d (PetugasRec (ai_petugas d) s jb))
  /\ exists data,
       list_petugas q (add_petugas d (PetugasRec (ai_petugas d) s jb))
       = Ok (Response 200 (RowsBody data))
       /\ petugas_dict (PetugasRec (ai_petugas d) s jb) ∈ data
       /\ length data = S (length (t_petugas d)).
Proof.
  intros Hnama Hs Hlen Hjb F0 F1. split.
  - unfold create_petugas. cbn [json_get rbind].
    rewrite Hnama. simpl (default _ (Some _)). rewrite (json_truthy_str s Hs). cbn [negb].
    rewrite (execute_row_ok fault _ d (ai_petugas d)
               (add_petugas d (PetugasRec (ai_petugas d) s jb)) F0 F1); [reflexivity|].
    cbn [insert_row]. rewrite (sql_varchar_required_str 100 s Hlen). cbn [rbind].
    now rewrite Hjb.
  - eexists. split; [reflexivity|]. unfold add_petugas. cbn [t_petugas]. split.
    + apply list_elem_of_fmap_2, order_by_elem, elem_of_app. right. now left.
    + rewrite length_map, length_order_by, length_app. cbn. lia.
Qed.

Lemma created_petugas_is_listed_witness :
  create_petugas no_fault
    (Some (JObj [("nama_petugas", JStr "Budi"); ("jabatan", JNull)]))
    (add_petugas sample_db (PetugasRec 50 "Budi" None))
  = (Ok (Response 201
           (JsonBody (JObj [("id_petugas",
                             JInt (ai_petugas (add_petugas sample_db
                                                 (PetugasRec 50 "Budi" None))))]))),
     add_petugas (add_petugas sample_db (PetugasRec 50 "Budi" None))
       (PetugasRec (ai_petugas (add_petugas sample_db (PetugasRec 50 "Budi" None)))
          "Budi" None))
  /\ exists data,
       list_petugas []
         (add_petugas (add_petugas sample_db (PetugasRec 50 "Budi" None))
            (PetugasRec (ai_petugas (add_petugas sample_db (PetugasRec 50 "Budi" None)))
               "Budi" None))
       = Ok (Response 200 (RowsBody data))
       /\ petugas_dict
            (PetugasRec (ai_petugas (add_petugas sample_db (PetugasRec 50 "Budi" None)))
               "Budi" None) ∈ data
       /\ length data = S (length (t_petugas (add_petugas sample_db
                                                (PetugasRec 50 "Budi" None)))).
Proof.
  apply (created_petugas_is_listed no_fault
           [("nama_petugas", JStr "Budi"); ("jabatan", JNull)]
           (add_petugas sample_db (PetugasRec 50 "Budi" None)) "Budi" None []);
    try reflexivity; try discriminate.
  cbn. lia.
Defined.

(** X21.  An activity type with a name of at most 120 characters is always
    created, under the table's counter, and is in the list of activity types
    afterwards. *)
Theorem created_kegiatan_is_listed (fault : nat -> bool) (members : list (string * json))
    (d : db) (s : string) (q : args) :
  member "jenis_kegiatan" members = Some (JStr s) ->
  s <> "" -> (String.length s <= 120)%nat ->
  fault 0%nat = false -> fault 1%nat = false ->
  create_kegiatan fault (Some (JObj members)) d
  = (Ok (Response 201 (JsonBody (JObj [("id_kegiatan", JInt (ai_kegiatan d))]))),
     add_kegiatan d (KegiatanRec (ai_kegiatan d) s))
  /\ exists data,
       list_kegiatan q (add_kegiatan d (KegiatanRec (ai_kegiatan d) s))
       = Ok (Response 200 (RowsBody data))
       /\ kegiatan_dict (KegiatanRec (ai_kegiatan d) s) ∈ data
       /\ length data = S (length (t_kegiatan d)).
Proof.
  intros Hnama Hs Hlen F0 F1. split.
  - unfold create_kegiatan. cbn [json_get rbind].
    rewrite Hnama. simpl (default _ (Some _)). rewrite (json_truthy_str s Hs). cbn [negb].
    rewrite (execute_row_ok fault _ d (ai_kegiatan d)
               (add_kegiatan d (KegiatanRec (ai_kegiatan d) s)) F0 F1); [reflexivity|].
    cbn [insert_row]. now rewrite (sql_varchar_required_str 120 s Hlen).
  - eexists. split; [reflexivity|]. unfold add_kegiatan. cbn [t_kegiatan]. split.
    + apply list_elem_of_fmap_2, order_by_elem, elem_of_app. right. now left.
    + rewrite length_map, length_order_by, length_app. cbn. lia.
Qed.

Lemma created_kegiatan_is_listed_witness :
  create_kegiatan no_fault (Some (JObj [("jenis_kegiatan", JStr "Penyiraman")])) sample_db
  = (Ok (Response 201 (JsonBody (JObj [("id_kegiatan", JInt (ai_kegiatan sample_db))]))),
     add_kegiatan sample_db (KegiatanRec (ai_kegiatan sample_db) "Penyiraman"))
  /\ exists data,
       list_kegiatan []
         (add_kegiatan sample_db (KegiatanRec (ai_kegiatan sample_db) "Penyiraman"))
       = Ok (Response 200 (RowsBody data))
       /\ kegiatan_dict (KegiatanRec (ai_kegiatan sample_db) "Penyiraman") ∈ data
       /\ length data = S (length (t_kegiatan sample_db)).
Proof.
  apply (created_kegiatan_is_listed no_fault [("jenis_kegiatan", JStr "Penyiraman")]
           sample_db "Penyiraman" []);
    try reflexivity; try discriminate.
  cbn. lia.
Defined.

(** ** Park names *)

Lemma park_names_insert_row (i : insert) (d : db) (id : Z) (d' : db) :
  insert_row i d = Ok (id, d') ->
  NoDup (map (fun p => collate_key (tm_nama p)) (t_taman d)) ->
  NoDup (map (fun p => collate_key (tm_nama p)) (t_taman d')).
Proof.
  intros Hi Hd. apply insert_row_ok in Hi.
  destruct i as [nama luas lokasi | nama jabatan | jenis | k nu ni jn].
  - destruct Hi as (nm & ls & lk & _ & _ & _ & Hdup & _ & ->).
    unfold add_taman. cbn [t_taman]. rewrite map_app. apply NoDup_app.
    split; [exact Hd|]. split; [|apply NoDup_singleton].
    intros key Hkey Hnew. cbn [map tm_nama] in Hnew.
    apply list_elem_of_singleton in Hnew. subst key.
    apply list_elem_of_fmap in Hkey as (p & Hp & Hin).
    rewrite (existsb_elem _ _ p Hin) in Hdup; [discriminate|].
    rewrite Hp. apply String.eqb_refl.
  - destruct Hi as (nm & jb & _ & _ & _ & ->). exact Hd.
  - destruct Hi as (jn & _ & _ & ->). exact Hd.
  - destruct Hi as (a & b & c & _ & _ & _ & _ & _ & _ & ->). exact Hd.
Qed.

(** X22.  Park names stay unique: when no two parks of the store have the same
    name up to case and trailing spaces, the same holds after any create
    request and after any bulk wipe, whatever the request and whatever the
    driver does. *)
Theorem park_names_stay_unique (fault : nat -> bool) (now : datetime)
    (req : option json) (d : db) :
  NoDup (map (fun p => collate_key (tm_nama p)) (t_taman d)) ->
  NoDup (map (fun p => collate_key (tm_nama p)) (t_taman (create_taman fault req d).2))
  /\ NoDup (map (fun p => collate_key (tm_nama p)) (t_taman (create_petugas fault req d).2))
  /\ NoDup (map (fun p => collate_key (tm_nama p)) (t_taman (create_kegiatan fault req d).2))
  /\ NoDup (map (fun p => collate_key (tm_nama p)) (t_taman (create_tanaman fault req d).2))
  /\ NoDup (map (fun p => collate_key (tm_nama p))
              (t_taman (create_laporan fault now req d).2))
  /\ NoDup (map (fun p => collate_key (tm_nama p))
              (t_taman (admin_clear_all fault now req d).2)).
Proof.
  intros H. repeat split.
  - destruct (create_taman_store fault req d) as [-> | (i & id & Hi)];
      [exact H | exact (park_names_insert_row i d id _ Hi H)].
  - destruct (create_petugas_store fault req d) as [-> | (i & id & Hi)];
      [exact H | exact (park_names_insert_row i d id _ Hi H)].
  - destruct (create_kegiatan_store fault req d) as [-> | (i & id & Hi)];
      [exact H | exact (park_names_insert_row i d id _ Hi H)].
  - destruct (create_tanaman_store fault req d) as [-> | (i & id & Hi)];
      [exact H | exact (park_names_insert_row i d id _ Hi H)].
  - destruct (create_laporan_store fault now req d) as [-> | (row & -> & _ & _)];
      exact H.
  - destruct (admin_clear_all_store fault now req d) as [-> | (_ & _ & _ & _ & ->)];
      [exact H | apply NoDup_nil_2].
Qed.

Lemma park_names_stay_unique_witness :
  NoDup (map (fun p => collate_key (tm_nama p))
           (t_taman (create_taman no_fault
                       (Some (JObj [("nama_taman", JStr "taman a ")])) sample_db).2))
  /\ NoDup (map (fun p => collate_key (tm_nama p))
              (t_taman (create_petugas no_fault
                          (Some (JObj [("nama_taman", JStr "taman a ")])) sample_db).2))
  /\ NoDup (map (fun p => collate_key (tm_nama p))
              (t_taman (create_kegiatan no_fault
                          (Some (JObj [("nama_taman", JStr "taman a ")])) sample_db).2))
  /\ NoDup (map (fun p => collate_key (tm_nama p))
              (t_taman (create_tanaman no_fault
                          (Some (JObj [("nama_taman", JStr "taman a ")])) sample_db).2))
  /\ NoDup (map (fun p => collate_key (tm_nama p))
              (t_taman (create_laporan no_fault sample_now
                          (Some (JObj [("nama_taman", JStr "taman a ")])) sample_db).2))
  /\ NoDup (map (fun p => collate_key (tm_nama p))
              (t_taman (admin_clear_all no_fault sample_now
                          (Some (JObj [("nama_taman", JStr "taman a ")])) sample_db).2)).
Proof.
  apply (park_names_stay_unique no_fault sample_now
           (Some (JObj [("nama_taman", JStr "taman a ")])) sample_db).
  apply (bool_decide_unpack _). vm_compute. exact I.
Defined.

(** ** Creating after a wipe *)

(** X23.  The first park created after a successful bulk wipe gets key 1 when
    the wipe reset the counters, and the key the counter stood at before the
    wipe when it did not: the wipe alone does not give the keys back.  No
    name is refused as a duplicate, since the table is empty. *)
Theorem create_taman_after_wipe (fault : nat -> bool) (now : datetime)
    (wipe : list (string * json)) (c : json) (members : list (string * json))
    (d : db) (s : string) (lk : option string) :
  member "confirm" wipe = Some c -> json_truthy c = true ->
  (forall n : nat, fault n = false) ->
  member "nama_taman" members = Some (JStr s) ->
  s <> "" -> (String.length s <= 100)%nat ->
  is_blank (default JNull (member "luas_taman" members)) = true ->
  sql_varchar 255 (default JNull (member "lokasi" members)) = Ok lk ->
  let reset_ai := json_truthy (default (JBool true) (member "reset_auto_increment" wipe)) in
  let key := if reset_ai then 1%Z else ai_taman d in
  create_taman fault (Some (JObj members))
    (admin_clear_all fault now (Some (JObj wipe)) d).2
  = (Ok (Response 201 (JsonBody (JObj [("id_taman", JInt key)]))),
     add_taman (wiped reset_ai d) (TamanRec key s None lk)).
Proof.
  intros Hm Hc Hf Hnama Hs Hlen Hluas Hlk reset_ai key.
  rewrite (admin_clear_all_confirmed fault now wipe c d Hm Hc). cbv zeta. fold reset_ai.
  destruct (clear_all_block_succeeds fault now reset_ai d Hf) as (k & -> & Hdb & _).
  cbn [snd]. unfold conn_close. rewrite Hdb.
  rewrite (create_taman_inserts fault members (wiped reset_ai d) s None lk);
    auto; subst key; destruct reset_ai; reflexivity.
Qed.

Lemma create_taman_after_wipe_witness :
  create_taman no_fault (Some (JObj [("nama_taman", JStr "Taman A")]))
    (admin_clear_all no_fault sample_now
       (Some (JObj [("confirm", JBool true); ("reset_auto_increment", JBool false)]))
       sample_db).2
  = (Ok (Response 201 (JsonBody (JObj [("id_taman", JInt (ai_taman sample_db))]))),
     add_taman (wiped false sample_db) (TamanRec (ai_taman sample_db) "Taman A" None None)).
Proof.
  apply (create_taman_after_wipe no_fault sample_now
           [("confirm", JBool true); ("reset_auto_increment", JBool false)] (JBool true)
           [("nama_taman", JStr "Taman A")] sample_db "Taman A" None);
    try reflexivity; try discriminate.
  cbn. lia.
Defined.

(** ** The account service *)

Lemma or_empty_str (s : string) : or_empty (JStr s) = JStr s.
Proof. destruct s; reflexivity. Qed.

Lemma json_truthy_members (k : string) (members : list (string * json)) (v : json) :
  member k members = Some v -> json_truthy (JObj members) = true.
Proof. destruct members; [discriminate | reflexivity]. Qed.

Lemma find_snoc_new {A : Type} (f : A -> bool) (l : list A) (x : A) :
  existsb f l = false -> f x = true -> find f (l ++ [x])%list = Some x.
Proof.
  intros Hl Hx. induction l as [|y l IH]; cbn in *; [now rewrite Hx|].
  apply orb_false_iff in Hl as [-> Hl]. auto.
Qed.

Lemma find_elem {A : Type} (f : A -> bool) (l : list A) (x : A) :
  find f l = Some x -> x ∈ l /\ f x = true.
Proof.
  intros H. apply find_some in H as [Hin Hf]. split; [|exact Hf].
  now apply list_elem_of_In.
Qed.

(** What [register] reads from an object with a text user name, a text
    password and a text name or none. *)
Lemma register_reads (members : list (string * json)) (un pw nm : string) :
  member "username" members = Some (JStr un) ->
  member "password" members = Some (JStr pw) ->
  (member "name" members = Some (JStr nm) \/ member "name" members = None /\ nm = "") ->
  (x <- json_get (json_or_empty (Some (JObj members))) "username" JNull;;
   username <- json_strip (or_empty x);;
   y <- json_get (json_or_empty (Some (JObj members))) "password" JNull;;
   z <- json_get (json_or_empty (Some (JObj members))) "name" JNull;;
   name <- json_strip (or_empty z);;
   Ok (username, or_empty y, name))
  = Ok (py_strip un, JStr pw, py_strip nm).
Proof.
  intros Hun Hpw Hnm. unfold json_or_empty.
  rewrite (json_truthy_members _ _ _ Hun). cbn [json_get rbind].
  rewrite Hun, Hpw. simpl (default _ (Some _)). rewrite !or_empty_str.
  cbn [json_strip rbind].
  destruct Hnm as [-> | [-> ->]]; simpl (default _ _);
    [rewrite or_empty_str|]; reflexivity.
Qed.

(** X24.  A user who registered can log in: the registration answers 201 with a
    key above every key the table has held, and a login with the same user
    name (up to surrounding whitespace) and the same password then answers
    200 with that key and user name.  The name shown is the registered name,
    or the user name when the name was left empty, for which the
    registration itself answers an empty name. *)
Theorem register_then_login (generate_password_hash : json -> result string)
    (check_password_hash : string -> json -> result bool)
    (members : list (string * json)) (u : users) (un pw nm ph un' : string) :
  member "username" members = Some (JStr un) -> py_strip un <> "" ->
  member "password" members = Some (JStr pw) -> (6 <= String.length pw)%nat ->
  (member "name" members = Some (JStr nm) \/ member "name" members = None /\ nm = "") ->
  generate_password_hash (JStr pw) = Ok ph ->
  check_password_hash ph (JStr pw) = Ok true ->
  existsb (fun r => String.eqb (us_username r) (py_strip un)) (t_users u) = false ->
  py_strip un' = py_strip un ->
  exists uid u',
    register generate_password_hash (Some (JObj members)) u
    = (Ok (Response 201
             (JsonBody (JObj [("user", user_body uid (py_strip un) (py_strip nm))]))), u')
    /\ Forall (fun r => (us_id r < uid)%Z) (t_users u)
    /\ login check_password_hash
         (Some (JObj [("username", JStr un'); ("password", JStr pw)])) u'
       = Ok (Response 200
               (JsonBody (JObj [("user",
                                 user_body uid (py_strip un)
                                   (if String.eqb (py_strip nm) "" then py_strip un
                                    else py_strip nm));
                                ("token", JNull)]))).
Proof.
  intros Hun Hne Hpw Hlen Hnm Hgen Hcheck Hfree Hun'.
  assert (Hnot : String.eqb (py_strip un) "" = false) by now apply String.eqb_neq.
  assert (Hpwt : json_truthy (JStr pw) = true) by (destruct pw; [cbn in Hlen; lia | reflexivity]).
  eexists _, _. split; [|split].
  - unfold register. rewrite (register_reads members un pw nm Hun Hpw Hnm).
    rewrite Hnot, Hpwt. cbn [orb negb json_len].
    destruct (Z.ltb_spec (Z.of_nat (String.length pw)) 6) as [?|_]; [lia|].
    rewrite Hgen. unfold insert_user. rewrite Hfree. reflexivity.
  - apply Forall_forall. intros r Hr.
    assert (us_id r <= foldr Z.max 0 (map us_id (t_users u)))%Z; [|lia].
    clear -Hr. induction Hr as [r l | r y l Hr IH]; cbn; lia.
  - unfold login, json_or_empty. cbn [json_truthy json_get rbind member].
    cbn. rewrite !or_empty_str. cbn [json_strip rbind]. rewrite Hun', Hnot, Hpwt.
    cbn [orb negb t_users].
    rewrite (find_snoc_new _ _ _ Hfree) by (cbn; apply String.eqb_refl).
    cbn [us_password_hash rbind]. rewrite Hcheck. cbn [rbind us_id us_username us_name].
    destruct (String.eqb (py_strip nm) ""); reflexivity.
Qed.

Lemma register_then_login_witness :
  exists uid u',
    register sample_hash
      (Some (JObj [("username", JStr "  sari "); ("password", JStr "kebun123")]))
      sample_users
    = (Ok (Response 201 (JsonBody (JObj [("user", user_body uid "sari" "")]))), u')
    /\ Forall (fun r => (us_id r < uid)%Z) (t_users sample_users)
    /\ login sample_check
         (Some (JObj [("username", JStr "sari"); ("password", JStr "kebun123")])) u'
       = Ok (Response 200
               (JsonBody (JObj [("user", user_body uid "sari" "sari"); ("token", JNull)]))).
Proof.
  apply (register_then_login sample_hash sample_check
           [("username", JStr "  sari "); ("password", JStr "kebun123")]
           sample_users "  sari " "kebun123" "" "plain$kebun123" "sari");
    try reflexivity; try discriminate.
  - cbn. lia.
  - right. split; reflexivity.
Defined.

(** What a registration does to the table: nothing, or one row appended
    with a user name no row has and a key above every key of the table, which
    is then answered with 201. *)
Lemma register_outcome (generate_password_hash : json -> result string)
    (req : option json) (u : users) :
  ((register generate_password_hash req u).2 = u
   /\ forall b, (register generate_password_hash req u).1 <> Ok (Response 201 b))
  \/ exists row,
       (register generate_password_hash req u).2
       = Users (t_users u ++ [row])%list (us_id row)
       /\ (register generate_password_hash req u).1
          = Ok (Response 201
                  (JsonBody (JObj [("user",
                                    user_body (us_id row) (us_username row)
                                      (default "" (us_name row)))])))
       /\ Forall (fun r => (us_id r < us_id row)%Z /\ us_username r <> us_username row)
            (t_users u)
       /\ us_username row <> "" /\ us_name row <> Some "".
Proof.
  unfold register.
  destruct (x <- json_get (json_or_empty req) "username" JNull;; _)
    as [[[username password] name]|e]; [|left; split; [reflexivity | discriminate]].
  destruct (String.eqb username "") eqn:Hname;
    [left; split; [reflexivity | discriminate]|].
  destruct (negb (json_truthy password));
    [left; split; [reflexivity | discriminate]|].
  cbn [orb].
  destruct (json_len password) as [n|e]; [|left; split; [reflexivity | discriminate]].
  destruct (Z.ltb n 6); [left; split; [reflexivity | discriminate]|].
  destruct (generate_password_hash password) as [ph|e];
    [|left; split; [reflexivity | discriminate]].
  unfold insert_user.
  destruct (existsb _ (t_users u)) eqn:Hfree;
    [left; split; [reflexivity | discriminate]|].
  right.
  exists (UserRec (Z.max (seq_users u) (foldr Z.max 0 (map us_id (t_users u))) + 1)
            username ph (if String.eqb name "" then None else Some name)).
  cbn [fst snd us_id us_username us_name].
  split; [reflexivity|]. split; [|split; [|split]].
  - destruct (String.eqb name "") eqn:E; [|reflexivity].
    apply String.eqb_eq in E. now subst name.
  - apply Forall_forall. intros r Hr. split.
    + assert (us_id r <= foldr Z.max 0 (map us_id (t_users u)))%Z; [|lia].
      clear -Hr. induction Hr as [r l | r y l Hr IH]; cbn; lia.
    + intros E. rewrite (existsb_elem _ _ r Hr) in Hfree; [discriminate|].
      now apply String.eqb_eq.
  - now apply String.eqb_neq.
  - destruct (String.eqb name "") eqn:E; [discriminate|].
    apply String.eqb_neq in E. congruence.
Qed.

(** X25.  User names and keys stay distinct: when no two users of the table
    share a user name or a key, the same holds after any registration,
    whatever the request and whatever the hashing function does; a request
    that is not answered with 201 leaves the table as it was. *)
Theorem register_keeps_users_distinct (generate_password_hash : json -> result string)
    (req : option json) (u : users) :
  NoDup (map us_username (t_users u)) ->
  NoDup (map us_id (t_users u)) ->
  NoDup (map us_username (t_users (register generate_password_hash req u).2))
  /\ NoDup (map us_id (t_users (register generate_password_hash req u).2))
  /\ ((forall b, (register generate_password_hash req u).1 <> Ok (Response 201 b)) ->
      (register generate_password_hash req u).2 = u).
Proof.
  intros Hnames Hids.
  destruct (register_outcome generate_password_hash req u)
    as [[-> Hno] | (row & -> & Hanswer & Hrow & _)].
  - auto.
  - cbn [t_users]. rewrite !map_app. split; [|split].
    + apply NoDup_app. split; [exact Hnames|]. split; [|apply NoDup_singleton].
      intros name Hname Hnew. cbn [map] in Hnew. apply list_elem_of_singleton in Hnew.
      subst name. apply list_elem_of_fmap in Hname as (r & Hr & Hin).
      apply (proj1 (Forall_forall _ _) Hrow) in Hin. destruct Hin as [_ Hin]. congruence.
    + apply NoDup_app. split; [exact Hids|]. split; [|apply NoDup_singleton].
      intros id Hid Hnew. cbn [map] in Hnew. apply list_elem_of_singleton in Hnew.
      subst id. apply list_elem_of_fmap in Hid as (r & Hr & Hin).
      apply (proj1 (Forall_forall _ _) Hrow) in Hin. destruct Hin as [Hin _]. lia.
    + intros Hno. now destruct (Hno _ Hanswer).
Qed.

Lemma register_keeps_users_distinct_witness :
  NoDup (map us_username
           (t_users (register sample_hash
                       (Some (JObj [("username", JStr "budi"); ("password", JStr "kebun123")]))
                       sample_users).2))
  /\ NoDup (map us_id
              (t_users (register sample_hash
                          (Some (JObj [("username", JStr "budi");
                                       ("password", JStr "kebun123")]))
                          sample_users).2))
  /\ ((forall b,
          (register sample_hash
             (Some (JObj [("username", JStr "budi"); ("password", JStr "kebun123")]))
             sample_users).1 <> Ok (Response 201 b)) ->
      (register sample_hash
         (Some (JObj [("username", JStr "budi"); ("password", JStr "kebun123")]))
         sample_users).2 = sample_users).
Proof.
  apply (register_keeps_users_distinct sample_hash
           (Some (JObj [("username", JStr "budi"); ("password", JStr "kebun123")]))
           sample_users).
  - apply (bool_decide_unpack _). vm_compute. exact I.
  - apply (bool_decide_unpack _). vm_compute. exact I.
Defined.

(** X26.  A user name that is taken is refused with 409 and the table is as it
    was.  The comparison is exact once the surrounding whitespace of the
    request is removed: a user name that differs in case only is another
    user. *)
Theorem register_rejects_taken_username (generate_password_hash : json -> result string)
    (members : list (string * json)) (u : users) (un pw nm ph : string) (row : user_rec) :
  member "username" members = Some (JStr un) -> py_strip un <> "" ->
  member "password" members = Some (JStr pw) -> (6 <= String.length pw)%nat ->
  (member "name" members = Some (JStr nm) \/ member "name" members = None /\ nm = "") ->
  generate_password_hash (JStr pw) = Ok ph ->
  row ∈ t_users u -> us_username row = py_strip un ->
  register generate_password_hash (Some (JObj members)) u
  = (Ok (Response 409 (error_body "username sudah digunakan")), u).
Proof.
  intros Hun Hne Hpw Hlen Hnm Hgen Hrow Hname.
  assert (Hnot : String.eqb (py_strip un) "" = false) by now apply String.eqb_neq.
  assert (Hpwt : json_truthy (JStr pw) = true) by (destruct pw; [cbn in Hlen; lia | reflexivity]).
  unfold register. rewrite (register_reads members un pw nm Hun Hpw Hnm).
  rewrite Hnot, Hpwt. cbn [orb negb json_len].
  destruct (Z.ltb_spec (Z.of_nat (String.length pw)) 6) as [?|_]; [lia|].
  rewrite Hgen. unfold insert_user.
  rewrite (existsb_elem _ _ row Hrow); [reflexivity|].
  rewrite Hname. apply String.eqb_refl.
Qed.

Lemma register_rejects_taken_username_witness :
  register sample_hash
    (Some (JObj [("username", JStr " Budi"); ("password", JStr "kebun123")])) sample_users
  = (Ok (Response 409 (error_body "username sudah digunakan")), sample_users).
Proof.
  apply (register_rejects_taken_username sample_hash
           [("username", JStr " Budi"); ("password", JStr "kebun123")] sample_users
           " Budi" "kebun123" "" "plain$kebun123"
           (UserRec 4 "Budi" "plain$taman-kota" (Some "Budi Santoso")));
    try reflexivity; try discriminate.
  - cbn. lia.
  - right. split; reflexivity.
  - unfold sample_users. cbn [t_users]. right. left.
Defined.

(** X27.  A login is answered with 200 only for a user of the table: the row
    with the user name of the request, whose stored hash the library accepted
    for the password of the request; the answer carries that row's key and
    user name, and its name or, without one, its user name. *)
Theorem login_sound (check_password_hash : string -> json -> result bool)
    (req : option json) (u : users) (b : body) :
  login check_password_hash req u = Ok (Response 200 b) ->
  exists row x y username,
    row ∈ t_users u
    /\ json_get (json_or_empty req) "username" JNull = Ok x
    /\ json_strip (or_empty x) = Ok username
    /\ us_username row = username /\ username <> ""
    /\ json_get (json_or_empty req) "password" JNull = Ok y
    /\ json_truthy y = true
    /\ check_password_hash (us_password_hash row) y = Ok true
    /\ b = JsonBody (JObj [("user",
                            user_body (us_id row) (us_username row)
                              (default (us_username row) (us_name row)));
                           ("token", JNull)]).
Proof.
  unfold login.
  destruct (json_get (json_or_empty req) "username" JNull) as [x|e] eqn:Hx;
    [|discriminate]. cbn [rbind].
  destruct (json_strip (or_empty x)) as [username|e] eqn:Hname; [|discriminate].
  cbn [rbind].
  destruct (json_get (json_or_empty req) "password" JNull) as [y|e] eqn:Hy;
    [|discriminate]. cbn [rbind].
  destruct (String.eqb username "") eqn:Hne; [discriminate|]. cbn [orb].
  destruct (json_truthy (or_empty y)) eqn:Hpw; [|discriminate]. cbn [negb].
  destruct (find _ (t_users u)) as [row|] eqn:Hfind; [|discriminate].
  destruct (check_password_hash (us_password_hash row) (or_empty y)) as [[|]|e] eqn:Hc;
    cbn [rbind]; try discriminate.
  intros [= <-]. apply find_elem in Hfind as [Hin Heq]. apply String.eqb_eq in Heq.
  assert (Hy' : or_empty y = y /\ json_truthy y = true).
  { unfold or_empty in *. destruct (json_truthy y); [auto | discriminate]. }
  destruct Hy' as [Hy1 Hy2]. rewrite Hy1 in Hc.
  exists row, x, y, username. apply String.eqb_neq in Hne. auto 12.
Qed.

Lemma login_sound_witness :
  exists row x y username,
    row ∈ t_users sample_users
    /\ json_get (json_or_empty
                   (Some (JObj [("username", JStr "Budi "); ("password", JStr "taman-kota")])))
         "username" JNull = Ok x
    /\ json_strip (or_empty x) = Ok username
    /\ us_username row = username /\ username <> ""
    /\ json_get (json_or_empty
                   (Some (JObj [("username", JStr "Budi "); ("password", JStr "taman-kota")])))
         "password" JNull = Ok y
    /\ json_truthy y = true
    /\ sample_check (us_password_hash row) y = Ok true
    /\ JsonBody (JObj [("user", user_body 4 "Budi" "Budi Santoso"); ("token", JNull)])
       = JsonBody (JObj [("user",
                          user_body (us_id row) (us_username row)
                            (default (us_username row) (us_name row)));
                         ("token", JNull)]).
Proof.
  apply (login_sound sample_check
           (Some (JObj [("username", JStr "Budi "); ("password", JStr "taman-kota")]))
           sample_users
           (JsonBody (JObj [("user", user_body 4 "Budi" "Budi Santoso"); ("token", JNull)]))).
  reflexivity.
Defined.

(** ** The report list *)

Lemma lex_leb_total (a b : list Z) : lex_leb a b = true \/ lex_leb b a = true.
Proof.
  revert b. induction a as [|x a IH]; intros [|y b]; cbn; auto.
  destruct (Z.ltb_spec x y), (Z.ltb_spec y x); auto; lia.
Qed.

Lemma lex_leb_trans (a b c : list Z) :
  length a = length b -> length b = length c ->
  lex_leb a b = true -> lex_leb b c = true -> lex_leb a c = true.
Proof.
  revert b c. induction a as [|x a IH]; intros [|y b] [|z c]; cbn; try discriminate; auto.
  intros [= Hab] [= Hbc].
  destruct (Z.ltb_spec x y), (Z.ltb_spec y x), (Z.ltb_spec y z), (Z.ltb_spec z y),
    (Z.ltb_spec x z), (Z.ltb_spec z x); try discriminate; auto; try lia.
  now apply IH.
Qed.

Lemma datetime_leb_total (a b : datetime) :
  datetime_leb a b = true \/ datetime_leb b a = true.
Proof. apply lex_leb_total. Qed.

Lemma datetime_leb_trans (a b c : datetime) :
  datetime_leb a b = true -> datetime_leb b c = true -> datetime_leb a c = true.
Proof. now apply lex_leb_trans. Qed.

Lemma StronglySorted_take {A : Type} (R : A -> A -> Prop) (n : nat) (l : list A) :
  StronglySorted R l -> StronglySorted R (take n l).
Proof.
  intros H. revert n. induction H as [|x l Hl IH Hx]; intros [|n]; cbn; try constructor.
  - apply IH.
  - now apply Forall_take.
Qed.

(** The rows of the join over a sorted list of reports: those of the
    reports whose three references exist, in the same order. *)
Lemma joined_sorted (d : db) (R : laporan_rec -> laporan_rec -> Prop)
    (l : list laporan_rec) :
  StronglySorted R l ->
  exists shown,
    Forall2 (fun x r => laporan_join d x = Some r) shown (omap (laporan_join d) l)
    /\ StronglySorted R shown
    /\ Forall (fun x => x ∈ l) shown.
Proof.
  induction 1 as [|x rest Hl IH Hx]; [exists []; repeat constructor|].
  destruct IH as (shown & Hrows & Hsorted & Hin).
  cbn [omap list_omap]. destruct (laporan_join d x) as [r|] eqn:Hj.
  - exists (x :: shown). split; [now constructor|]. split.
    + constructor; [exact Hsorted|].
      apply Forall_forall. intros y Hy.
      apply (proj1 (Forall_forall _ _) Hx). exact (proj1 (Forall_forall _ _) Hin y Hy).
    + constructor; [now left|]. eapply Forall_impl; [exact Hin|]. intros y Hy. now right.
  - exists shown. split; [exact Hrows|]. split; [exact Hsorted|].
    eapply Forall_impl; [exact Hin|]. intros y Hy. now right.
Qed.

Lemma mapM_Forall2 {A B : Type} (f : A -> result B) (l : list A) (out : list B) :
  mapM f l = Ok out -> Forall2 (fun a b => f a = Ok b) l out.
Proof.
  revert out. induction l as [|a l IH]; intros out H; cbn in H.
  - injection H as <-. constructor.
  - destruct (f a) as [b|e] eqn:Fa; [|discriminate]. cbn in H.
    destruct (mapM f l) as [bs|e]; [|discriminate]. cbn in H. injection H as <-.
    constructor; auto.
Qed.

(** X28.  The report list shows reports of the store, the newest first: its
    rows are, in order, the rows of the join for a list of reports of the
    store that is sorted by timestamp, the latest first, each with its
    timestamp written as text; there are never more rows than the limit. *)
Theorem list_laporan_newest_first (a : args) (d : db) (n : Z) :
  default 20 (args_int a "limit") = n -> (0 <= n)%Z ->
  exists (shown : list laporan_rec) (data : list row),
    list_laporan a d = Ok (Response 200 (RowsBody data))
    /\ Forall2 (fun x R => exists r,
                    laporan_join d x = Some r
                    /\ R = <["tanggal" := VStr (isoformat_seconds (lp_tanggal x))]> r)
         shown data
    /\ StronglySorted (fun x y => datetime_leb (lp_tanggal y) (lp_tanggal x) = true) shown
    /\ Forall (fun x => x ∈ t_laporan d) shown
    /\ (Z.of_nat (length data) <= n)%Z.
Proof.
  intros Hlim Hn.
  destruct (list_laporan_capped a d n Hlim Hn) as (data & Hdata & Hlen).
  destruct (joined_sorted d
              (fun x y => datetime_leb (lp_tanggal y) (lp_tanggal x) = true)
              (order_by (fun x y => datetime_leb (lp_tanggal y) (lp_tanggal x)) (t_laporan d)))
    as (shown & Hrows & Hsorted & Hin).
  { apply (order_by_sorted (fun x y => datetime_leb (lp_tanggal y) (lp_tanggal x))).
    - intros x y. apply datetime_leb_total.
    - intros x y z H1 H2. exact (datetime_leb_trans _ _ _ H2 H1). }
  exists (take (Z.to_nat n) shown), data. split; [exact Hdata|].
  split; [|split; [|split]].
  - clear Hlen. revert Hdata. unfold list_laporan. rewrite Hlim.
    unfold rows, run_query, sql_limit.
    destruct (Z.ltb_spec n 0) as [?|_]; [lia|]. cbn [rbind].
    destruct (mapM _ _) as [out|e] eqn:Hout; [|discriminate]. cbn [rbind].
    intros [= <-]. apply mapM_Forall2 in Hout.
    apply (Forall2_take _ _ _ (Z.to_nat n)) in Hrows.
    revert Hrows Hout. generalize (take (Z.to_nat n) shown).
    generalize (take (Z.to_nat n)
                  (omap (laporan_join d)
                     (order_by (fun x y => datetime_leb (lp_tanggal y) (lp_tanggal x))
                        (t_laporan d)))).
    intros rs xs Hrows. revert out.
    induction Hrows as [|x r xs rs Hj Hrows IH]; intros out Hout.
    + apply Forall2_nil_inv_l in Hout. subst out. constructor.
    + apply Forall2_cons_inv_l in Hout as (R & out' & HR & Hout & ->).
      constructor; [|now apply IH].
      exists r. split; [exact Hj|].
      unfold getitem in HR. rewrite (laporan_join_tanggal d x r Hj) in HR.
      cbn in HR. now injection HR as <-.
  - now apply StronglySorted_take.
  - apply Forall_take. eapply Forall_impl; [exact Hin|].
    intros x Hx. now apply order_by_elem in Hx.
  - exact Hlen.
Qed.

Lemma list_laporan_newest_first_witness :
  exists (shown : list laporan_rec) (data : list row),
    list_laporan [("limit", "5")] sample_db = Ok (Response 200 (RowsBody data))
    /\ Forall2 (fun x R => exists r,
                    laporan_join sample_db x = Some r
                    /\ R = <["tanggal" := VStr (isoformat_seconds (lp_tanggal x))]> r)
         shown data
    /\ StronglySorted (fun x y => datetime_leb (lp_tanggal y) (lp_tanggal x) = true) shown
    /\ Forall (fun x => x ∈ t_laporan sample_db) shown
    /\ (Z.of_nat (length data) <= 5)%Z.
Proof.
  apply (list_laporan_newest_first [("limit", "5")] sample_db 5); [reflexivity | lia].
Defined.

Lemma stringify_rows (data : list row) :
  Forall (fun r : row => exists t, r !! "tanggal" = Some (VDatetime t)) data ->
  mapM (fun r : row =>
          v <- getitem r "tanggal";;
          Ok (match v with
              | VDatetime t => <["tanggal" := VStr (isoformat_seconds t)]> r
              | _ => r
              end)) data
  = Ok (map (fun r : row =>
               match get r "tanggal" with
               | VDatetime t => <["tanggal" := VStr (isoformat_seconds t)]> r
               | _ => r
               end) data).
Proof.
  induction 1 as [|r data [t Ht] _ IH]; [reflexivity|].
  cbn [mapM map]. rewrite IH. unfold getitem, get. rewrite Ht. reflexivity.
Qed.

(** X29.  The combined report fetch is the five lists in one answer: under its
    five keys the bundle of [report_all] holds exactly the rows that the
    lists of parks, staff, activity types, all plants and reports answer on
    the same store, the report list being asked with the same limit. *)
Theorem report_all_bundles_the_lists (a q : args) (d : db) (n : Z) :
  default 100000 (args_int a "limit") = n ->
  default 20 (args_int q "limit") = n ->
  (0 <= n)%Z ->
  exists parks staff kinds plants reports : list row,
    list_taman q d = Ok (Response 200 (RowsBody parks))
    /\ list_petugas q d = Ok (Response 200 (RowsBody staff))
    /\ list_kegiatan q d = Ok (Response 200 (RowsBody kinds))
    /\ list_tanaman_all q d = Ok (Response 200 (RowsBody plants))
    /\ list_laporan q d = Ok (Response 200 (RowsBody reports))
    /\ report_all a d
       = Ok (Response 200
               (BundleBody (list_to_map [("taman", parks); ("petugas", staff);
                                         ("kegiatan", kinds); ("tanaman", plants);
                                         ("laporan", reports)]))).
Proof.
  intros Ha Hq Hn.
  destruct (select_laporan_capped n d Hn) as (data & Hsel & _ & Hts).
  do 5 eexists.
  split; [reflexivity|]. split; [reflexivity|]. split; [reflexivity|].
  split; [reflexivity|].
  unfold list_laporan, report_all, fetch_bundle. cbv zeta. rewrite Ha, Hq, Hsel.
  cbn [rbind]. rewrite (stringify_rows data Hts). cbn [rbind rows run_query].
  split; reflexivity.
Qed.

Lemma report_all_bundles_the_lists_witness :
  exists parks staff kinds plants reports : list row,
    list_taman [("limit", "7")] sample_db = Ok (Response 200 (RowsBody parks))
    /\ list_petugas [("limit", "7")] sample_db = Ok (Response 200 (RowsBody staff))
    /\ list_kegiatan [("limit", "7")] sample_db = Ok (Response 200 (RowsBody kinds))
    /\ list_tanaman_all [("limit", "7")] sample_db = Ok (Response 200 (RowsBody plants))
    /\ list_laporan [("limit", "7")] sample_db = Ok (Response 200 (RowsBody reports))
    /\ report_all [("limit", "7")] sample_db
       = Ok (Response 200
               (BundleBody (list_to_map [("taman", parks); ("petugas", staff);
                                         ("kegiatan", kinds); ("tanaman", plants);
                                         ("laporan", reports)]))).
Proof.
  apply (report_all_bundles_the_lists [("limit", "7")] [("limit", "7")] sample_db 7);
    [reflexivity | reflexivity | lia].
Defined.

(** ** Timestamps there and back *)

Lemma two_digits_digit_char (x y : Z) :
  (0 <= x <= 9)%Z -> (0 <= y <= 9)%Z ->
  two_digits (digit_char x) (digit_char y) = Some (10 * x + y)%Z.
Proof.
  intros Hx Hy.
  assert (H : bool_decide (two_digits (digit_char x) (digit_char y)
                           = Some (10 * x + y)%Z) = true);
    [|now apply bool_decide_eq_true in H].
  refine (upto_forallb
            (fun y => bool_decide (two_digits (digit_char x) (digit_char y)
                                   = Some (10 * x + y)%Z))
            10 _ y ltac:(lia)).
  refine (upto_forallb
            (fun x => forallb
                        (fun y => bool_decide (two_digits (digit_char x) (digit_char y)
                                               = Some (10 * x + y)%Z))
                        (upto 10))
            10 _ x ltac:(lia)).
  vm_compute. reflexivity.
Qed.

Lemma zpad2_split (n : Z) :
  (0 <= n <= 99)%Z ->
  zpad 2 n = String (digit_char (n / 10)) (String (digit_char (n mod 10)) EmptyString)
  /\ two_digits (digit_char (n / 10)) (digit_char (n mod 10)) = Some n.
Proof.
  intros Hn.
  assert (Hq : (0 <= n / 10 <= 9)%Z) by (Z.div_mod_to_equations; lia).
  assert (Hr : (0 <= n mod 10 <= 9)%Z) by (Z.div_mod_to_equations; lia).
  split.
  - rewrite <- (zpad2_digits _ _ Hq Hr). f_equal. Z.div_mod_to_equations; lia.
  - rewrite (two_digits_digit_char _ _ Hq Hr). f_equal. Z.div_mod_to_equations; lia.
Qed.

Lemma days_in_month_le (y m : Z) : (days_in_month y m <= 31)%Z.
Proof. unfold days_in_month. repeat case_match; lia. Qed.

(** The text of a timestamp of the calendar reads back as that timestamp. *)
Lemma isoformat_datetime_of_string (t : datetime) :
  valid_datetime t = true -> datetime_of_string (isoformat_seconds t) = Some t.
Proof.
  intros Hvalid. pose proof Hvalid as Hv.
  destruct t as [Y M D h m s us]. unfold valid_datetime in Hv.
  cbn [year month day hour minute second microsecond] in Hv.
  repeat (apply andb_true_iff in Hv as [Hv ?]).
  repeat match goal with
         | H : Z.leb _ _ = true |- _ => apply Z.leb_le in H
         | H : Z.eqb _ _ = true |- _ => apply Z.eqb_eq in H
         end.
  pose proof (days_in_month_le Y M). subst us.
  assert (HYh : (0 <= Y / 100 <= 99)%Z) by (Z.div_mod_to_equations; lia).
  assert (HYl : (0 <= Y mod 100 <= 99)%Z) by (Z.div_mod_to_equations; lia).
  destruct (zpad2_split (Y / 100) HYh) as [Fyh Tyh].
  destruct (zpad2_split (Y mod 100) HYl) as [Fyl Tyl].
  destruct (zpad2_split M ltac:(lia)) as [Fmo Tmo].
  destruct (zpad2_split D ltac:(lia)) as [Fdd Tdd].
  destruct (zpad2_split h ltac:(lia)) as [Fhh Thh].
  destruct (zpad2_split m ltac:(lia)) as [Fmi Tmi].
  destruct (zpad2_split s ltac:(lia)) as [Fss Tss].
  assert (HY : zpad 4 Y = zpad 2 (Y / 100) +:+ zpad 2 (Y mod 100)).
  { rewrite <- (zpad4_split _ _ HYh HYl). f_equal. Z.div_mod_to_equations; lia. }
  unfold isoformat_seconds, datetime_of_string.
  cbn [year month day hour minute second].
  rewrite HY, Fyh, Fyl, Fmo, Fdd, Fhh, Fmi, Fss.
  cbn [String.append list_ascii_of_string].
  change (is_char "-" "-") with true. change (is_char " " " ") with true.
  change (is_char ":" ":") with true. cbn [andb].
  rewrite Tyh, Tyl, Tmo, Tdd, Thh, Tmi, Tss. cbn [mbind option_bind].
  replace (100 * (Y / 100) + Y mod 100)%Z with Y by (Z.div_mod_to_equations; lia).
  now rewrite Hvalid.
Qed.

(** X30.  A timestamp can be sent back as the list shows it: creating a report
    with the text that the report list shows for a timestamp of the calendar
    stores that same timestamp. *)
Theorem create_laporan_accepts_listed_timestamp (fault : nat -> bool) (now : datetime)
    (members : list (string * json)) (d : db) (x y z : json) (a b c : Z)
    (txt : option string) (t : datetime) :
  member "id_tanaman" members = Some x -> json_int x = Ok a ->
  member "id_petugas" members = Some y -> json_int y = Ok b ->
  member "id_kegiatan" members = Some z -> json_int z = Ok c ->
  references_exist d a b c = true ->
  sql_text (default (JStr "") (member "isi_laporan" members)) = Ok txt ->
  fault 0%nat = false -> fault 1%nat = false ->
  valid_datetime t = true ->
  member "tanggal" members = Some (JStr (isoformat_seconds t)) ->
  datetime_of_string (isoformat_seconds t) = Some t
  /\ create_laporan fault now (Some (JObj members)) d
     = (Ok (created (ai_laporan d)),
        inserted d (LaporanRec (ai_laporan d) a b c t txt)).
Proof.
  intros Hx Ha Hy Hb Hz Hc Hfk Htxt F0 F1 Hvalid Hts.
  pose proof (isoformat_datetime_of_string t Hvalid) as Hback.
  split; [exact Hback|].
  apply (create_laporan_inserts fault now members d x y z); auto.
  right. eauto.
Qed.

Lemma create_laporan_accepts_listed_timestamp_witness :
  datetime_of_string (isoformat_seconds (Datetime 2024 2 29 23 59 59 0))
  = Some (Datetime 2024 2 29 23 59 59 0)
  /\ create_laporan no_fault sample_now (Some request_at) sample_db
     = (Ok (created (ai_laporan sample_db)),
        inserted sample_db
          (LaporanRec (ai_laporan sample_db) 10 1 1 (Datetime 2024 2 29 23 59 59 0)
             (Some "disiram"))).
Proof.
  apply (create_laporan_accepts_listed_timestamp no_fault sample_now
           [("id_tanaman", JInt 10); ("id_petugas", JStr "1"); ("id_kegiatan", JInt 1);
            ("tanggal", JStr "2024-02-29 23:59:59"); ("isi_laporan", JStr "disiram")]
           sample_db (JInt 10) (JStr "1") (JInt 1) 10 1 1 (Some "disiram")
           (Datetime 2024 2 29 23 59 59 0));
    reflexivity.
Defined.
